(** * AQO: query preprocessing and cardinality estimation hooks

    A shallow embedding of [aqo/preprocessing.c] (the planner hook
    [aqo_planner], which classifies a query and resolves its behaviour
    flags), of [aqo/cardinality_hooks.c] (the five row-count hooks) and of
    [aqo/profile_mem.c] (the table of profiled execution times), with the
    properties of the classifier, of the prediction dispatcher and of the
    profiling table proved over it.

    Conventions of the embedding:
    - a C [int] is a [Z]; the narrowing cast [(uint32)] of the planner hook
      is written out as a remainder modulo [2^32], and so is the
      wrap-around of the products of [profile_mem.c];
    - a C [double] is a primitive IEEE-754 binary64 [float], so that the
      comparisons of the code keep their behaviour on NaN and on signed
      zeros;
    - pointers to objects of the host planner that the code only passes on
      (clauses, paths, the planner root) are opaque handles;
    - the globals of a backend are the fields of one [Backend] record that
      every function threads; the calls to the knowledge base, to the lock
      manager, to the default planner and estimators and to the helpers that
      extract clauses are recorded in its [trace], the latest call first;
    - functions of the host, of libm and of the other AQO modules are the
      fields of a [Host] record, except those of the storage and
      selectivity cache modules, which keep state of the backend and are
      modelled on it; configuration variables and the state of the server
      are the fields of [Env]. *)

From Stdlib Require Import ZArith List String Bool Lia.
From Stdlib Require Import Numbers.Cyclic.Int63.Uint63.
From Stdlib Require Import Floats.PrimFloat Floats.SpecFloat Floats.FloatOps Floats.FloatAxioms.
From stdpp Require Import base gmap sets.
Import ListNotations.

Set Warnings "-register-all".

Local Open Scope Z_scope.
Local Open Scope bool_scope.

(** ** Numbers *)

Definition double := float.

Definition d_zero : double := 0%float.
Definition d_one : double := 1%float.
Definition d_minus_one : double := (-1)%float.

(** [x >= 0], [x > 0], [x <= 0] and [x < 0] of C, the integer constant
    promoted to [0.0]; all four are false when [x] is NaN. *)
Definition d_ge0 (x : double) : bool := PrimFloat.leb d_zero x.
Definition d_gt0 (x : double) : bool := PrimFloat.ltb d_zero x.
Definition d_le0 (x : double) : bool := PrimFloat.leb x d_zero.
Definition d_lt0 (x : double) : bool := PrimFloat.ltb x d_zero.

(** Conversion of an [int] to [double] (exact on the 32-bit range). *)
Definition double_of_int (n : Z) : double :=
  if n <? 0 then PrimFloat.opp (PrimFloat.of_uint63 (Uint63.of_Z (- n)))
  else PrimFloat.of_uint63 (Uint63.of_Z n).

(** The cast [(uint32) n] of an [int]. *)
Definition uint32_of_int (n : Z) : Z := n mod 2 ^ 32.

(** ** Host objects *)

Definition Oid := Z.
Definition InvalidOid : Oid := 0.
Definition OidIsValid (o : Oid) : bool := negb (o =? InvalidOid).

(** Opaque handles. *)
Definition Clause := Z.
Definition PathPtr := Z.
Definition PlannerInfo := Z.
Definition ParamListInfo := Z.
Definition PlannedStmt := Z.
Definition Relids := list Z.

Inductive CmdType :=
| CMD_UNKNOWN | CMD_SELECT | CMD_UPDATE | CMD_INSERT | CMD_DELETE
| CMD_UTILITY | CMD_NOTHING.

Inductive RTEKind :=
| RTE_RELATION | RTE_SUBQUERY | RTE_JOIN | RTE_FUNCTION | RTE_OTHER.

Record RangeTblEntry := {
  rtekind : RTEKind;
  rte_relid : Oid
}.

(** A parse tree, as far as [isQueryUsingSystemRelation_walker] looks at it:
    a query node carries its command type and range table, and every node
    carries the children that the host's tree walkers visit. *)
Inductive Node :=
| T_Null
| T_Query (commandType : CmdType) (rtable : list RangeTblEntry)
          (subnodes : list Node)
| T_Expr (args : list Node).

Definition commandType_of (parse : Node) : CmdType :=
  match parse with
  | T_Query c _ _ => c
  | _ => CMD_UNKNOWN
  end.

Inductive JoinType := JOIN_INNER | JOIN_LEFT | JOIN_FULL | JOIN_RIGHT
                    | JOIN_SEMI | JOIN_ANTI.

Record SpecialJoinInfo := {
  sjinfo_ptr : Z;
  jointype : JoinType
}.

(** The fields of a relation node that the hooks read or write. *)
Record RelOptInfo := {
  relid : Z;
  relids : Relids;
  baserestrictinfo : list Clause;
  cheapest_total_path : PathPtr;
  rows : double;
  predicted_cardinality : double;
  fss_hash : Z
}.

Definition set_rows (v : double) (r : RelOptInfo) : RelOptInfo :=
  {| relid := relid r; relids := relids r;
     baserestrictinfo := baserestrictinfo r;
     cheapest_total_path := cheapest_total_path r;
     rows := v;
     predicted_cardinality := predicted_cardinality r;
     fss_hash := fss_hash r |}.

Definition set_predicted_cardinality (v : double) (r : RelOptInfo)
  : RelOptInfo :=
  {| relid := relid r; relids := relids r;
     baserestrictinfo := baserestrictinfo r;
     cheapest_total_path := cheapest_total_path r;
     rows := rows r;
     predicted_cardinality := v;
     fss_hash := fss_hash r |}.

Definition set_fss_hash (v : Z) (r : RelOptInfo) : RelOptInfo :=
  {| relid := relid r; relids := relids r;
     baserestrictinfo := baserestrictinfo r;
     cheapest_total_path := cheapest_total_path r;
     rows := rows r;
     predicted_cardinality := predicted_cardinality r;
     fss_hash := v |}.

(** A path: its handle, the relation it scans and its row estimate. *)
Record Path := {
  path_ptr : PathPtr;
  parent : RelOptInfo;
  path_rows : double
}.

Record ParamPathInfo := {
  ppi_predicted_ppi_rows : double;
  ppi_fss_ppi_hash : double
}.

(** ** The query context *)

Inductive AQO_MODE :=
| AQO_MODE_INTELLIGENT
| AQO_MODE_FORCED
| AQO_MODE_CONTROLLED
| AQO_MODE_LEARN
| AQO_MODE_FROZEN
| AQO_MODE_DISABLED.

Definition AQO_MODE_eqb (a b : AQO_MODE) : bool :=
  match a, b with
  | AQO_MODE_INTELLIGENT, AQO_MODE_INTELLIGENT
  | AQO_MODE_FORCED, AQO_MODE_FORCED
  | AQO_MODE_CONTROLLED, AQO_MODE_CONTROLLED
  | AQO_MODE_LEARN, AQO_MODE_LEARN
  | AQO_MODE_FROZEN, AQO_MODE_FROZEN
  | AQO_MODE_DISABLED, AQO_MODE_DISABLED => true
  | _, _ => false
  end.

Record QueryContextData := {
  query_hash : Z;
  learn_aqo : bool;
  use_aqo : bool;
  fspace_hash : Z;
  auto_tuning : bool;
  collect_stat : bool;
  adding_query : bool;
  explain_only : bool;
  start_planning_time : Z;
  planning_time : double
}.

(** A row of [aqo_queries], as [find_query] hands it over in
    [query_params[1..4]]. *)
Record ClassRow := {
  row_learn_aqo : bool;
  row_use_aqo : bool;
  row_fspace_hash : Z;
  row_auto_tuning : bool
}.

(** ** Calls that leave the two modules *)

Inductive Event :=
| EvSelectivityCacheClear
| EvFindQuery (qhash : Z)
| EvAddDeactivatedQuery (qhash : Z)
| EvLockAcquire (key1 key2 : Z)
| EvUpdateQuery (qhash fhash : Z) (learn use auto : bool)
| EvAddQueryText (qhash : Z) (text : string)
| EvLockRelease (key1 key2 : Z)
| EvCallDefaultPlanner
| EvGetSelectivities (clauses : list Clause)
| EvGetClauses (restrictinfo : list Clause)
| EvGetListOfRelids (r : Relids)
| EvGetPathClauses (p : PathPtr)
| EvCacheSelectivity (clause_hash relid : Z) (reloid : Oid) (s : double)
| EvPredictForRelation (clauses : list Clause) (relidslist : list Z)
| EvLoadFss (fhash fss : Z)
| EvDefaultEstimator.

Definition is_kb_access (e : Event) : bool :=
  match e with
  | EvFindQuery _ | EvUpdateQuery _ _ _ _ _ | EvAddQueryText _ _
  | EvPredictForRelation _ _ | EvLoadFss _ _ => true
  | _ => false
  end.

(** ** The state of a backend *)

(** What [cache_selectivity] is called with: the hash of a clause, the
    index and the oid of the relation, and the selectivity. The first three
    are the key of the selectivity cache, which holds one selectivity for a
    key. *)
Definition CacheEntry : Type := Z * Z * Oid * double.

Definition CacheKey : Type := Z * Z * Z.

Definition cache_key (e : CacheEntry) : CacheKey := fst e.

Definition cache_value (e : CacheEntry) : double := snd e.

Record Backend := {
  query_context : QueryContextData;
  cur_classes : list Z;
  aqo_enabled : bool;
  deactivated_queries : gset Z;
  aqo_queries : gmap Z ClassRow;
  aqo_query_texts : gmap Z string;
  predicted_ppi_rows : double;
  fss_ppi_hash : double;
  selectivity_cache : gmap (Z * Z * Z) double;
  trace : list Event
}.

Definition with_query_context (q : QueryContextData) (b : Backend) : Backend :=
  {| query_context := q; cur_classes := cur_classes b;
     aqo_enabled := aqo_enabled b;
     deactivated_queries := deactivated_queries b;
     aqo_queries := aqo_queries b; aqo_query_texts := aqo_query_texts b;
     predicted_ppi_rows := predicted_ppi_rows b;
     fss_ppi_hash := fss_ppi_hash b;
     selectivity_cache := selectivity_cache b; trace := trace b |}.

Definition with_cur_classes (l : list Z) (b : Backend) : Backend :=
  {| query_context := query_context b; cur_classes := l;
     aqo_enabled := aqo_enabled b;
     deactivated_queries := deactivated_queries b;
     aqo_queries := aqo_queries b; aqo_query_texts := aqo_query_texts b;
     predicted_ppi_rows := predicted_ppi_rows b;
     fss_ppi_hash := fss_ppi_hash b;
     selectivity_cache := selectivity_cache b; trace := trace b |}.

Definition with_aqo_enabled (v : bool) (b : Backend) : Backend :=
  {| query_context := query_context b; cur_classes := cur_classes b;
     aqo_enabled := v;
     deactivated_queries := deactivated_queries b;
     aqo_queries := aqo_queries b; aqo_query_texts := aqo_query_texts b;
     predicted_ppi_rows := predicted_ppi_rows b;
     fss_ppi_hash := fss_ppi_hash b;
     selectivity_cache := selectivity_cache b; trace := trace b |}.

Definition with_deactivated_queries (d : gset Z) (b : Backend) : Backend :=
  {| query_context := query_context b; cur_classes := cur_classes b;
     aqo_enabled := aqo_enabled b;
     deactivated_queries := d;
     aqo_queries := aqo_queries b; aqo_query_texts := aqo_query_texts b;
     predicted_ppi_rows := predicted_ppi_rows b;
     fss_ppi_hash := fss_ppi_hash b;
     selectivity_cache := selectivity_cache b; trace := trace b |}.

Definition with_aqo_queries (m : gmap Z ClassRow) (b : Backend) : Backend :=
  {| query_context := query_context b; cur_classes := cur_classes b;
     aqo_enabled := aqo_enabled b;
     deactivated_queries := deactivated_queries b;
     aqo_queries := m; aqo_query_texts := aqo_query_texts b;
     predicted_ppi_rows := predicted_ppi_rows b;
     fss_ppi_hash := fss_ppi_hash b;
     selectivity_cache := selectivity_cache b; trace := trace b |}.

Definition with_aqo_query_texts (m : gmap Z string) (b : Backend) : Backend :=
  {| query_context := query_context b; cur_classes := cur_classes b;
     aqo_enabled := aqo_enabled b;
     deactivated_queries := deactivated_queries b;
     aqo_queries := aqo_queries b; aqo_query_texts := m;
     predicted_ppi_rows := predicted_ppi_rows b;
     fss_ppi_hash := fss_ppi_hash b;
     selectivity_cache := selectivity_cache b; trace := trace b |}.

Definition with_ppi (p f : double) (b : Backend) : Backend :=
  {| query_context := query_context b; cur_classes := cur_classes b;
     aqo_enabled := aqo_enabled b;
     deactivated_queries := deactivated_queries b;
     aqo_queries := aqo_queries b; aqo_query_texts := aqo_query_texts b;
     predicted_ppi_rows := p;
     fss_ppi_hash := f;
     selectivity_cache := selectivity_cache b; trace := trace b |}.

Definition with_trace (t : list Event) (b : Backend) : Backend :=
  {| query_context := query_context b; cur_classes := cur_classes b;
     aqo_enabled := aqo_enabled b;
     deactivated_queries := deactivated_queries b;
     aqo_queries := aqo_queries b; aqo_query_texts := aqo_query_texts b;
     predicted_ppi_rows := predicted_ppi_rows b;
     fss_ppi_hash := fss_ppi_hash b;
     selectivity_cache := selectivity_cache b; trace := t |}.

Definition with_selectivity_cache (c : gmap (Z * Z * Z) double) (b : Backend)
  : Backend :=
  {| query_context := query_context b; cur_classes := cur_classes b;
     aqo_enabled := aqo_enabled b;
     deactivated_queries := deactivated_queries b;
     aqo_queries := aqo_queries b; aqo_query_texts := aqo_query_texts b;
     predicted_ppi_rows := predicted_ppi_rows b;
     fss_ppi_hash := fss_ppi_hash b;
     selectivity_cache := c; trace := trace b |}.

(** ** A state monad with traps

    A computation runs on a backend and either returns a value with the new
    backend, or stops on a failed [Assert]. *)

Inductive Outcome (A : Type) : Type :=
| Returned (a : A) (b : Backend)
| Trapped (b : Backend).
Arguments Returned {A} a b.
Arguments Trapped {A} b.

Definition M (A : Type) : Type := Backend -> Outcome A.

Definition ret {A} (a : A) : M A := fun b => Returned a b.

Definition bind {A B} (c : M A) (k : A -> M B) : M B :=
  fun b =>
    match c b with
    | Returned a b' => k a b'
    | Trapped b' => Trapped b'
    end.

Notation "'let*' x ':=' c 'in' k" := (bind c (fun x => k))
  (at level 10, x pattern, c at level 200, k at level 200).

Definition get : M Backend := fun b => Returned b b.
Definition modify (f : Backend -> Backend) : M unit :=
  fun b => Returned tt (f b).
Definition emit (e : Event) : M unit :=
  modify (fun b => with_trace (e :: trace b) b).
Definition when (c : bool) (k : M unit) : M unit :=
  if c then k else ret tt.

(** What a computation leaves behind, and the calls in the order they were
    made. *)
Definition exec {A} (c : M A) (b : Backend) : Backend :=
  match c b with
  | Returned _ b' => b'
  | Trapped b' => b'
  end.

Definition history (b : Backend) : list Event := rev (trace b).

Definition get_query_context : M QueryContextData :=
  let* b := get in ret (query_context b).
Definition update_query_context (f : QueryContextData -> QueryContextData)
  : M unit :=
  modify (fun b => with_query_context (f (query_context b)) b).

(** ** Configuration and collaborators *)

(** Configuration variables and the state of the server, read by the
    planner hook. *)
Record Env := {
  creating_extension : bool;
  (** [get_extension_oid("aqo", true) != InvalidOid] *)
  aqo_extension_installed : bool;
  IsInParallelMode : bool;
  IsParallelWorker : bool;
  RecoveryInProgress : bool;
  aqo_mode : AQO_MODE;
  force_collect_stat : bool;
  aqo_profile_enable : Z;
  aqo_profile_classes : Z;
  application_name : string;
  (** whether the build checks [Assert]s *)
  USE_ASSERT_CHECKING : bool;
  (** the clock, as [INSTR_TIME_SET_CURRENT] reads it *)
  current_time : Z
}.

(** The functions the two modules call and do not define. The macro
    [IsQueryDisabled] of [aqo.h] is one of them: it is a test on the query
    context. The default estimators return the row count they compute; for
    the two [void] ones it is the value they store in [rel->rows]. *)
Record Host := {
  IsCatalogRelation : Oid -> bool;
  RelationGetRelationName : Oid -> string;
  prev_planner_hook :
    option (Node -> option string -> Z -> ParamListInfo -> PlannedStmt);
  standard_planner :
    Node -> option string -> Z -> ParamListInfo -> PlannedStmt;
  IsQueryDisabled : QueryContextData -> bool;
  get_query_hash : Node -> option string -> Z;
  get_grouped_exprs_hash : Z -> list Clause -> Z;
  get_eclasses : list Clause -> Z * list Z * list Z;
  restrictinfo_clause : Clause -> Clause;
  get_clause_hash : Clause -> Z -> list Z -> list Z -> Z;
  (** [get_selectivities] and [get_path_clauses] may read the selectivity
      cache, their first argument here. *)
  get_selectivities :
    gmap (Z * Z * Z) double -> PlannerInfo -> list Clause -> Z -> JoinType ->
    option SpecialJoinInfo -> list double;
  aqo_get_clauses : PlannerInfo -> list Clause -> list Clause;
  get_list_of_relids : PlannerInfo -> Relids -> list Z;
  get_path_clauses :
    gmap (Z * Z * Z) double -> PathPtr -> PlannerInfo ->
    list Clause * list double;
  planner_rt_fetch_relid : Z -> PlannerInfo -> Oid;
  (** [predict_for_relation] reads the knowledge base for the feature space
      of the query context; the second component is what it leaves in
      [*fss]. *)
  predict_for_relation :
    QueryContextData -> list Clause -> list double -> list Z -> double * Z;
  (** [load_fss(fhash, fss, 0, NULL, &target, &rows, NULL)]: the target and
      the number of rows when a row is found. *)
  load_fss : Z -> Z -> option (double * Z);
  exp : double -> double;
  prev_set_baserel_rows_estimate_hook :
    option (PlannerInfo -> RelOptInfo -> double);
  set_baserel_rows_estimate_standard : PlannerInfo -> RelOptInfo -> double;
  prev_get_parameterized_baserel_size_hook :
    option (PlannerInfo -> RelOptInfo -> list Clause -> double);
  get_parameterized_baserel_size_standard :
    PlannerInfo -> RelOptInfo -> list Clause -> double;
  prev_get_parameterized_joinrel_size_hook :
    option (PlannerInfo -> RelOptInfo -> PathPtr -> PathPtr ->
            SpecialJoinInfo -> list Clause -> double);
  get_parameterized_joinrel_size_standard :
    PlannerInfo -> RelOptInfo -> PathPtr -> PathPtr ->
    SpecialJoinInfo -> list Clause -> double;
  prev_set_joinrel_size_estimates_hook :
    option (PlannerInfo -> RelOptInfo -> RelOptInfo -> RelOptInfo ->
            SpecialJoinInfo -> list Clause -> double);
  set_joinrel_size_estimates_standard :
    PlannerInfo -> RelOptInfo -> RelOptInfo -> RelOptInfo ->
    SpecialJoinInfo -> list Clause -> double;
  prev_estimate_num_groups_hook :
    option (PlannerInfo -> list Clause -> Path -> RelOptInfo -> bool ->
            double);
  estimate_num_groups :
    PlannerInfo -> list Clause -> double -> bool -> double
}.

(** [Assert(cond)]: a trap in a build that checks assertions, nothing
    otherwise. *)
Definition Assert (env : Env) (cond : bool) : M unit :=
  fun b => if USE_ASSERT_CHECKING env && negb cond
           then Trapped b else Returned tt b.

(** ** Lists of integers and strings *)

Definition list_member_int (l : list Z) (d : Z) : bool :=
  existsb (Z.eqb d) l.

Definition lappend_int (l : list Z) (d : Z) : list Z := l ++ [d].

(** [strstr(haystack, needle) != NULL] *)
Fixpoint strstr_found (haystack needle : string) : bool :=
  if String.prefix needle haystack then true
  else match haystack with
       | EmptyString => false
       | String _ rest => strstr_found rest needle
       end.

(** ** The knowledge base and the deny-list *)

(** Modelled from the spec: [query_is_deactivated] is defined in the
    storage module, which is not among the sources; the spec gives it as
    [is_deactivated(query_hash)] on a deny-list, here a finite set. *)
Definition query_is_deactivated (qhash : Z) : M bool :=
  let* b := get in ret (bool_decide (qhash ∈ deactivated_queries b)).

(** Modelled from the spec: [add_deactivated_query] is defined in the
    storage module too; the spec gives it as [deactivate(query_hash)]. *)
Definition add_deactivated_query (qhash : Z) : M unit :=
  let* _ := emit (EvAddDeactivatedQuery qhash) in
  modify (fun b =>
            with_deactivated_queries ({[ qhash ]} ∪ deactivated_queries b) b).

(** Modelled from the spec: [find_query] is defined in the storage module,
    which is not among the sources; the spec gives it as
    [find_class(query_hash)], an optional row of flags, here the lookup in
    a finite map keyed by the query hash. *)
Definition find_query (qhash : Z) : M (option ClassRow) :=
  let* _ := emit (EvFindQuery qhash) in
  let* b := get in ret (aqo_queries b !! qhash).

(** Modelled from the spec: [update_query] is defined in the storage
    module; the spec gives it as [upsert_class]. *)
Definition update_query (qhash fhash : Z) (learn use auto : bool) : M unit :=
  let* _ := emit (EvUpdateQuery qhash fhash learn use auto) in
  modify (fun b =>
            with_aqo_queries
              (<[ qhash := {| row_learn_aqo := learn; row_use_aqo := use;
                              row_fspace_hash := fhash;
                              row_auto_tuning := auto |} ]> (aqo_queries b))
              b).

(** Modelled from the spec: [add_query_text] is defined in the storage
    module; the spec gives it as [store_query_text]. *)
Definition add_query_text (qhash : Z) (text : string) : M unit :=
  let* _ := emit (EvAddQueryText qhash text) in
  modify (fun b =>
            with_aqo_query_texts (<[ qhash := text ]> (aqo_query_texts b)) b).

(** The lock manager of the host, called on the tag
    [init_lock_tag(&tag, key1, key2)] in [ExclusiveLock] mode. *)
Definition LockAcquire (key1 key2 : Z) : M unit :=
  emit (EvLockAcquire key1 key2).
Definition LockRelease (key1 key2 : Z) : M unit :=
  emit (EvLockRelease key1 key2).

(** Modelled from the spec: [selectivity_cache_clear] is defined in the
    selectivity cache module, which is not among the sources; the spec
    gives it as the clearing of the cache when a new query is classified. *)
Definition selectivity_cache_clear : M unit :=
  let* _ := emit EvSelectivityCacheClear in
  modify (with_selectivity_cache ∅).

(** Modelled from the spec: [cache_selectivity] is defined in the selectivity
    cache module too; the spec gives it as [cache_put] into a mapping from
    the clause signature and the two identities of the relation to a
    selectivity, so a put under a key that is in the cache replaces its
    selectivity. *)
Definition cache_selectivity (clause_hash relid : Z) (reloid : Oid)
           (s : double) : M unit :=
  let* _ := emit (EvCacheSelectivity clause_hash relid reloid s) in
  modify (fun b =>
            with_selectivity_cache
              (<[ (clause_hash, relid, reloid) := s ]> (selectivity_cache b))
              b).

(** ** Assignments to the fields of the query context *)

Definition set_query_hash (v : Z) (q : QueryContextData) :=
  {| query_hash := v; learn_aqo := learn_aqo q; use_aqo := use_aqo q;
     fspace_hash := fspace_hash q; auto_tuning := auto_tuning q;
     collect_stat := collect_stat q; adding_query := adding_query q;
     explain_only := explain_only q;
     start_planning_time := start_planning_time q;
     planning_time := planning_time q |}.

Definition set_learn_aqo (v : bool) (q : QueryContextData) :=
  {| query_hash := query_hash q; learn_aqo := v; use_aqo := use_aqo q;
     fspace_hash := fspace_hash q; auto_tuning := auto_tuning q;
     collect_stat := collect_stat q; adding_query := adding_query q;
     explain_only := explain_only q;
     start_planning_time := start_planning_time q;
     planning_time := planning_time q |}.

Definition set_use_aqo (v : bool) (q : QueryContextData) :=
  {| query_hash := query_hash q; learn_aqo := learn_aqo q; use_aqo := v;
     fspace_hash := fspace_hash q; auto_tuning := auto_tuning q;
     collect_stat := collect_stat q; adding_query := adding_query q;
     explain_only := explain_only q;
     start_planning_time := start_planning_time q;
     planning_time := planning_time q |}.

Definition set_fspace_hash (v : Z) (q : QueryContextData) :=
  {| query_hash := query_hash q; learn_aqo := learn_aqo q;
     use_aqo := use_aqo q;
     fspace_hash := v; auto_tuning := auto_tuning q;
     collect_stat := collect_stat q; adding_query := adding_query q;
     explain_only := explain_only q;
     start_planning_time := start_planning_time q;
     planning_time := planning_time q |}.

Definition set_auto_tuning (v : bool) (q : QueryContextData) :=
  {| query_hash := query_hash q; learn_aqo := learn_aqo q;
     use_aqo := use_aqo q;
     fspace_hash := fspace_hash q; auto_tuning := v;
     collect_stat := collect_stat q; adding_query := adding_query q;
     explain_only := explain_only q;
     start_planning_time := start_planning_time q;
     planning_time := planning_time q |}.

Definition set_collect_stat (v : bool) (q : QueryContextData) :=
  {| query_hash := query_hash q; learn_aqo := learn_aqo q;
     use_aqo := use_aqo q;
     fspace_hash := fspace_hash q; auto_tuning := auto_tuning q;
     collect_stat := v; adding_query := adding_query q;
     explain_only := explain_only q;
     start_planning_time := start_planning_time q;
     planning_time := planning_time q |}.

Definition set_adding_query (v : bool) (q : QueryContextData) :=
  {| query_hash := query_hash q; learn_aqo := learn_aqo q;
     use_aqo := use_aqo q;
     fspace_hash := fspace_hash q; auto_tuning := auto_tuning q;
     collect_stat := collect_stat q; adding_query := v;
     explain_only := explain_only q;
     start_planning_time := start_planning_time q;
     planning_time := planning_time q |}.

Definition set_explain_only (v : bool) (q : QueryContextData) :=
  {| query_hash := query_hash q; learn_aqo := learn_aqo q;
     use_aqo := use_aqo q;
     fspace_hash := fspace_hash q; auto_tuning := auto_tuning q;
     collect_stat := collect_stat q; adding_query := adding_query q;
     explain_only := v;
     start_planning_time := start_planning_time q;
     planning_time := planning_time q |}.

Definition set_start_planning_time (v : Z) (q : QueryContextData) :=
  {| query_hash := query_hash q; learn_aqo := learn_aqo q;
     use_aqo := use_aqo q;
     fspace_hash := fspace_hash q; auto_tuning := auto_tuning q;
     collect_stat := collect_stat q; adding_query := adding_query q;
     explain_only := explain_only q;
     start_planning_time := v;
     planning_time := planning_time q |}.

Definition set_planning_time (v : double) (q : QueryContextData) :=
  {| query_hash := query_hash q; learn_aqo := learn_aqo q;
     use_aqo := use_aqo q;
     fspace_hash := fspace_hash q; auto_tuning := auto_tuning q;
     collect_stat := collect_stat q; adding_query := adding_query q;
     explain_only := explain_only q;
     start_planning_time := start_planning_time q;
     planning_time := v |}.

(** [query_context.field = v;] *)
Definition assign {V} (setter : V -> QueryContextData -> QueryContextData)
           (v : V) : M unit :=
  update_query_context (setter v).

(** ** preprocessing.c *)

Module Preprocessing.
Section WithHost.

Context (host : Host) (env : Env).

Definition call_default_planner (parse : Node) (query_string : option string)
           (cursorOptions : Z) (boundParams : ParamListInfo)
  : M PlannedStmt :=
  let* _ := emit EvCallDefaultPlanner in
  match prev_planner_hook host with
  | Some hook => ret (hook parse query_string cursorOptions boundParams)
  | None =>
      ret (standard_planner host parse query_string cursorOptions boundParams)
  end.

Definition aqoIsEnabled : M bool :=
  if creating_extension env then ret false
  else
    let* b := get in
    if aqo_enabled b then ret true
    else
      let* _ := when (aqo_extension_installed env)
                     (modify (with_aqo_enabled true)) in
      let* b' := get in
      ret (aqo_enabled b').

Definition disable_aqo_for_query : M unit :=
  let* _ := assign set_learn_aqo false in
  let* _ := assign set_use_aqo false in
  let* _ := assign set_auto_tuning false in
  let* _ := assign set_collect_stat false in
  let* _ := assign set_adding_query false in
  let* _ := assign set_explain_only false in
  let* _ := assign set_start_planning_time 0 in
  assign set_planning_time d_minus_one.

Definition IsAQORelation (rel : Oid) : bool :=
  let relname := RelationGetRelationName host rel in
  String.eqb relname "aqo_data" ||
  String.eqb relname "aqo_query_texts" ||
  String.eqb relname "aqo_query_stat" ||
  String.eqb relname "aqo_queries" ||
  String.eqb relname "aqo_ignorance".

(** The body of the loop over the range table: whether the entry makes the
    walker return true. *)
Definition rte_is_system (rte : RangeTblEntry) : bool :=
  match rtekind rte with
  | RTE_RELATION =>
      let is_catalog := IsCatalogRelation host (rte_relid rte) in
      let is_aqo_rel := IsAQORelation (rte_relid rte) in
      is_catalog || is_aqo_rel
  | _ => false
  end.

Fixpoint isQueryUsingSystemRelation_walker (node : Node) : bool :=
  match node with
  | T_Null => false
  | T_Query _ rtable subnodes =>
      if existsb rte_is_system rtable then true
      else existsb isQueryUsingSystemRelation_walker subnodes
  | T_Expr args => existsb isQueryUsingSystemRelation_walker args
  end.

Definition isQueryUsingSystemRelation (query : Node) : bool :=
  isQueryUsingSystemRelation_walker query.

Definition is_dml (c : CmdType) : bool :=
  match c with
  | CMD_SELECT | CMD_INSERT | CMD_UPDATE | CMD_DELETE => true
  | _ => false
  end.

(** The condition of the first [if] of [aqo_planner] (lines 150-160); only
    [aqoIsEnabled], evaluated first, has an effect. *)
Definition planner_bypass (parse : Node) : M bool :=
  let* enabled := aqoIsEnabled in
  ret (negb enabled ||
       negb (is_dml (commandType_of parse)) ||
       creating_extension env ||
       IsInParallelMode env || IsParallelWorker env ||
       (AQO_MODE_eqb (aqo_mode env) AQO_MODE_DISABLED &&
        negb (force_collect_stat env) && (aqo_profile_enable env <=? 0)) ||
       strstr_found (application_name env) "postgres_fdw" ||
       strstr_found (application_name env) "pgfdw:" ||
       isQueryUsingSystemRelation parse ||
       RecoveryInProgress env).

(** The [switch] for a class that [find_query] did not find
    (lines 209-257). *)
Definition new_class_settings : M unit :=
  let* q := get_query_context in
  match aqo_mode env with
  | AQO_MODE_INTELLIGENT =>
      let* _ := assign set_adding_query true in
      let* _ := assign set_learn_aqo true in
      let* _ := assign set_use_aqo false in
      let* _ := assign set_fspace_hash (query_hash q) in
      let* _ := assign set_auto_tuning true in
      assign set_collect_stat true
  | AQO_MODE_FORCED =>
      let* _ := assign set_adding_query false in
      let* _ := assign set_learn_aqo true in
      let* _ := assign set_use_aqo true in
      let* _ := assign set_auto_tuning false in
      let* _ := assign set_fspace_hash 0 in
      assign set_collect_stat false
  | AQO_MODE_CONTROLLED
  | AQO_MODE_FROZEN =>
      let* _ := assign set_adding_query false in
      let* _ := assign set_learn_aqo false in
      let* _ := assign set_use_aqo false in
      let* _ := assign set_auto_tuning false in
      assign set_collect_stat false
  | AQO_MODE_LEARN =>
      let* _ := assign set_adding_query true in
      let* _ := assign set_learn_aqo true in
      let* _ := assign set_use_aqo true in
      let* _ := assign set_fspace_hash (query_hash q) in
      let* _ := assign set_auto_tuning false in
      assign set_collect_stat true
  | AQO_MODE_DISABLED =>
      Assert env false
  end.

(** The branch for a class that exists in the knowledge base
    (lines 258-309). *)
Definition stored_class_settings (row : ClassRow) : M unit :=
  let* _ := assign set_adding_query false in
  let* _ := assign set_learn_aqo (row_learn_aqo row) in
  let* _ := assign set_use_aqo (row_use_aqo row) in
  let* _ := assign set_fspace_hash (row_fspace_hash row) in
  let* _ := assign set_auto_tuning (row_auto_tuning row) in
  let* _ := assign set_collect_stat (row_auto_tuning row) in
  let* q := get_query_context in
  let* _ := when (negb (learn_aqo q) && negb (use_aqo q) &&
                  negb (auto_tuning q) && negb (force_collect_stat env))
                 (add_deactivated_query (query_hash q)) in
  match aqo_mode env with
  | AQO_MODE_FROZEN =>
      let* _ := assign set_learn_aqo false in
      let* _ := assign set_auto_tuning false in
      assign set_collect_stat false
  | AQO_MODE_LEARN =>
      let* _ := assign set_collect_stat true in
      assign set_fspace_hash (query_hash q)
  | AQO_MODE_INTELLIGENT
  | AQO_MODE_FORCED
  | AQO_MODE_CONTROLLED
  | AQO_MODE_DISABLED => ret tt
  end.

(** Lines 199-309: the settings of the class, up to the label
    [ignore_query_settings]; the result is [query_is_stored]. *)
Definition resolve_query_settings : M bool :=
  if AQO_MODE_eqb (aqo_mode env) AQO_MODE_DISABLED then
    let* _ := disable_aqo_for_query in
    ret false
  else
    let* q := get_query_context in
    let* found := find_query (query_hash q) in
    match found with
    | None => let* _ := new_class_settings in ret false
    | Some row => let* _ := stored_class_settings row in ret true
    end.

(** Lines 311-337: the class and its text are added under the lock. *)
Definition store_new_class (query_is_stored : bool)
           (query_string : option string) : M unit :=
  let* q := get_query_context in
  when (negb query_is_stored &&
        (adding_query q || force_collect_stat env))
       (let* _ := LockAcquire (uint32_of_int (query_hash q)) 0 in
        let* _ := update_query (query_hash q) (fspace_hash q)
                               (learn_aqo q) (use_aqo q) (auto_tuning q) in
        let* _ := match query_string with
                  | Some text => add_query_text (query_hash q) text
                  | None => ret tt
                  end in
        LockRelease (uint32_of_int (query_hash q)) 0).

(** Lines 339-358. *)
Definition finish_query_settings : M unit :=
  let* q := get_query_context in
  let* _ := when (force_collect_stat env)
                 (let* _ := assign set_collect_stat true in
                  assign set_fspace_hash (query_hash q)) in
  let* _ := when ((aqo_profile_classes env >? 0) &&
                  negb (aqo_profile_enable env =? 0))
                 (assign set_planning_time d_zero) in
  let* q' := get_query_context in
  when (negb (IsQueryDisabled host q'))
       (assign set_start_planning_time (current_time env)).

(** The planner hook. The [elog(DEBUG1, ...)] of line 192 and the switches
    of memory context around [lappend_int] have no counterpart here. *)
Definition aqo_planner (parse : Node) (query_string : option string)
           (cursorOptions : Z) (boundParams : ParamListInfo)
  : M PlannedStmt :=
  let* bypass := planner_bypass parse in
  if bypass then
    let* _ := disable_aqo_for_query in
    call_default_planner parse query_string cursorOptions boundParams
  else
    let* _ := selectivity_cache_clear in
    let* _ := assign set_query_hash (get_query_hash host parse query_string) in
    let* q := get_query_context in
    let* deactivated := query_is_deactivated (query_hash q) in
    let* b := get in
    if deactivated || list_member_int (cur_classes b) (query_hash q) then
      let* _ := disable_aqo_for_query in
      call_default_planner parse query_string cursorOptions boundParams
    else
      let* _ := modify (fun b =>
                  with_cur_classes
                    (lappend_int (cur_classes b) (query_hash q)) b) in
      let* query_is_stored := resolve_query_settings in
      let* _ := store_new_class query_is_stored query_string in
      let* _ := finish_query_settings in
      call_default_planner parse query_string cursorOptions boundParams.

End WithHost.
End Preprocessing.

(** ** cardinality_hooks.c *)

Module CardinalityHooks.
Section WithHost.

Context (host : Host) (env : Env).

(** Calls to the helpers of the other AQO modules, recorded in the trace. *)
Definition call_get_selectivities (root : PlannerInfo) (clauses : list Clause)
           (varRelid : Z) (jt : JoinType) (sjinfo : option SpecialJoinInfo)
  : M (list double) :=
  let* _ := emit (EvGetSelectivities clauses) in
  let* b := get in
  ret (get_selectivities host (selectivity_cache b)
                         root clauses varRelid jt sjinfo).

Definition call_aqo_get_clauses (root : PlannerInfo)
           (restrictinfo : list Clause) : M (list Clause) :=
  let* _ := emit (EvGetClauses restrictinfo) in
  ret (aqo_get_clauses host root restrictinfo).

Definition call_get_list_of_relids (root : PlannerInfo) (r : Relids)
  : M (list Z) :=
  let* _ := emit (EvGetListOfRelids r) in
  ret (get_list_of_relids host root r).

Definition call_get_path_clauses (p : PathPtr) (root : PlannerInfo)
  : M (list Clause * list double) :=
  let* _ := emit (EvGetPathClauses p) in
  let* b := get in
  ret (get_path_clauses host (selectivity_cache b) p root).

Definition call_predict_for_relation (clauses : list Clause)
           (selectivities : list double) (relidslist : list Z)
  : M (double * Z) :=
  let* _ := emit (EvPredictForRelation clauses relidslist) in
  let* q := get_query_context in
  ret (predict_for_relation host q clauses selectivities relidslist).

Definition call_load_fss (fhash fss : Z) : M (option (double * Z)) :=
  let* _ := emit (EvLoadFss fhash fss) in
  ret (load_fss host fhash fss).

Definition default_set_baserel_rows_estimate (root : PlannerInfo)
           (rel : RelOptInfo) : M RelOptInfo :=
  let* _ := emit EvDefaultEstimator in
  match prev_set_baserel_rows_estimate_hook host with
  | Some hook => ret (set_rows (hook root rel) rel)
  | None => ret (set_rows (set_baserel_rows_estimate_standard host root rel) rel)
  end.

Definition default_get_parameterized_baserel_size (root : PlannerInfo)
           (rel : RelOptInfo) (param_clauses : list Clause) : M double :=
  let* _ := emit EvDefaultEstimator in
  match prev_get_parameterized_baserel_size_hook host with
  | Some hook => ret (hook root rel param_clauses)
  | None =>
      ret (get_parameterized_baserel_size_standard host root rel param_clauses)
  end.

Definition default_get_parameterized_joinrel_size (root : PlannerInfo)
           (rel : RelOptInfo) (outer_path inner_path : PathPtr)
           (sjinfo : SpecialJoinInfo) (restrict_clauses : list Clause)
  : M double :=
  let* _ := emit EvDefaultEstimator in
  match prev_get_parameterized_joinrel_size_hook host with
  | Some hook =>
      ret (hook root rel outer_path inner_path sjinfo restrict_clauses)
  | None =>
      ret (get_parameterized_joinrel_size_standard
             host root rel outer_path inner_path sjinfo restrict_clauses)
  end.

Definition default_set_joinrel_size_estimates (root : PlannerInfo)
           (rel outer_rel inner_rel : RelOptInfo)
           (sjinfo : SpecialJoinInfo) (restrictlist : list Clause)
  : M RelOptInfo :=
  let* _ := emit EvDefaultEstimator in
  match prev_set_joinrel_size_estimates_hook host with
  | Some hook =>
      ret (set_rows (hook root rel outer_rel inner_rel sjinfo restrictlist)
                    rel)
  | None =>
      ret (set_rows (set_joinrel_size_estimates_standard
                       host root rel outer_rel inner_rel sjinfo restrictlist)
                    rel)
  end.

Definition default_estimate_num_groups (root : PlannerInfo)
           (groupExprs : list Clause) (subpath : Path)
           (grouped_rel : RelOptInfo) (pgset : bool) : M double :=
  let input_rows := path_rows subpath in
  let* _ := emit EvDefaultEstimator in
  match prev_estimate_num_groups_hook host with
  | Some hook => ret (hook root groupExprs subpath grouped_rel pgset)
  | None => ret (estimate_num_groups host root groupExprs input_rows pgset)
  end.

(** The list of relation oids handed to the oracle: "predict for a plane
    table only". *)
Definition relids_of_oid (reloid : Oid) : list Z :=
  if OidIsValid reloid then [reloid] else [].

(** The hooks return the relation as they leave it where the C functions
    write on [rel]; the [goto default_estimator] of the code is the local
    function of that name. The calls that free lists have no counterpart
    here. *)
Definition aqo_set_baserel_rows_estimate (root : PlannerInfo)
           (rel : RelOptInfo) : M RelOptInfo :=
  let default_estimator (rel : RelOptInfo) :=
    default_set_baserel_rows_estimate
      root (set_predicted_cardinality d_minus_one rel) in
  let* q := get_query_context in
  if IsQueryDisabled host q then default_estimator rel
  else
    let* selectivities :=
      if use_aqo q || learn_aqo q
      then call_get_selectivities root (baserestrictinfo rel) 0 JOIN_INNER None
      else ret [] in
    if negb (use_aqo q) then default_estimator rel
    else
      let reloid := planner_rt_fetch_relid host (relid rel) root in
      let relidslist := relids_of_oid reloid in
      let* clauses := call_aqo_get_clauses root (baserestrictinfo rel) in
      let* (predicted, fss) :=
        call_predict_for_relation clauses selectivities relidslist in
      let rel := set_fss_hash fss rel in
      if d_ge0 predicted then
        ret (set_predicted_cardinality predicted (set_rows predicted rel))
      else default_estimator rel.

Definition ppi_hook (ppi : ParamPathInfo) : M ParamPathInfo :=
  let* b := get in
  if IsQueryDisabled host (query_context b) then ret ppi
  else ret {| ppi_predicted_ppi_rows := predicted_ppi_rows b;
              ppi_fss_ppi_hash := fss_ppi_hash b |}.

(** The [forboth] loop of [aqo_get_parameterized_baserel_size]; it stops at
    the end of the shorter list. *)
Fixpoint cache_selectivities (nargs : Z) (args_hash eclass_hash : list Z)
         (rti : Z) (reloid : Oid)
         (allclauses : list Clause) (selectivities : list double)
  : M unit :=
  match allclauses, selectivities with
  | l :: allclauses', l2 :: selectivities' =>
      let current_hash :=
        get_clause_hash host (restrictinfo_clause host l)
                        nargs args_hash eclass_hash in
      let* _ := cache_selectivity current_hash rti reloid l2 in
      cache_selectivities nargs args_hash eclass_hash rti reloid
                          allclauses' selectivities'
  | _, _ => ret tt
  end.

Definition aqo_get_parameterized_baserel_size (root : PlannerInfo)
           (rel : RelOptInfo) (param_clauses : list Clause) : M double :=
  let default_estimator :=
    default_get_parameterized_baserel_size root rel param_clauses in
  let* q := get_query_context in
  if IsQueryDisabled host q then default_estimator
  else
    let* (allclauses, selectivities, reloid) :=
      if use_aqo q || learn_aqo q then
        let* pc := call_aqo_get_clauses root param_clauses in
        let* bc := call_aqo_get_clauses root (baserestrictinfo rel) in
        let allclauses := pc ++ bc in
        let* selectivities :=
          call_get_selectivities root allclauses (relid rel) JOIN_INNER None in
        let reloid := planner_rt_fetch_relid host (relid rel) root in
        let '(nargs, args_hash, eclass_hash) := get_eclasses host allclauses in
        let* _ := cache_selectivities nargs args_hash eclass_hash
                                      (relid rel) reloid
                                      allclauses selectivities in
        ret (allclauses, selectivities, reloid)
      else ret ([], [], InvalidOid) in
    if negb (use_aqo q) then default_estimator
    else
      let relidslist := relids_of_oid reloid in
      let* (predicted, fss) :=
        call_predict_for_relation allclauses selectivities relidslist in
      let* _ := modify (with_ppi predicted (double_of_int fss)) in
      if d_ge0 predicted then ret predicted
      else default_estimator.

Definition aqo_set_joinrel_size_estimates (root : PlannerInfo)
           (rel outer_rel inner_rel : RelOptInfo)
           (sjinfo : SpecialJoinInfo) (restrictlist : list Clause)
  : M RelOptInfo :=
  let default_estimator (rel : RelOptInfo) :=
    default_set_joinrel_size_estimates
      root (set_predicted_cardinality d_minus_one rel)
      outer_rel inner_rel sjinfo restrictlist in
  let* q := get_query_context in
  if IsQueryDisabled host q then default_estimator rel
  else
    let* current_selectivities :=
      if use_aqo q || learn_aqo q
      then call_get_selectivities root restrictlist 0
                                  (jointype sjinfo) (Some sjinfo)
      else ret [] in
    if negb (use_aqo q) then default_estimator rel
    else
      let* relidslist := call_get_list_of_relids root (relids rel) in
      let* (outer_clauses, outer_selectivities) :=
        call_get_path_clauses (cheapest_total_path outer_rel) root in
      let* (inner_clauses, inner_selectivities) :=
        call_get_path_clauses (cheapest_total_path inner_rel) root in
      let* rc := call_aqo_get_clauses root restrictlist in
      let allclauses := rc ++ (outer_clauses ++ inner_clauses) in
      let selectivities :=
        current_selectivities ++ (outer_selectivities ++ inner_selectivities) in
      let* (predicted, fss) :=
        call_predict_for_relation allclauses selectivities relidslist in
      let rel := set_fss_hash fss rel in
      if d_ge0 predicted then
        ret (set_rows predicted (set_predicted_cardinality predicted rel))
      else default_estimator rel.

Definition aqo_get_parameterized_joinrel_size (root : PlannerInfo)
           (rel : RelOptInfo) (outer_path inner_path : PathPtr)
           (sjinfo : SpecialJoinInfo) (clauses : list Clause) : M double :=
  let default_estimator :=
    default_get_parameterized_joinrel_size
      root rel outer_path inner_path sjinfo clauses in
  let* q := get_query_context in
  if IsQueryDisabled host q then default_estimator
  else
    let* current_selectivities :=
      if use_aqo q || learn_aqo q
      then call_get_selectivities root clauses 0
                                  (jointype sjinfo) (Some sjinfo)
      else ret [] in
    if negb (use_aqo q) then default_estimator
    else
      let* relidslist := call_get_list_of_relids root (relids rel) in
      let* (outer_clauses, outer_selectivities) :=
        call_get_path_clauses outer_path root in
      let* (inner_clauses, inner_selectivities) :=
        call_get_path_clauses inner_path root in
      let* rc := call_aqo_get_clauses root clauses in
      let allclauses := rc ++ (outer_clauses ++ inner_clauses) in
      let selectivities :=
        current_selectivities ++ (outer_selectivities ++ inner_selectivities) in
      let* (predicted, fss) :=
        call_predict_for_relation allclauses selectivities relidslist in
      let* _ := modify (with_ppi predicted (double_of_int fss)) in
      if d_ge0 predicted then ret predicted
      else default_estimator.

(** The signature of the child of a grouping node (lines 414-431). *)
Definition child_fss_of (root : PlannerInfo) (subpath : Path) : M Z :=
  if d_gt0 (predicted_cardinality (parent subpath)) then
    ret (fss_hash (parent subpath))
  else
    let* relidslist :=
      call_get_list_of_relids root (relids (parent subpath)) in
    let* (clauses, selectivities) :=
      call_get_path_clauses (path_ptr subpath) root in
    let* (_, child_fss) :=
      call_predict_for_relation clauses selectivities relidslist in
    ret child_fss.

(** The result is the returned prediction and the value left in [*fss]. *)
Definition predict_num_groups (root : PlannerInfo) (subpath : Path)
           (group_exprs : list Clause) : M (double * Z) :=
  let* child_fss := child_fss_of root subpath in
  let fss := get_grouped_exprs_hash host child_fss group_exprs in
  let* q := get_query_context in
  let* found := call_load_fss (fspace_hash q) fss in
  match found with
  | None => ret (d_minus_one, fss)
  | Some (target, nrows) =>
      let* _ := Assert env (nrows =? 1) in
      let prediction := exp host target in
      ret (if d_le0 prediction then d_minus_one else prediction, fss)
  end.

Definition is_NIL {A} (l : list A) : bool :=
  match l with [] => true | _ => false end.

(** The result is the returned number of groups and the grouped relation
    as the hook leaves it. [pgset] is whether the pointer is not NULL; the
    output parameter [estinfo], which the hook zeroes, and the warning on a
    previous hook have no counterpart here. *)
Definition aqo_estimate_num_groups_hook (root : PlannerInfo)
           (groupExprs : list Clause) (subpath : Path)
           (grouped_rel : RelOptInfo) (pgset : bool)
  : M (double * RelOptInfo) :=
  let default_estimator (grouped_rel : RelOptInfo) :=
    let* d := default_estimate_num_groups
                root groupExprs subpath grouped_rel pgset in
    ret (d, grouped_rel) in
  let* q := get_query_context in
  if negb (use_aqo q) then default_estimator grouped_rel
  else if pgset || is_NIL groupExprs then default_estimator grouped_rel
  else if is_NIL groupExprs then ret (d_one, grouped_rel)
  else
    let* (predicted, fss) := predict_num_groups root subpath groupExprs in
    if d_gt0 predicted then
      ret (predicted,
           set_fss_hash fss
             (set_rows predicted
                (set_predicted_cardinality predicted grouped_rel)))
    else
      default_estimator (set_predicted_cardinality d_minus_one grouped_rel).

End WithHost.
End CardinalityHooks.

(** ** profile_mem.c *)

Module ProfileMem.

(** The variables of the file. [profile_mem_queries] is NULL or points to
    the hash table, which holds the accumulated time of each key; the
    table lives in shared memory and is here as this backend sees it. *)
Record State := {
  aqo_profile_mem : Z;
  out_of_memory : bool;
  profile_mem_queries : option (gmap Z double)
}.

Definition with_aqo_profile_mem (v : Z) (s : State) : State :=
  {| aqo_profile_mem := v; out_of_memory := out_of_memory s;
     profile_mem_queries := profile_mem_queries s |}.

Definition with_out_of_memory (v : bool) (s : State) : State :=
  {| aqo_profile_mem := aqo_profile_mem s; out_of_memory := v;
     profile_mem_queries := profile_mem_queries s |}.

Definition with_profile_mem_queries (t : option (gmap Z double)) (s : State) : State :=
  {| aqo_profile_mem := aqo_profile_mem s; out_of_memory := out_of_memory s;
     profile_mem_queries := t |}.

(** What the file calls and does not define. *)
Record ProfileHost := {
  (** [ShmemInitHash("aqo_profile_mem_queries", n, n, ...)]: the table,
      found or created, or NULL *)
  ShmemInitHash : Z -> option (gmap Z double);
  (** whether [hash_search(..., HASH_ENTER, ...)] raises an error instead
      of making room for a key that is not in the table *)
  hash_enter_fails : (gmap Z double) -> Z -> bool;
  (** what ["%d"] and ["%0.5f"] print *)
  format_d : Z -> string;
  format_f5 : double -> string
}.

(** The calling context of the SQL function. *)
Record FunctionCallInfo := {
  (** [rsinfo != NULL && IsA(rsinfo, ReturnSetInfo)] *)
  rsinfo_is_ReturnSetInfo : bool;
  (** [rsinfo->allowedModes & SFRM_Materialize] *)
  allows_SFRM_Materialize : bool;
  (** [get_call_result_type(...) == TYPEFUNC_COMPOSITE] *)
  result_is_composite : bool
}.

(** [int] arithmetic wraps around, as in a server built with [-fwrapv];
    [size_t] has 64 bits and [sizeof(ProfileMemEntry)] is 16. *)
Definition INT_MAX : Z := 2147483647.

Definition int_of_Z (z : Z) : Z :=
  (z + 2147483648) mod 4294967296 - 2147483648.

Definition size_t_of_Z (z : Z) : Z := z mod 18446744073709551616.

Definition sizeof_ProfileMemEntry : Z := 16.

(** [snprintf(buf, 16, ...)] keeps at most 15 characters. *)
Definition snprintf16 (s : string) : string := String.substring 0 15 s.

(** A result, an error raised with [ereport(ERROR)] or [elog(ERROR)], or a
    dereference of the NULL table. *)
Inductive Outcome (A : Type) : Type :=
| Done (a : A) (s : State)
| Raised (msg : string) (s : State)
| NullTable.
Arguments Done {A} a s.
Arguments Raised {A} msg s.
Arguments NullTable {A}.

Section WithHost.

Context (phost : ProfileHost).

(** The size handed to [ShmemInitHash] (line 102). *)
Definition mem_size (s : State) : Z :=
  int_of_Z (size_t_of_Z (int_of_Z (aqo_profile_mem s * 1048576)) /
            sizeof_ProfileMemEntry).

Definition init_profile_shmem (s : State) : bool * State :=
  match profile_mem_queries s with
  | Some _ => (true, s)
  | None =>
      let s' :=
        if aqo_profile_mem s >? 0
        then with_profile_mem_queries (ShmemInitHash phost (mem_size s)) s
        else s in
      (match profile_mem_queries s' with Some _ => true | None => false end,
       s')
  end.

Definition set_profile_mem (newval : Z) (s : State) : State :=
  if newval <=? 0 then with_aqo_profile_mem (-1) s
  else with_aqo_profile_mem (int_of_Z (newval * 1048576)) s.

(** [hash_search(table, &key, HASH_ENTER, &found)]: the time of the entry
    when it is found, nothing when the entry is new, or an error. *)
Definition hash_search_enter (table : (gmap Z double)) (key : Z)
  : option (option double) :=
  match table !! key with
  | Some time => Some (Some time)
  | None => if hash_enter_fails phost table key then None else Some None
  end.

(** [totaltime] is the time since [query_context.query_starttime] and
    [query_planning_time] the field of that name; the messages written to
    the log have no counterpart here. *)
Definition update_profile_mem_table (q : QueryContextData)
           (totaltime query_planning_time : double) (s : State)
  : Outcome unit :=
  let (ok, s) := init_profile_shmem s in
  let s := if ok then s else with_aqo_profile_mem (-1) s in
  if aqo_profile_mem s >? 0 then
    if out_of_memory s then Done tt s
    else
      match profile_mem_queries s with
      | None => NullTable
      | Some table =>
          match hash_search_enter table (query_hash q) with
          | None => Done tt (with_out_of_memory true s)
          | Some found =>
              let time := match found with
                          | Some time => time
                          | None => 0%float
                          end in
              Done tt
                (with_profile_mem_queries
                   (Some (<[ query_hash q :=
                               (time + (totaltime - query_planning_time))%float
                           ]> table)) s)
          end
      end
  else Done tt s.

(** The rows are the two strings of each entry. [hash_seq_search] visits
    the entries in the order of the table, which is not specified; they are
    listed here as [map_to_list] gives them. The tuple store and the
    warning of line 62 have no counterpart here. *)
Definition aqo_profile_mem_hash (fcinfo : FunctionCallInfo) (s : State)
  : Outcome (list (string * string)) :=
  if negb (rsinfo_is_ReturnSetInfo fcinfo) then
    Raised "set-valued function called in context that cannot accept a set" s
  else if negb (allows_SFRM_Materialize fcinfo) then
    Raised "materialize mode required, but it is not allowed in this context"
           s
  else if negb (result_is_composite fcinfo) then
    Raised "return type must be a row type" s
  else
    let (ok, s) := init_profile_shmem s in
    if negb ok then Done [] s
    else
      match profile_mem_queries s with
      | None => NullTable
      | Some table =>
          Done (map (fun entry : Z * double =>
                       (snprintf16 (format_d phost (fst entry)),
                        snprintf16 (format_f5 phost (snd entry))))
                    (map_to_list table))
               s
      end.

End WithHost.
End ProfileMem.

(** ** A concrete host, for the examples *)

Module Examples.

(** [log(37.0)] as a double, 3.6109179126442243: the double nearest to
    the logarithm of 37. *)
Definition ln37 : double := 0x1.ce328ee3ac7bdp+1%float.

(** What libm's [exp] returns on it: 36.99999999999999, the double below
    37.0. *)
Definition exp_ln37 : double := 0x1.27fffffffffffp+5%float.

(** libm's [exp] at the points the examples use: [exp_ln37] at [ln37], 1 at
    0 and 0, by underflow, at -1000. *)
Definition exp_table (t : double) : double :=
  if PrimFloat.eqb t ln37 then exp_ln37
  else if PrimFloat.eqb t 0%float then 1%float
  else if PrimFloat.eqb t (-1000)%float then 0%float
  else nan.

Definition sum_list (l : list Z) : Z := fold_right Z.add 0 l.

(** An oracle that refuses without clauses or on a negative first clause,
    and otherwise predicts the first clause handle as the row count. *)
Definition oracle (q : QueryContextData) (clauses : list Clause)
           (selectivities : list double) (relidslist : list Z)
  : double * Z :=
  let fss := fspace_hash q + sum_list clauses + sum_list relidslist in
  match clauses with
  | [] => (d_minus_one, fss)
  | c :: _ => if c <? 0 then (d_minus_one, fss) else (double_of_int c, fss)
  end.

Definition host : Host := {|
  IsCatalogRelation := fun o => o <? 16384;
  RelationGetRelationName :=
    fun o => if o =? 20000 then "aqo_queries"%string else "t"%string;
  prev_planner_hook := None;
  standard_planner := fun _ _ _ _ => 1;
  IsQueryDisabled :=
    fun q => negb (learn_aqo q) && negb (use_aqo q) &&
             negb (auto_tuning q) && negb (collect_stat q) &&
             negb (adding_query q) && negb (explain_only q) &&
             (start_planning_time q =? 0) && d_lt0 (planning_time q);
  get_query_hash :=
    fun parse _ =>
      match parse with
      | T_Query _ rtable _ => sum_list (map rte_relid rtable)
      | _ => 0
      end;
  get_grouped_exprs_hash := fun child exprs => child + sum_list exprs;
  get_eclasses := fun _ => (0, [], []);
  restrictinfo_clause := fun c => c;
  get_clause_hash := fun c _ _ _ => c;
  get_selectivities :=
    fun _ _ clauses _ _ _ => map (fun _ => 0.5%float) clauses;
  aqo_get_clauses := fun _ restrictinfo => restrictinfo;
  get_list_of_relids := fun _ r => r;
  get_path_clauses := fun _ p _ => ([p], [0.5%float]);
  planner_rt_fetch_relid := fun rti _ => 16384 + rti;
  predict_for_relation := oracle;
  load_fss :=
    fun _ fss =>
      if fss =? 100 then Some (ln37, 1)
      else if fss =? 200 then Some ((-1000)%float, 1)
      else None;
  exp := exp_table;
  prev_set_baserel_rows_estimate_hook := None;
  set_baserel_rows_estimate_standard := fun _ _ => 1000%float;
  prev_get_parameterized_baserel_size_hook := None;
  get_parameterized_baserel_size_standard := fun _ _ _ => 100%float;
  prev_get_parameterized_joinrel_size_hook := None;
  get_parameterized_joinrel_size_standard := fun _ _ _ _ _ _ => 500%float;
  prev_set_joinrel_size_estimates_hook := None;
  set_joinrel_size_estimates_standard := fun _ _ _ _ _ _ => 5000%float;
  prev_estimate_num_groups_hook := None;
  estimate_num_groups := fun _ _ _ _ => 200%float
|}.

Definition env (mode : AQO_MODE) (force : bool) : Env := {|
  creating_extension := false;
  aqo_extension_installed := true;
  IsInParallelMode := false;
  IsParallelWorker := false;
  RecoveryInProgress := false;
  aqo_mode := mode;
  force_collect_stat := force;
  aqo_profile_enable := 0;
  aqo_profile_classes := 0;
  application_name := "psql";
  USE_ASSERT_CHECKING := true;
  current_time := 42
|}.

Definition idle_context : QueryContextData := {|
  query_hash := 0; learn_aqo := false; use_aqo := false; fspace_hash := 0;
  auto_tuning := false; collect_stat := false; adding_query := false;
  explain_only := false; start_planning_time := 0;
  planning_time := d_minus_one
|}.

(** A backend that has planned nothing yet, over an empty knowledge base. *)
Definition fresh : Backend := {|
  query_context := idle_context;
  cur_classes := [];
  aqo_enabled := false;
  deactivated_queries := ∅;
  aqo_queries := ∅;
  aqo_query_texts := ∅;
  predicted_ppi_rows := d_minus_one;
  fss_ppi_hash := d_zero;
  selectivity_cache := ∅;
  trace := []
|}.

(** [SELECT ... FROM t], where [t] has oid 16385. *)
Definition select_t : Node :=
  T_Query CMD_SELECT [ {| rtekind := RTE_RELATION; rte_relid := 16385 |} ] [].

(** A context that uses and learns predictions in feature space 0. *)
Definition using_context : QueryContextData := {|
  query_hash := 16385; learn_aqo := true; use_aqo := true; fspace_hash := 0;
  auto_tuning := false; collect_stat := false; adding_query := false;
  explain_only := false; start_planning_time := 42;
  planning_time := d_minus_one
|}.

Definition predicting : Backend := with_query_context using_context fresh.

(** A base relation with one restriction clause, whose handle is [c]. *)
Definition base_rel (c : Clause) : RelOptInfo := {|
  relid := 1; relids := [1]; baserestrictinfo := [c];
  cheapest_total_path := 7;
  rows := d_zero; predicted_cardinality := d_zero; fss_hash := 0
|}.

End Examples.

(** ** Vocabulary of the properties *)

(** The value of the first condition of [aqo_planner]: the query leaves by
    the first fast exit. *)
Definition fast_exit (host : Host) (env : Env) (parse : Node) (b : Backend)
  : bool :=
  match Preprocessing.planner_bypass host env parse b with
  | Returned c _ => c
  | Trapped _ => true
  end.

(** The value of the second condition: the class is on the deny-list or
    among the classes this backend is processing. *)
Definition already_handled (host : Host) (parse : Node)
           (query_string : option string) (b : Backend) : bool :=
  let qhash := get_query_hash host parse query_string in
  bool_decide (qhash ∈ deactivated_queries b) ||
  list_member_int (cur_classes b) qhash.

(** The plan [call_default_planner] returns. *)
Definition default_plan (host : Host) (parse : Node)
           (query_string : option string) (cursorOptions : Z)
           (boundParams : ParamListInfo) : PlannedStmt :=
  match prev_planner_hook host with
  | Some hook => hook parse query_string cursorOptions boundParams
  | None => standard_planner host parse query_string cursorOptions boundParams
  end.

(** The context [disable_aqo_for_query] leaves. *)
Definition disabled_context (q : QueryContextData) : QueryContextData :=
  {| query_hash := query_hash q; learn_aqo := false; use_aqo := false;
     fspace_hash := fspace_hash q; auto_tuning := false;
     collect_stat := false; adding_query := false; explain_only := false;
     start_planning_time := 0; planning_time := d_minus_one |}.

(** What [find_query] reports for the class: nothing in Disabled mode, where
    it is not called. *)
Definition class_row (env : Env) (b : Backend) (qhash : Z)
  : option ClassRow :=
  match aqo_mode env with
  | AQO_MODE_DISABLED => None
  | _ => aqo_queries b !! qhash
  end.

(** The modes whose [switch] case sets [adding_query] for a new class. *)
Definition adds_new_classes (mode : AQO_MODE) : bool :=
  match mode with
  | AQO_MODE_INTELLIGENT | AQO_MODE_LEARN => true
  | _ => false
  end.

Definition is_update_query (e : Event) : bool :=
  match e with EvUpdateQuery _ _ _ _ _ => true | _ => false end.

Definition is_add_query_text (e : Event) : bool :=
  match e with EvAddQueryText _ _ => true | _ => false end.

Definition is_find_query (e : Event) : bool :=
  match e with EvFindQuery _ => true | _ => false end.

Definition is_lock_event (e : Event) : bool :=
  match e with EvLockAcquire _ _ | EvLockRelease _ _ => true | _ => false end.

(** The calls of lines 311-337, in order. *)
Definition store_events (query_string : option string) (q : QueryContextData)
  : list Event :=
  [EvLockAcquire (uint32_of_int (query_hash q)) 0;
   EvUpdateQuery (query_hash q) (fspace_hash q)
                 (learn_aqo q) (use_aqo q) (auto_tuning q)] ++
  match query_string with
  | Some text => [EvAddQueryText (query_hash q) text]
  | None => []
  end ++
  [EvLockRelease (uint32_of_int (query_hash q)) 0].

(** The condition of line 312. *)
Definition must_store (env : Env) (query_is_stored : bool)
           (q : QueryContextData) : bool :=
  negb query_is_stored && (adding_query q || force_collect_stat env).

(** The row [update_query] writes for the context [q]. *)
Definition row_of_context (q : QueryContextData) : ClassRow :=
  {| row_learn_aqo := learn_aqo q; row_use_aqo := use_aqo q;
     row_fspace_hash := fspace_hash q; row_auto_tuning := auto_tuning q |}.

(** The backend after the first condition of [aqo_planner] was evaluated:
    [aqoIsEnabled] may have set [aqo_enabled]. *)
Definition guarded (env : Env) (b : Backend) : Backend :=
  with_aqo_enabled
    (if creating_extension env then aqo_enabled b
     else aqo_enabled b || aqo_extension_installed env) b.

(** The backend in which the settings of the class are resolved
    (line 199): the selectivity cache is cleared, the hash of the query is
    in the context and among the classes being processed. *)
Definition classify_start (host : Host) (env : Env) (parse : Node)
           (query_string : option string) (b : Backend) : Backend :=
  let qhash := get_query_hash host parse query_string in
  with_cur_classes (lappend_int (cur_classes b) qhash)
    (with_query_context (set_query_hash qhash (query_context b))
       (with_selectivity_cache ∅
          (with_trace (EvSelectivityCacheClear :: trace b) (guarded env b)))).

(** The condition under which a stored class is put on the deny-list
    (lines 270-271). *)
Definition no_reason_for_aqo (env : Env) (row : ClassRow) : bool :=
  negb (row_learn_aqo row) && negb (row_use_aqo row) &&
  negb (row_auto_tuning row) && negb (force_collect_stat env).

(** The values of the default estimators. *)
Definition default_baserel_rows (host : Host) (root : PlannerInfo)
           (rel : RelOptInfo) : double :=
  match prev_set_baserel_rows_estimate_hook host with
  | Some hook => hook root rel
  | None => set_baserel_rows_estimate_standard host root rel
  end.

Definition default_parameterized_baserel_size (host : Host)
           (root : PlannerInfo) (rel : RelOptInfo)
           (param_clauses : list Clause) : double :=
  match prev_get_parameterized_baserel_size_hook host with
  | Some hook => hook root rel param_clauses
  | None =>
      get_parameterized_baserel_size_standard host root rel param_clauses
  end.

Definition default_joinrel_rows (host : Host) (root : PlannerInfo)
           (rel outer_rel inner_rel : RelOptInfo)
           (sjinfo : SpecialJoinInfo) (restrictlist : list Clause) : double :=
  match prev_set_joinrel_size_estimates_hook host with
  | Some hook => hook root rel outer_rel inner_rel sjinfo restrictlist
  | None =>
      set_joinrel_size_estimates_standard
        host root rel outer_rel inner_rel sjinfo restrictlist
  end.

Definition default_parameterized_joinrel_size (host : Host)
           (root : PlannerInfo) (rel : RelOptInfo)
           (outer_path inner_path : PathPtr)
           (sjinfo : SpecialJoinInfo) (clauses : list Clause) : double :=
  match prev_get_parameterized_joinrel_size_hook host with
  | Some hook => hook root rel outer_path inner_path sjinfo clauses
  | None =>
      get_parameterized_joinrel_size_standard
        host root rel outer_path inner_path sjinfo clauses
  end.

Definition default_num_groups (host : Host) (root : PlannerInfo)
           (groupExprs : list Clause) (subpath : Path)
           (grouped_rel : RelOptInfo) (pgset : bool) : double :=
  match prev_estimate_num_groups_hook host with
  | Some hook => hook root groupExprs subpath grouped_rel pgset
  | None =>
      estimate_num_groups host root groupExprs (path_rows subpath) pgset
  end.

(** The answer of the oracle to each relation hook on the backend [b], on
    the clauses, selectivities and relation oids the hook assembles. *)
Definition baserel_oracle (host : Host) (b : Backend)
           (root : PlannerInfo) (rel : RelOptInfo) : double * Z :=
  predict_for_relation host (query_context b)
    (aqo_get_clauses host root (baserestrictinfo rel))
    (get_selectivities host (selectivity_cache b)
                       root (baserestrictinfo rel) 0 JOIN_INNER None)
    (CardinalityHooks.relids_of_oid
       (planner_rt_fetch_relid host (relid rel) root)).

Definition parameterized_baserel_oracle (host : Host) (b : Backend)
           (root : PlannerInfo) (rel : RelOptInfo)
           (param_clauses : list Clause) : double * Z :=
  let allclauses :=
    aqo_get_clauses host root param_clauses ++
    aqo_get_clauses host root (baserestrictinfo rel) in
  predict_for_relation host (query_context b) allclauses
    (get_selectivities host (selectivity_cache b)
                       root allclauses (relid rel) JOIN_INNER None)
    (CardinalityHooks.relids_of_oid
       (planner_rt_fetch_relid host (relid rel) root)).

Definition join_oracle (host : Host) (b : Backend)
           (root : PlannerInfo) (rel : RelOptInfo)
           (outer_path inner_path : PathPtr)
           (sjinfo : SpecialJoinInfo) (clauses : list Clause) : double * Z :=
  let outer := get_path_clauses host (selectivity_cache b) outer_path root in
  let inner := get_path_clauses host (selectivity_cache b) inner_path root in
  predict_for_relation host (query_context b)
    (aqo_get_clauses host root clauses ++ (fst outer ++ fst inner))
    (get_selectivities host (selectivity_cache b) root clauses 0
                       (jointype sjinfo) (Some sjinfo) ++
     (snd outer ++ snd inner))
    (get_list_of_relids host root (relids rel)).

Definition is_default_estimator (e : Event) : bool :=
  match e with EvDefaultEstimator => true | _ => false end.

(** The rule of the relation hooks: [result] is the row count the hook
    settles on and [calls] are the calls it made; the prediction is adopted
    exactly when it is [>= 0], otherwise the default estimator is called and
    its value is used; a negative prediction is of the second kind. *)
Definition dispatch_rule (predicted default result : double)
           (calls : list Event) : Prop :=
  (d_ge0 predicted = true ->
   result = predicted /\ existsb is_default_estimator calls = false) /\
  (d_ge0 predicted = false ->
   result = default /\ existsb is_default_estimator calls = true) /\
  (d_lt0 predicted = true -> d_ge0 predicted = false).

(** The signature of the child of a grouping node when it is derived anew:
    what the oracle leaves in [*fss] on the clauses of the child path. *)
Definition rederived_child_fss (host : Host) (b : Backend)
           (root : PlannerInfo) (subpath : Path) : Z :=
  snd (predict_for_relation
         host (query_context b)
         (fst (get_path_clauses host (selectivity_cache b)
                                (path_ptr subpath) root))
         (snd (get_path_clauses host (selectivity_cache b)
                                (path_ptr subpath) root))
         (get_list_of_relids host root (relids (parent subpath)))).

(** The calls of that derivation, the latest first. *)
Definition rederivation_calls (host : Host) (b : Backend)
           (root : PlannerInfo) (subpath : Path) : list Event :=
  [EvPredictForRelation
     (fst (get_path_clauses host (selectivity_cache b)
                            (path_ptr subpath) root))
     (get_list_of_relids host root (relids (parent subpath)));
   EvGetPathClauses (path_ptr subpath);
   EvGetListOfRelids (relids (parent subpath))].

(** The signature of the child that [predict_num_groups] uses. *)
Definition child_signature (host : Host) (b : Backend)
           (root : PlannerInfo) (subpath : Path) : Z :=
  if d_gt0 (predicted_cardinality (parent subpath))
  then fss_hash (parent subpath)
  else rederived_child_fss host b root subpath.

(** The backend after lines 311-337. *)
Definition after_store (env : Env) (query_is_stored : bool)
           (query_string : option string) (b : Backend) : Backend :=
  if must_store env query_is_stored (query_context b) then
    with_aqo_query_texts
      (match query_string with
       | Some text =>
           <[ query_hash (query_context b) := text ]> (aqo_query_texts b)
       | None => aqo_query_texts b
       end)
      (with_aqo_queries
         (<[ query_hash (query_context b) :=
               row_of_context (query_context b) ]> (aqo_queries b))
         (with_trace
            (rev (store_events query_string (query_context b)) ++ trace b)
            b))
  else b.

(** Whether [find_query] reports the class as stored. *)
Definition class_is_stored (env : Env) (b : Backend) (qhash : Z) : bool :=
  match class_row env b qhash with
  | Some _ => true
  | None => false
  end.

(** None of the calls in [calls] belongs to lines 311-337. *)
Definition no_store_calls (calls : list Event) : Prop :=
  existsb is_update_query calls = false /\
  existsb is_add_query_text calls = false /\
  existsb is_lock_event calls = false.

(** The mode table for a class that is not in the knowledge base: the
    flags learn / use / auto-tune / collect and the feature space. *)
Definition new_class_flags (mode : AQO_MODE) (qhash : Z)
           (q : QueryContextData) : Prop :=
  match mode with
  | AQO_MODE_INTELLIGENT =>
      learn_aqo q = true /\ use_aqo q = false /\ auto_tuning q = true /\
      collect_stat q = true /\ fspace_hash q = qhash
  | AQO_MODE_FORCED =>
      learn_aqo q = true /\ use_aqo q = true /\ auto_tuning q = false /\
      collect_stat q = false /\ fspace_hash q = 0
  | AQO_MODE_CONTROLLED | AQO_MODE_FROZEN =>
      learn_aqo q = false /\ use_aqo q = false /\ auto_tuning q = false /\
      collect_stat q = false
  | AQO_MODE_LEARN =>
      learn_aqo q = true /\ use_aqo q = true /\ auto_tuning q = false /\
      collect_stat q = true /\ fspace_hash q = qhash
  | AQO_MODE_DISABLED => True
  end.

(** On the backend [b], each of the five hooks calls its default estimator
    and nothing else, and returns its value. *)
Definition hooks_use_default_estimators (host : Host) (env : Env)
           (b : Backend) : Prop :=
  (forall root rel,
      CardinalityHooks.aqo_set_baserel_rows_estimate host root rel b =
      Returned
        (set_rows (default_baserel_rows
                     host root (set_predicted_cardinality d_minus_one rel))
                  (set_predicted_cardinality d_minus_one rel))
        (with_trace (EvDefaultEstimator :: trace b) b)) /\
  (forall root rel param_clauses,
      CardinalityHooks.aqo_get_parameterized_baserel_size
        host root rel param_clauses b =
      Returned
        (default_parameterized_baserel_size host root rel param_clauses)
        (with_trace (EvDefaultEstimator :: trace b) b)) /\
  (forall root rel outer_rel inner_rel sjinfo restrictlist,
      CardinalityHooks.aqo_set_joinrel_size_estimates
        host root rel outer_rel inner_rel sjinfo restrictlist b =
      Returned
        (set_rows (default_joinrel_rows
                     host root (set_predicted_cardinality d_minus_one rel)
                     outer_rel inner_rel sjinfo restrictlist)
                  (set_predicted_cardinality d_minus_one rel))
        (with_trace (EvDefaultEstimator :: trace b) b)) /\
  (forall root rel outer_path inner_path sjinfo clauses,
      CardinalityHooks.aqo_get_parameterized_joinrel_size
        host root rel outer_path inner_path sjinfo clauses b =
      Returned
        (default_parameterized_joinrel_size
           host root rel outer_path inner_path sjinfo clauses)
        (with_trace (EvDefaultEstimator :: trace b) b)) /\
  (forall root groupExprs subpath grouped_rel pgset,
      CardinalityHooks.aqo_estimate_num_groups_hook
        host env root groupExprs subpath grouped_rel pgset b =
      Returned
        (default_num_groups host root groupExprs subpath grouped_rel pgset,
         grouped_rel)
        (with_trace (EvDefaultEstimator :: trace b) b)).

(** Whether [aqo_planner] reaches lines 311-337 and stores the class:
    the query passes both fast exits, [find_query] does not report the
    class (it is not called in Disabled mode), and the class was marked for
    adding, as the mode table does for new classes in Intelligent and Learn
    mode, or statistics collection is forced. *)
Definition stores_class (host : Host) (env : Env) (parse : Node)
           (query_string : option string) (b : Backend) : bool :=
  negb (fast_exit host env parse b) &&
  negb (already_handled host parse query_string b) &&
  negb (class_is_stored env b (get_query_hash host parse query_string)) &&
  (adds_new_classes (aqo_mode env) || force_collect_stat env).

(** The storing of a class as the specification words it: a row for the
    class appears in the knowledge base exactly when the class was not
    stored and learning is enabled for it or collection is forced. *)
Definition stores_iff_learning_or_forced (host : Host) (env : Env)
           (parse : Node) (query_string : option string) (co : Z)
           (bp : ParamListInfo) (b : Backend) : Prop :=
  let qhash := get_query_hash host parse query_string in
  let b' := exec (Preprocessing.aqo_planner
                    host env parse query_string co bp) b in
  (aqo_queries b !! qhash = None /\ is_Some (aqo_queries b' !! qhash)) <->
  (aqo_queries b !! qhash = None /\
   (learn_aqo (query_context b') = true \/ force_collect_stat env = true)).

(** The instance of the specification for group counts: when the target
    stored for the grouped signature is [log(37.0)], the predicted group
    count is 37.0. *)
Definition log_37_gives_37 (host : Host) (env : Env) (root : PlannerInfo)
           (groupExprs : list Clause) (subpath : Path)
           (grouped_rel : RelOptInfo) (b : Backend) : Prop :=
  load_fss host (fspace_hash (query_context b))
           (get_grouped_exprs_hash
              host (child_signature host b root subpath) groupExprs) =
  Some (Examples.ln37, 1) ->
  exists (rel' : RelOptInfo) (b' : Backend),
    CardinalityHooks.aqo_estimate_num_groups_hook
      host env root groupExprs subpath grouped_rel false b =
    Returned (37%float, rel') b'.

(** Lines 433-440 of [predict_num_groups], once the signature of the child
    is known: the grouped signature [fss] is looked up, after the calls
    [child_calls] that gave the signature of the child. *)
Definition group_lookup (host : Host) (env : Env) (b : Backend) (fss : Z)
           (child_calls : list Event) : Outcome (double * Z) :=
  let b1 := with_trace
              (EvLoadFss (fspace_hash (query_context b)) fss ::
               child_calls ++ trace b) b in
  match load_fss host (fspace_hash (query_context b)) fss with
  | None => Returned (d_minus_one, fss) b1
  | Some (target, nrows) =>
      if USE_ASSERT_CHECKING env && negb (nrows =? 1) then Trapped b1
      else Returned (if d_le0 (exp host target) then d_minus_one
                     else exp host target, fss) b1
  end.

(** The reuse of the signature of the child as the specification words it:
    a child whose relation carries a valid predicted cardinality, which is
    one that a relation hook adopted and so is [>= 0], -1 standing for
    none, has its stored signature reused; the grouped signature derived
    from it is looked up and nothing else is called. *)
Definition valid_child_signature_is_reused (host : Host) (env : Env)
           (root : PlannerInfo) (subpath : Path) (group_exprs : list Clause)
           (b : Backend) : Prop :=
  d_ge0 (predicted_cardinality (parent subpath)) = true ->
  exec (CardinalityHooks.predict_num_groups
          host env root subpath group_exprs) b =
  with_trace
    (EvLoadFss (fspace_hash (query_context b))
               (get_grouped_exprs_hash host (fss_hash (parent subpath))
                                       group_exprs) :: trace b) b.

(** The relation of the examples as the base relation hook leaves it when
    the oracle predicts 0 rows, and a path that scans it. *)
Definition zero_rows_rel : RelOptInfo :=
  set_predicted_cardinality 0%float
    (set_rows 0%float (set_fss_hash 16385 (Examples.base_rel 0))).

Definition zero_rows_path : Path :=
  {| path_ptr := 7; parent := zero_rows_rel; path_rows := 0%float |}.

(** ** Vocabulary of the further properties *)

(** *** The planner hook *)

(** The names [IsAQORelation] compares the name of a relation with. *)
Definition aqo_relation_names : list string :=
  ["aqo_data"; "aqo_query_texts"; "aqo_query_stat"; "aqo_queries";
   "aqo_ignorance"]%string.

(** A relation of the system catalog or of AQO. *)
Definition system_relation (host : Host) (rel : Oid) : Prop :=
  IsCatalogRelation host rel = true \/
  In (RelationGetRelationName host rel) aqo_relation_names.

(** A range-table entry for such a relation can be reached from the node:
    it is in the range table of the node, or it is reached from a child
    the walker visits. *)
Inductive reaches_system_relation (host : Host) : Node -> Prop :=
| reaches_in_rtable cmd rtable subnodes rte :
    In rte rtable ->
    rtekind rte = RTE_RELATION ->
    system_relation host (rte_relid rte) ->
    reaches_system_relation host (T_Query cmd rtable subnodes)
| reaches_in_query cmd rtable subnodes node :
    In node subnodes ->
    reaches_system_relation host node ->
    reaches_system_relation host (T_Query cmd rtable subnodes)
| reaches_in_expr args node :
    In node args ->
    reaches_system_relation host node ->
    reaches_system_relation host (T_Expr args).

(** [needle] occurs somewhere in [haystack]. *)
Definition occurs_in (needle haystack : string) : Prop :=
  exists pre post : string,
    haystack = String.append pre (String.append needle post).

(** The answer of [aqoIsEnabled] on the backend [b]. *)
Definition aqo_is_enabled (env : Env) (b : Backend) : bool :=
  negb (creating_extension env) &&
  (aqo_enabled b || aqo_extension_installed env).

(** The query leaves [aqo_planner] by the first fast exit: AQO is disabled
    for it and the default planner is the only call; the hash of the
    previous query stays in the context, and the classes being processed,
    the selectivity cache, the deny-list and the knowledge base are as
    before. *)
Definition leaves_by_first_exit (host : Host) (env : Env) (parse : Node)
           (query_string : option string) (co : Z) (bp : ParamListInfo)
           (b : Backend) : Prop :=
  exists b' : Backend,
    Preprocessing.aqo_planner host env parse query_string co bp b =
    Returned (default_plan host parse query_string co bp) b' /\
    history b' = history b ++ [EvCallDefaultPlanner] /\
    query_context b' = disabled_context (query_context b) /\
    cur_classes b' = cur_classes b /\
    selectivity_cache b' = selectivity_cache b /\
    deactivated_queries b' = deactivated_queries b /\
    aqo_queries b' = aqo_queries b /\
    aqo_query_texts b' = aqo_query_texts b /\
    hooks_use_default_estimators host env b'.

Definition is_call_default_planner (e : Event) : bool :=
  match e with EvCallDefaultPlanner => true | _ => false end.


(** Whether [aqo_planner] reaches line 272: the query passes both fast
    exits and [find_query] reports a row with learn, use and auto-tuning
    off while collection is not forced. *)
Definition deactivates (host : Host) (env : Env) (parse : Node)
           (query_string : option string) (b : Backend) : bool :=
  negb (fast_exit host env parse b) &&
  negb (already_handled host parse query_string b) &&
  match class_row env b (get_query_hash host parse query_string) with
  | Some row => no_reason_for_aqo env row
  | None => false
  end.

(** The settings of a stored class at the label [ignore_query_settings]:
    those of its row, but for what Frozen and Learn mode override. *)
Definition stored_class_flags (mode : AQO_MODE) (row : ClassRow) (qhash : Z)
           (q : QueryContextData) : Prop :=
  adding_query q = false /\ use_aqo q = row_use_aqo row /\
  match mode with
  | AQO_MODE_FROZEN =>
      learn_aqo q = false /\ auto_tuning q = false /\
      collect_stat q = false /\ fspace_hash q = row_fspace_hash row
  | AQO_MODE_LEARN =>
      learn_aqo q = row_learn_aqo row /\
      auto_tuning q = row_auto_tuning row /\
      collect_stat q = true /\ fspace_hash q = qhash
  | _ =>
      learn_aqo q = row_learn_aqo row /\
      auto_tuning q = row_auto_tuning row /\
      collect_stat q = row_auto_tuning row /\
      fspace_hash q = row_fspace_hash row
  end.

(** The feature space passed to [update_query] for a class that is not
    stored: the switch sets it in Intelligent, Learn and Forced mode and
    leaves what the context held otherwise. *)
Definition new_row_fspace_hash (mode : AQO_MODE) (qhash : Z)
           (q : QueryContextData) : Z :=
  match mode with
  | AQO_MODE_INTELLIGENT | AQO_MODE_LEARN => qhash
  | AQO_MODE_FORCED => 0
  | AQO_MODE_CONTROLLED | AQO_MODE_FROZEN | AQO_MODE_DISABLED => fspace_hash q
  end.

(** A session opened by postgres_fdw, in Learn mode. *)
Definition fdw_env : Env := {|
  creating_extension := false;
  aqo_extension_installed := true;
  IsInParallelMode := false;
  IsParallelWorker := false;
  RecoveryInProgress := false;
  aqo_mode := AQO_MODE_LEARN;
  force_collect_stat := false;
  aqo_profile_enable := 0;
  aqo_profile_classes := 0;
  application_name := "pgfdw:remote";
  USE_ASSERT_CHECKING := true;
  current_time := 42
|}.

(** A selection from a subquery that reads [aqo_queries], the relation
    20000 of the examples. *)
Definition select_in_subquery : Node :=
  T_Query CMD_SELECT
          [ {| rtekind := RTE_SUBQUERY; rte_relid := 0 |} ]
          [ T_Expr
              [ T_Query CMD_SELECT
                        [ {| rtekind := RTE_RELATION; rte_relid := 20000 |} ]
                        [] ] ].

(** *** The hooks *)

Definition is_predict_call (e : Event) : bool :=
  match e with EvPredictForRelation _ _ => true | _ => false end.

Definition is_get_selectivities_call (e : Event) : bool :=
  match e with EvGetSelectivities _ => true | _ => false end.

Definition is_load_fss_call (e : Event) : bool :=
  match e with EvLoadFss _ _ => true | _ => false end.

(** The state of the session that the planner hook sets up. *)
Definition same_session (b b' : Backend) : Prop :=
  query_context b' = query_context b /\
  cur_classes b' = cur_classes b /\
  aqo_enabled b' = aqo_enabled b /\
  deactivated_queries b' = deactivated_queries b /\
  aqo_queries b' = aqo_queries b /\
  aqo_query_texts b' = aqo_query_texts b.

(** The values staged for [ppi_hook]. *)
Definition same_staging (b b' : Backend) : Prop :=
  predicted_ppi_rows b' = predicted_ppi_rows b /\
  fss_ppi_hash b' = fss_ppi_hash b.

(** The fields of a relation that the hooks read and do not write. *)
Definition same_relation (rel rel' : RelOptInfo) : Prop :=
  relid rel' = relid rel /\ relids rel' = relids rel /\
  baserestrictinfo rel' = baserestrictinfo rel /\
  cheapest_total_path rel' = cheapest_total_path rel.

(** Whether a relation hook reaches [predict_for_relation], and whether it
    computes selectivities. *)
Definition consults_oracle (host : Host) (b : Backend) : bool :=
  negb (IsQueryDisabled host (query_context b)) && use_aqo (query_context b).

Definition computes_selectivities (host : Host) (b : Backend) : bool :=
  negb (IsQueryDisabled host (query_context b)) &&
  (use_aqo (query_context b) || learn_aqo (query_context b)).

(** The mark a relation hook leaves agrees with the way it estimated: -1
    when the default estimator was called, and otherwise the row count,
    which is [>= 0]. *)
Definition marks_agree_with_rows (rel' : RelOptInfo) (calls : list Event)
  : Prop :=
  if existsb is_default_estimator calls
  then predicted_cardinality rel' = d_minus_one
  else d_ge0 (predicted_cardinality rel') = true /\
       rows rel' = predicted_cardinality rel'.

(** What the [forboth] loop calls [cache_selectivity] with, in the order
    of the clauses. *)
Definition cache_entries (host : Host) (nargs : Z)
           (args_hash eclass_hash : list Z) (rti : Z) (reloid : Oid)
           (allclauses : list Clause) (selectivities : list double)
  : list CacheEntry :=
  map (fun p : Clause * double =>
         (get_clause_hash host (restrictinfo_clause host (fst p))
                          nargs args_hash eclass_hash,
          rti, reloid, snd p))
      (combine allclauses selectivities).

(** The call of [cache_selectivity] on an entry. *)
Definition cache_event (e : CacheEntry) : Event :=
  match e with
  | (clause_hash, relid, reloid, s) =>
      EvCacheSelectivity clause_hash relid reloid s
  end.


(** The cache after the entries were put in it, one after the other. *)
Definition cache_put_all (entries : list CacheEntry)
           (cache : gmap (Z * Z * Z) double) : gmap (Z * Z * Z) double :=
  foldl (fun c e => <[ cache_key e := cache_value e ]> c) cache entries.


(** What [aqo_get_parameterized_baserel_size] calls [cache_selectivity]
    with on [b]. *)
Definition parameterized_baserel_cache_entries (host : Host) (b : Backend)
           (root : PlannerInfo) (rel : RelOptInfo)
           (param_clauses : list Clause) : list CacheEntry :=
  let allclauses :=
    aqo_get_clauses host root param_clauses ++
    aqo_get_clauses host root (baserestrictinfo rel) in
  let selectivities :=
    get_selectivities host (selectivity_cache b)
                      root allclauses (relid rel) JOIN_INNER None in
  let '(nargs, args_hash, eclass_hash) := get_eclasses host allclauses in
  cache_entries host nargs args_hash eclass_hash (relid rel)
                (planner_rt_fetch_relid host (relid rel) root)
                allclauses selectivities.

(** Each hook returns, the group hook apart, and leaves the session as it
    found it; the hooks that are not for a parameterized path also leave
    the staged values and the selectivity cache. *)
Definition hooks_keep_session (host : Host) (env : Env) (b : Backend)
  : Prop :=
  (forall root rel,
      exists (rel' : RelOptInfo) (b' : Backend),
        CardinalityHooks.aqo_set_baserel_rows_estimate host root rel b =
        Returned rel' b' /\
        same_session b b' /\ same_staging b b' /\
        selectivity_cache b' = selectivity_cache b) /\
  (forall root rel param_clauses,
      exists (size : double) (b' : Backend),
        CardinalityHooks.aqo_get_parameterized_baserel_size
          host root rel param_clauses b = Returned size b' /\
        same_session b b') /\
  (forall root rel outer_rel inner_rel sjinfo restrictlist,
      exists (rel' : RelOptInfo) (b' : Backend),
        CardinalityHooks.aqo_set_joinrel_size_estimates
          host root rel outer_rel inner_rel sjinfo restrictlist b =
        Returned rel' b' /\
        same_session b b' /\ same_staging b b' /\
        selectivity_cache b' = selectivity_cache b) /\
  (forall root rel outer_path inner_path sjinfo clauses,
      exists (size : double) (b' : Backend),
        CardinalityHooks.aqo_get_parameterized_joinrel_size
          host root rel outer_path inner_path sjinfo clauses b =
        Returned size b' /\
        same_session b b' /\ selectivity_cache b' = selectivity_cache b) /\
  (forall root groupExprs subpath grouped_rel pgset,
      let b' := exec (CardinalityHooks.aqo_estimate_num_groups_hook
                        host env root groupExprs subpath grouped_rel pgset)
                     b in
      same_session b b' /\ same_staging b b' /\
      selectivity_cache b' = selectivity_cache b) /\
  (forall ppi,
      exists ppi' : ParamPathInfo,
        CardinalityHooks.ppi_hook host ppi b = Returned ppi' b).

(** What [ppi_hook] writes after a size hook that ran on [b] and whose
    oracle answers [answer] there. *)
Definition ppi_after (host : Host) (b : Backend) (answer : double * Z)
           (ppi : ParamPathInfo) : ParamPathInfo :=
  if IsQueryDisabled host (query_context b) then ppi
  else if use_aqo (query_context b) then
    {| ppi_predicted_ppi_rows := fst answer;
       ppi_fss_ppi_hash := double_of_int (snd answer) |}
  else
    {| ppi_predicted_ppi_rows := predicted_ppi_rows b;
       ppi_fss_ppi_hash := fss_ppi_hash b |}.

(** The calls by which [predict_num_groups] gets the signature of the
    child, the latest first: none on the fast path. *)
Definition child_calls (host : Host) (b : Backend) (root : PlannerInfo)
           (subpath : Path) : list Event :=
  if d_gt0 (predicted_cardinality (parent subpath)) then []
  else rederivation_calls host b root subpath.

(** The signature under which the group hook looks the class up. *)
Definition grouped_signature (host : Host) (b : Backend) (root : PlannerInfo)
           (subpath : Path) (group_exprs : list Clause) : Z :=
  get_grouped_exprs_hash host (child_signature host b root subpath)
                         group_exprs.

(** The calls of [predict_num_groups], the latest first. *)
Definition predict_num_groups_calls (host : Host) (b : Backend)
           (root : PlannerInfo) (subpath : Path) (group_exprs : list Clause)
  : list Event :=
  EvLoadFss (fspace_hash (query_context b))
            (grouped_signature host b root subpath group_exprs) ::
  child_calls host b root subpath.

(** Whether the group hook reaches [predict_num_groups]. *)
Definition group_hook_predicts (b : Backend) (groupExprs : list Clause)
           (pgset : bool) : bool :=
  use_aqo (query_context b) && negb pgset &&
  negb (CardinalityHooks.is_NIL groupExprs).

(** What the group hook leaves in each outcome, given the calls it made:
    with the default estimator, its value and a relation whose rows and
    signature are kept; without it, a strictly positive count written on
    the relation with the grouped signature; a trap only on a failed
    assertion. *)
Definition group_hook_postcondition (host : Host) (env : Env)
           (root : PlannerInfo) (groupExprs : list Clause) (subpath : Path)
           (grouped_rel : RelOptInfo) (pgset : bool) (b : Backend)
           (calls : list Event) : Prop :=
  let fss := grouped_signature host b root subpath groupExprs in
  match CardinalityHooks.aqo_estimate_num_groups_hook
          host env root groupExprs subpath grouped_rel pgset b with
  | Returned (groups, rel') _ =>
      if existsb is_default_estimator calls
      then groups = default_num_groups host root groupExprs subpath rel' pgset
           /\ rows rel' = rows grouped_rel
           /\ fss_hash rel' = fss_hash grouped_rel
           /\ predicted_cardinality rel' =
                (if group_hook_predicts b groupExprs pgset then d_minus_one
                 else predicted_cardinality grouped_rel)
      else d_gt0 groups = true /\ rows rel' = groups /\
           predicted_cardinality rel' = groups /\ fss_hash rel' = fss
  | Trapped _ =>
      USE_ASSERT_CHECKING env = true /\
      existsb is_default_estimator calls = false /\
      exists (target : double) (nrows : Z),
        load_fss host (fspace_hash (query_context b)) fss =
        Some (target, nrows) /\ nrows <> 1
  end.

(** The host of the examples, with a knowledge base that returns two rows
    for every signature. *)
Definition host_with_two_rows : Host := {|
  IsCatalogRelation := IsCatalogRelation Examples.host;
  RelationGetRelationName := RelationGetRelationName Examples.host;
  prev_planner_hook := prev_planner_hook Examples.host;
  standard_planner := standard_planner Examples.host;
  IsQueryDisabled := IsQueryDisabled Examples.host;
  get_query_hash := get_query_hash Examples.host;
  get_grouped_exprs_hash := get_grouped_exprs_hash Examples.host;
  get_eclasses := get_eclasses Examples.host;
  restrictinfo_clause := restrictinfo_clause Examples.host;
  get_clause_hash := get_clause_hash Examples.host;
  get_selectivities := get_selectivities Examples.host;
  aqo_get_clauses := aqo_get_clauses Examples.host;
  get_list_of_relids := get_list_of_relids Examples.host;
  get_path_clauses := get_path_clauses Examples.host;
  planner_rt_fetch_relid := planner_rt_fetch_relid Examples.host;
  predict_for_relation := predict_for_relation Examples.host;
  load_fss := fun _ _ => Some (Examples.ln37, 2);
  exp := exp Examples.host;
  prev_set_baserel_rows_estimate_hook :=
    prev_set_baserel_rows_estimate_hook Examples.host;
  set_baserel_rows_estimate_standard :=
    set_baserel_rows_estimate_standard Examples.host;
  prev_get_parameterized_baserel_size_hook :=
    prev_get_parameterized_baserel_size_hook Examples.host;
  get_parameterized_baserel_size_standard :=
    get_parameterized_baserel_size_standard Examples.host;
  prev_get_parameterized_joinrel_size_hook :=
    prev_get_parameterized_joinrel_size_hook Examples.host;
  get_parameterized_joinrel_size_standard :=
    get_parameterized_joinrel_size_standard Examples.host;
  prev_set_joinrel_size_estimates_hook :=
    prev_set_joinrel_size_estimates_hook Examples.host;
  set_joinrel_size_estimates_standard :=
    set_joinrel_size_estimates_standard Examples.host;
  prev_estimate_num_groups_hook := prev_estimate_num_groups_hook Examples.host;
  estimate_num_groups := estimate_num_groups Examples.host
|}.

(** *** Profiling *)

(** A host for the examples: the table is created empty and has room for
    one entry. *)
Definition profile_host : ProfileMem.ProfileHost := {|
  ProfileMem.ShmemInitHash := fun _ => Some ∅;
  ProfileMem.hash_enter_fails := fun table _ => negb (Nat.eqb (size table) 0);
  ProfileMem.format_d := fun _ => "0"%string;
  ProfileMem.format_f5 := fun _ => "0.00000"%string
|}.

(** A backend with profiling on and an empty table. *)
Definition profiling : ProfileMem.State := {|
  ProfileMem.aqo_profile_mem := 1048576;
  ProfileMem.out_of_memory := false;
  ProfileMem.profile_mem_queries := Some ∅
|}.

(** ** Facts about doubles *)

Lemma Prim2SF_zero : Prim2SF d_zero = S754_zero false.
Proof. reflexivity. Qed.

Lemma d_lt0_not_ge0 (x : double) : d_lt0 x = true -> d_ge0 x = false.
Proof.
  unfold d_lt0, d_ge0. rewrite ltb_spec, leb_spec, Prim2SF_zero.
  unfold SFltb, SFleb.
  destruct (Prim2SF x) as [s | s | | s m e]; simpl;
    try destruct s; simpl; congruence.
Qed.

Lemma d_gt0_not_le0 (x : double) : d_gt0 x = true -> d_le0 x = false.
Proof.
  unfold d_gt0, d_le0. rewrite ltb_spec, leb_spec, Prim2SF_zero.
  unfold SFltb, SFleb.
  destruct (Prim2SF x) as [s | s | | s m e]; simpl;
    try destruct s; simpl; congruence.
Qed.

(** ** Running computations *)

Lemma bind_returned {A B} (c : M A) (k : A -> M B) (b b' : Backend) (a : A) :
  c b = Returned a b' -> bind c k b = k a b'.
Proof. unfold bind. intros ->. reflexivity. Qed.

Arguments list_member_int : simpl never.
Arguments lappend_int : simpl never.
Arguments uint32_of_int : simpl never.
Arguments double_of_int : simpl never.

Ltac unfold_monad :=
  unfold assign, update_query_context, get_query_context, emit, modify,
    when, get, bind, ret, Assert in *.

(** ** The classifier, stage by stage *)

Section Classifier.

Context (host : Host) (env : Env).
Implicit Types (b : Backend) (parse : Node) (query_string : option string).

Import Preprocessing.

Lemma call_default_planner_run parse query_string co bp b :
  call_default_planner host parse query_string co bp b =
  Returned (default_plan host parse query_string co bp)
           (with_trace (EvCallDefaultPlanner :: trace b) b).
Proof.
  unfold call_default_planner, default_plan. unfold_monad.
  destruct (prev_planner_hook host); reflexivity.
Qed.

Lemma disable_aqo_for_query_run b :
  disable_aqo_for_query b =
  Returned tt (with_query_context (disabled_context (query_context b)) b).
Proof. reflexivity. Qed.

(** The first condition only sets [aqo_enabled]. *)
Lemma planner_bypass_run parse b :
  planner_bypass host env parse b =
  Returned (fast_exit host env parse b) (guarded env b).
Proof.
  unfold fast_exit, guarded, planner_bypass, aqoIsEnabled. unfold_monad.
  destruct b as [q cc en dq aq at' pr fh tr]; cbn.
  destruct (creating_extension env); [reflexivity |].
  destruct en; [reflexivity |].
  destruct (aqo_extension_installed env); reflexivity.
Qed.

(** The first fast exit. *)
Lemma aqo_planner_fast_exit parse query_string co bp b :
  fast_exit host env parse b = true ->
  aqo_planner host env parse query_string co bp b =
  Returned (default_plan host parse query_string co bp)
           (with_trace (EvCallDefaultPlanner :: trace b)
              (with_query_context (disabled_context (query_context b))
                 (guarded env b))).
Proof.
  intros Hf. unfold aqo_planner.
  rewrite (bind_returned _ _ _ _ _ (planner_bypass_run parse b)), Hf.
  rewrite (bind_returned _ _ _ _ _ (disable_aqo_for_query_run _)).
  rewrite call_default_planner_run. reflexivity.
Qed.

(** The second fast exit. *)
Lemma aqo_planner_already_handled parse query_string co bp b :
  fast_exit host env parse b = false ->
  already_handled host parse query_string b = true ->
  aqo_planner host env parse query_string co bp b =
  Returned (default_plan host parse query_string co bp)
           (with_trace
              (EvCallDefaultPlanner :: EvSelectivityCacheClear :: trace b)
              (with_query_context
                 (disabled_context
                    (set_query_hash
                       (get_query_hash host parse query_string)
                       (query_context b)))
                 (with_selectivity_cache ∅ (guarded env b)))).
Proof.
  intros Hf Hh. unfold aqo_planner.
  rewrite (bind_returned _ _ _ _ _ (planner_bypass_run parse b)), Hf.
  unfold already_handled in Hh.
  unfold query_is_deactivated, selectivity_cache_clear. unfold_monad. cbn.
  rewrite Hh. unfold default_plan.
  destruct (prev_planner_hook host); reflexivity.
Qed.

(** Past both exits, the class is registered as being processed and its
    settings are resolved, stored and finished. *)
Lemma aqo_planner_classify parse query_string co bp b :
  fast_exit host env parse b = false ->
  already_handled host parse query_string b = false ->
  aqo_planner host env parse query_string co bp b =
  (let* query_is_stored := resolve_query_settings env in
   let* _ := store_new_class env query_is_stored query_string in
   let* _ := finish_query_settings host env in
   call_default_planner host parse query_string co bp)
    (classify_start host env parse query_string b).
Proof.
  intros Hf Hh. unfold aqo_planner.
  rewrite (bind_returned _ _ _ _ _ (planner_bypass_run parse b)), Hf.
  unfold already_handled in Hh.
  unfold query_is_deactivated, selectivity_cache_clear. unfold_monad. cbn.
  rewrite Hh. reflexivity.
Qed.

(** *** Lines 199-309 *)

Lemma resolve_disabled b :
  aqo_mode env = AQO_MODE_DISABLED ->
  resolve_query_settings env b =
  Returned false (with_query_context (disabled_context (query_context b)) b).
Proof. intros Hm. unfold resolve_query_settings. rewrite Hm. reflexivity. Qed.

Lemma resolve_new_class b :
  aqo_mode env <> AQO_MODE_DISABLED ->
  aqo_queries b !! query_hash (query_context b) = None ->
  exists q' : QueryContextData,
    resolve_query_settings env b =
    Returned false
      (with_trace (EvFindQuery (query_hash (query_context b)) :: trace b)
         (with_query_context q' b)) /\
    query_hash q' = query_hash (query_context b) /\
    adding_query q' = adds_new_classes (aqo_mode env) /\
    match aqo_mode env with
    | AQO_MODE_INTELLIGENT =>
        learn_aqo q' = true /\ use_aqo q' = false /\
        auto_tuning q' = true /\ collect_stat q' = true /\
        fspace_hash q' = query_hash (query_context b)
    | AQO_MODE_FORCED =>
        learn_aqo q' = true /\ use_aqo q' = true /\
        auto_tuning q' = false /\ collect_stat q' = false /\
        fspace_hash q' = 0
    | AQO_MODE_CONTROLLED | AQO_MODE_FROZEN =>
        learn_aqo q' = false /\ use_aqo q' = false /\
        auto_tuning q' = false /\ collect_stat q' = false /\
        fspace_hash q' = fspace_hash (query_context b)
    | AQO_MODE_LEARN =>
        learn_aqo q' = true /\ use_aqo q' = true /\
        auto_tuning q' = false /\ collect_stat q' = true /\
        fspace_hash q' = query_hash (query_context b)
    | AQO_MODE_DISABLED => False
    end.
Proof.
  intros Hm Hl.
  unfold resolve_query_settings, find_query, new_class_settings.
  unfold_monad.
  destruct (aqo_mode env); try congruence; cbn -[lookup]; rewrite Hl;
    (eexists; split; [reflexivity |]); cbn; auto 10.
Qed.

Lemma resolve_stored_class b (row : ClassRow) :
  aqo_mode env <> AQO_MODE_DISABLED ->
  aqo_queries b !! query_hash (query_context b) = Some row ->
  exists q' : QueryContextData,
    resolve_query_settings env b =
    Returned true
      (if no_reason_for_aqo env row then
         with_deactivated_queries
           ({[ query_hash (query_context b) ]} ∪ deactivated_queries b)
           (with_trace
              (EvAddDeactivatedQuery (query_hash (query_context b)) ::
               EvFindQuery (query_hash (query_context b)) :: trace b)
              (with_query_context q' b))
       else
         with_trace (EvFindQuery (query_hash (query_context b)) :: trace b)
           (with_query_context q' b)) /\
    query_hash q' = query_hash (query_context b) /\
    adding_query q' = false.
Proof.
  intros Hm Hl.
  unfold resolve_query_settings, find_query, stored_class_settings,
    add_deactivated_query, no_reason_for_aqo.
  unfold_monad.
  destruct (aqo_mode env); try congruence;
    cbn -[lookup union singleton]; rewrite Hl;
    cbn -[lookup union singleton];
    destruct (negb (row_learn_aqo row) && negb (row_use_aqo row) &&
              negb (row_auto_tuning row) && negb (force_collect_stat env));
    (eexists; split; [reflexivity |]); cbn; auto.
Qed.

(** *** Lines 311-337 *)

Lemma store_new_class_run query_is_stored query_string b :
  store_new_class env query_is_stored query_string b =
  Returned tt (after_store env query_is_stored query_string b).
Proof.
  unfold store_new_class, after_store, must_store, update_query,
    add_query_text, LockAcquire, LockRelease, store_events, row_of_context.
  unfold_monad. cbn.
  destruct (negb query_is_stored &&
            (adding_query (query_context b) || force_collect_stat env));
    [| reflexivity].
  destruct query_string; reflexivity.
Qed.

(** *** Lines 339-358 *)

Lemma finish_query_settings_run b :
  exists q' : QueryContextData,
    finish_query_settings host env b = Returned tt (with_query_context q' b) /\
    query_hash q' = query_hash (query_context b) /\
    learn_aqo q' = learn_aqo (query_context b) /\
    use_aqo q' = use_aqo (query_context b) /\
    auto_tuning q' = auto_tuning (query_context b) /\
    adding_query q' = adding_query (query_context b) /\
    collect_stat q' =
      (if force_collect_stat env then true
       else collect_stat (query_context b)) /\
    fspace_hash q' =
      (if force_collect_stat env then query_hash (query_context b)
       else fspace_hash (query_context b)).
Proof.
  unfold finish_query_settings. unfold_monad. cbn.
  destruct b as [q cc en dq aq at' pr fh tr]; cbn.
  destruct (force_collect_stat env); cbn;
    destruct ((aqo_profile_classes env >? 0) &&
              negb (aqo_profile_enable env =? 0)); cbn;
    match goal with
    | |- context [IsQueryDisabled host ?c] =>
        destruct (IsQueryDisabled host c)
    end; cbn;
    (eexists; split; [reflexivity |]); cbn; auto 10.
Qed.

(** *** The three stages together *)

(** Lines 199-309 call nothing of lines 311-337, keep the hash of the
    query, the classes being processed and the stored classes, and only
    add to the deny-list. *)
Lemma resolve_query_settings_facts b :
  exists (s1 : Backend) (calls : list Event),
    resolve_query_settings env b =
    Returned (class_is_stored env b (query_hash (query_context b))) s1 /\
    trace s1 = calls ++ trace b /\
    no_store_calls calls /\
    existsb is_find_query calls =
      negb (AQO_MODE_eqb (aqo_mode env) AQO_MODE_DISABLED) /\
    query_hash (query_context s1) = query_hash (query_context b) /\
    cur_classes s1 = cur_classes b /\
    aqo_queries s1 = aqo_queries b /\
    aqo_query_texts s1 = aqo_query_texts b /\
    deactivated_queries b ⊆ deactivated_queries s1 /\
    (class_is_stored env b (query_hash (query_context b)) = false ->
     adding_query (query_context s1) = adds_new_classes (aqo_mode env)).
Proof.
  unfold class_is_stored, class_row, no_store_calls.
  destruct (AQO_MODE_eqb (aqo_mode env) AQO_MODE_DISABLED) eqn:Hm.
  - assert (aqo_mode env = AQO_MODE_DISABLED) as Hmode
        by (destruct (aqo_mode env); try discriminate; reflexivity).
    rewrite (resolve_disabled b Hmode), Hmode.
    eexists _, []. split; [reflexivity |]. cbn. repeat split; auto.
  - assert (aqo_mode env <> AQO_MODE_DISABLED) as Hmode
        by (intros E; rewrite E in Hm; discriminate).
    destruct (aqo_queries b !! query_hash (query_context b)) as [row |] eqn:Hl.
    + destruct (resolve_stored_class b row Hmode Hl) as (q' & Hrun & Hq & Ha).
      rewrite Hrun.
      assert (match aqo_mode env with
              | AQO_MODE_DISABLED => None
              | _ => Some row
              end = Some row) as ->
          by (destruct (aqo_mode env); congruence).
      destruct (no_reason_for_aqo env row).
      * eexists _, [_; _]. split; [reflexivity |]. cbn -[union].
        repeat split; auto; try discriminate. set_solver.
      * eexists _, [_]. split; [reflexivity |]. cbn.
        repeat split; auto; try discriminate.
    + destruct (resolve_new_class b Hmode Hl) as (q' & Hrun & Hq & Ha & _).
      rewrite Hrun.
      assert (match aqo_mode env with
              | AQO_MODE_DISABLED => None
              | _ => @None ClassRow
              end = None) as ->
          by (destruct (aqo_mode env); congruence).
      eexists _, [_]. split; [reflexivity |]. cbn. repeat split; auto.
Qed.

(** The run of [aqo_planner] past both fast exits. *)
Lemma aqo_planner_classified_run parse query_string co bp b :
  fast_exit host env parse b = false ->
  already_handled host parse query_string b = false ->
  let qhash := get_query_hash host parse query_string in
  let stored := class_is_stored env b qhash in
  exists (s1 : Backend) (q2 : QueryContextData) (calls : list Event),
    resolve_query_settings env (classify_start host env parse query_string b)
    = Returned stored s1 /\
    trace s1 = calls ++ EvSelectivityCacheClear :: trace b /\
    no_store_calls calls /\
    existsb is_find_query calls =
      negb (AQO_MODE_eqb (aqo_mode env) AQO_MODE_DISABLED) /\
    query_hash (query_context s1) = qhash /\
    cur_classes s1 = lappend_int (cur_classes b) qhash /\
    aqo_queries s1 = aqo_queries b /\
    aqo_query_texts s1 = aqo_query_texts b /\
    deactivated_queries b ⊆ deactivated_queries s1 /\
    (stored = false ->
     adding_query (query_context s1) = adds_new_classes (aqo_mode env)) /\
    aqo_planner host env parse query_string co bp b =
    Returned (default_plan host parse query_string co bp)
      (with_trace
         (EvCallDefaultPlanner ::
          trace (after_store env stored query_string s1))
         (with_query_context q2 (after_store env stored query_string s1))) /\
    query_hash q2 = qhash /\
    learn_aqo q2 = learn_aqo (query_context s1) /\
    use_aqo q2 = use_aqo (query_context s1) /\
    auto_tuning q2 = auto_tuning (query_context s1) /\
    collect_stat q2 =
      (if force_collect_stat env then true
       else collect_stat (query_context s1)) /\
    fspace_hash q2 =
      (if force_collect_stat env then qhash
       else fspace_hash (query_context s1)).
Proof.
  intros Hf Hh qhash stored.
  rewrite (aqo_planner_classify parse query_string co bp b Hf Hh).
  set (cs := classify_start host env parse query_string b).
  destruct (resolve_query_settings_facts cs)
    as (s1 & calls & Hrun & Htr & Hns & Hfq & Hqh & Hcc & Haq & Hat & Hdq & Had).
  change (class_is_stored env cs (query_hash (query_context cs)))
    with stored in *.
  rewrite (bind_returned _ _ _ _ _ Hrun).
  rewrite (bind_returned _ _ _ _ _ (store_new_class_run _ _ _)).
  set (s2 := after_store env stored query_string s1).
  assert (query_context s2 = query_context s1) as Hq2.
  { unfold s2, after_store.
    destruct (must_store env stored (query_context s1)); reflexivity. }
  destruct (finish_query_settings_run s2)
    as (q2 & Hfin & F1 & F2 & F3 & F4 & F5 & F6 & F7).
  rewrite (bind_returned _ _ _ _ _ Hfin).
  rewrite call_default_planner_run.
  rewrite Hq2 in *.
  exists s1, q2, calls.
  split; [exact Hrun |]. split; [exact Htr |]. split; [exact Hns |].
  split; [exact Hfq |]. split; [exact Hqh |]. split; [exact Hcc |].
  split; [exact Haq |]. split; [exact Hat |]. split; [exact Hdq |].
  split; [exact Had |]. split; [reflexivity |].
  change (query_hash (query_context cs)) with qhash in Hqh.
  rewrite Hqh in *. auto 10.
Qed.

End Classifier.

(** ** The relation hooks *)

Section Dispatcher.

Context (host : Host).
Implicit Types (b : Backend) (root : PlannerInfo) (rel : RelOptInfo).

Import CardinalityHooks.

Lemma default_set_baserel_rows_estimate_run root rel b :
  default_set_baserel_rows_estimate host root rel b =
  Returned (set_rows (default_baserel_rows host root rel) rel)
           (with_trace (EvDefaultEstimator :: trace b) b).
Proof.
  unfold default_set_baserel_rows_estimate, default_baserel_rows.
  unfold_monad.
  destruct (prev_set_baserel_rows_estimate_hook host); reflexivity.
Qed.

Lemma default_get_parameterized_baserel_size_run root rel param_clauses b :
  default_get_parameterized_baserel_size host root rel param_clauses b =
  Returned (default_parameterized_baserel_size host root rel param_clauses)
           (with_trace (EvDefaultEstimator :: trace b) b).
Proof.
  unfold default_get_parameterized_baserel_size,
    default_parameterized_baserel_size.
  unfold_monad.
  destruct (prev_get_parameterized_baserel_size_hook host); reflexivity.
Qed.

Lemma default_set_joinrel_size_estimates_run
      root rel outer_rel inner_rel sjinfo restrictlist b :
  default_set_joinrel_size_estimates
    host root rel outer_rel inner_rel sjinfo restrictlist b =
  Returned (set_rows (default_joinrel_rows host root rel outer_rel inner_rel
                                           sjinfo restrictlist) rel)
           (with_trace (EvDefaultEstimator :: trace b) b).
Proof.
  unfold default_set_joinrel_size_estimates, default_joinrel_rows.
  unfold_monad.
  destruct (prev_set_joinrel_size_estimates_hook host); reflexivity.
Qed.

Lemma default_get_parameterized_joinrel_size_run
      root rel outer_path inner_path sjinfo clauses b :
  default_get_parameterized_joinrel_size
    host root rel outer_path inner_path sjinfo clauses b =
  Returned (default_parameterized_joinrel_size
              host root rel outer_path inner_path sjinfo clauses)
           (with_trace (EvDefaultEstimator :: trace b) b).
Proof.
  unfold default_get_parameterized_joinrel_size,
    default_parameterized_joinrel_size.
  unfold_monad.
  destruct (prev_get_parameterized_joinrel_size_hook host); reflexivity.
Qed.

Lemma default_estimate_num_groups_run
      root groupExprs subpath grouped_rel pgset b :
  default_estimate_num_groups host root groupExprs subpath grouped_rel pgset b
  = Returned (default_num_groups host root groupExprs subpath grouped_rel
                                 pgset)
             (with_trace (EvDefaultEstimator :: trace b) b).
Proof.
  unfold default_estimate_num_groups, default_num_groups.
  unfold_monad.
  destruct (prev_estimate_num_groups_hook host); reflexivity.
Qed.

(** *** With [use_aqo] and [learn_aqo] off, every hook is its default
    estimator. *)

Lemma aqo_set_baserel_rows_estimate_off root rel b :
  use_aqo (query_context b) = false ->
  learn_aqo (query_context b) = false ->
  aqo_set_baserel_rows_estimate host root rel b =
  Returned (set_rows (default_baserel_rows
                        host root (set_predicted_cardinality d_minus_one rel))
                     (set_predicted_cardinality d_minus_one rel))
           (with_trace (EvDefaultEstimator :: trace b) b).
Proof.
  intros Hu Hl. unfold aqo_set_baserel_rows_estimate.
  unfold get_query_context, get, bind at 1 2, ret at 1.
  destruct (IsQueryDisabled host (query_context b));
    [apply default_set_baserel_rows_estimate_run |].
  rewrite Hu, Hl. cbn [orb negb]. unfold bind at 1, ret at 1.
  apply default_set_baserel_rows_estimate_run.
Qed.

Lemma aqo_get_parameterized_baserel_size_off root rel param_clauses b :
  use_aqo (query_context b) = false ->
  learn_aqo (query_context b) = false ->
  aqo_get_parameterized_baserel_size host root rel param_clauses b =
  Returned (default_parameterized_baserel_size host root rel param_clauses)
           (with_trace (EvDefaultEstimator :: trace b) b).
Proof.
  intros Hu Hl. unfold aqo_get_parameterized_baserel_size.
  unfold get_query_context, get, bind at 1 2, ret at 1.
  destruct (IsQueryDisabled host (query_context b));
    [apply default_get_parameterized_baserel_size_run |].
  rewrite Hu, Hl. cbn [orb negb]. unfold bind at 1, ret at 1.
  apply default_get_parameterized_baserel_size_run.
Qed.

Lemma aqo_set_joinrel_size_estimates_off
      root rel outer_rel inner_rel sjinfo restrictlist b :
  use_aqo (query_context b) = false ->
  learn_aqo (query_context b) = false ->
  aqo_set_joinrel_size_estimates
    host root rel outer_rel inner_rel sjinfo restrictlist b =
  Returned (set_rows (default_joinrel_rows
                        host root (set_predicted_cardinality d_minus_one rel)
                        outer_rel inner_rel sjinfo restrictlist)
                     (set_predicted_cardinality d_minus_one rel))
           (with_trace (EvDefaultEstimator :: trace b) b).
Proof.
  intros Hu Hl. unfold aqo_set_joinrel_size_estimates.
  unfold get_query_context, get, bind at 1 2, ret at 1.
  destruct (IsQueryDisabled host (query_context b));
    [apply default_set_joinrel_size_estimates_run |].
  rewrite Hu, Hl. cbn [orb negb]. unfold bind at 1, ret at 1.
  apply default_set_joinrel_size_estimates_run.
Qed.

Lemma aqo_get_parameterized_joinrel_size_off
      root rel outer_path inner_path sjinfo clauses b :
  use_aqo (query_context b) = false ->
  learn_aqo (query_context b) = false ->
  aqo_get_parameterized_joinrel_size
    host root rel outer_path inner_path sjinfo clauses b =
  Returned (default_parameterized_joinrel_size
              host root rel outer_path inner_path sjinfo clauses)
           (with_trace (EvDefaultEstimator :: trace b) b).
Proof.
  intros Hu Hl. unfold aqo_get_parameterized_joinrel_size.
  unfold get_query_context, get, bind at 1 2, ret at 1.
  destruct (IsQueryDisabled host (query_context b));
    [apply default_get_parameterized_joinrel_size_run |].
  rewrite Hu, Hl. cbn [orb negb]. unfold bind at 1, ret at 1.
  apply default_get_parameterized_joinrel_size_run.
Qed.

Lemma aqo_estimate_num_groups_hook_off
      env root groupExprs subpath grouped_rel pgset b :
  use_aqo (query_context b) = false ->
  aqo_estimate_num_groups_hook
    host env root groupExprs subpath grouped_rel pgset b =
  Returned (default_num_groups host root groupExprs subpath grouped_rel pgset,
            grouped_rel)
           (with_trace (EvDefaultEstimator :: trace b) b).
Proof.
  intros Hu. unfold aqo_estimate_num_groups_hook.
  unfold get_query_context, get, bind at 1 2, ret at 1.
  rewrite Hu. cbn [negb].
  rewrite (bind_returned _ _ _ _ _ (default_estimate_num_groups_run _ _ _ _ _ _)).
  reflexivity.
Qed.

(** *** With [use_aqo] on, the oracle decides. *)

Lemma with_trace_nil b : with_trace ([] ++ trace b) b = b.
Proof. destruct b; reflexivity. Qed.

Lemma with_selectivity_cache_nil b :
  with_selectivity_cache (selectivity_cache b) b = b.
Proof. destruct b; reflexivity. Qed.

(** The loop only changes the cache and adds its calls to the trace. *)
Lemma cache_selectivities_run nargs args_hash eclass_hash rti reloid
      (allclauses : list Clause) :
  forall (selectivities : list double) b,
  exists (calls : list Event) (cache : gmap (Z * Z * Z) double),
    cache_selectivities host nargs args_hash eclass_hash rti reloid
                        allclauses selectivities b =
    Returned tt
      (with_selectivity_cache cache (with_trace (calls ++ trace b) b)) /\
    existsb is_default_estimator calls = false.
Proof.
  induction allclauses as [| l allclauses IH]; intros selectivities b.
  - exists [], (selectivity_cache b). cbn [cache_selectivities]. unfold ret.
    rewrite with_trace_nil, with_selectivity_cache_nil. auto.
  - destruct selectivities as [| l2 selectivities].
    + exists [], (selectivity_cache b). cbn [cache_selectivities]. unfold ret.
      rewrite with_trace_nil, with_selectivity_cache_nil. auto.
    + cbn [cache_selectivities]. unfold cache_selectivity. unfold_monad.
      match goal with
      | |- context [cache_selectivities _ _ _ _ _ _ _ _ ?b1] =>
          destruct (IH selectivities b1) as (calls & cache & Hrun & Hcalls)
      end.
      rewrite Hrun. eexists (calls ++ [_]), cache. split.
      * cbn [trace with_trace selectivity_cache with_selectivity_cache].
        rewrite <- !app_assoc. reflexivity.
      * rewrite existsb_app, Hcalls. reflexivity.
Qed.

Lemma dispatch_rule_adopted (predicted default : double)
      (calls : list Event) :
  d_ge0 predicted = true ->
  existsb is_default_estimator calls = false ->
  dispatch_rule predicted default predicted calls.
Proof.
  intros Hge Hc. repeat split; auto; try congruence.
  intros Hlt. apply d_lt0_not_ge0 in Hlt. congruence.
Qed.

Lemma dispatch_rule_refused (predicted default : double)
      (calls : list Event) :
  d_ge0 predicted = false ->
  existsb is_default_estimator calls = true ->
  dispatch_rule predicted default default calls.
Proof. intros Hge Hc. repeat split; auto; congruence. Qed.

Lemma aqo_set_baserel_rows_estimate_on root rel b :
  IsQueryDisabled host (query_context b) = false ->
  use_aqo (query_context b) = true ->
  exists (rel' : RelOptInfo) (calls : list Event),
    aqo_set_baserel_rows_estimate host root rel b =
    Returned rel' (with_trace (calls ++ trace b) b) /\
    fss_hash rel' = snd (baserel_oracle host b root rel) /\
    predicted_cardinality rel' =
      (if d_ge0 (fst (baserel_oracle host b root rel))
       then fst (baserel_oracle host b root rel)
       else d_minus_one) /\
    dispatch_rule
      (fst (baserel_oracle host b root rel))
      (default_baserel_rows
         host root
         (set_predicted_cardinality
            d_minus_one
            (set_fss_hash
               (snd (baserel_oracle host b root rel)) rel)))
      (rows rel') calls.
Proof.
  intros Hd Hu. unfold aqo_set_baserel_rows_estimate, baserel_oracle.
  unfold call_get_selectivities, call_aqo_get_clauses,
    call_predict_for_relation.
  unfold_monad. rewrite Hd, Hu. cbn [orb negb trace with_trace query_context selectivity_cache].
  destruct (predict_for_relation host _ _ _ _) as [predicted fss].
  cbn [fst snd].
  destruct (d_ge0 predicted) eqn:Hge.
  - eexists _, [_; _; _]. split; [reflexivity |].
    split; [reflexivity |]. split; [reflexivity |].
    apply dispatch_rule_adopted; auto.
  - rewrite default_set_baserel_rows_estimate_run.
    eexists _, [_; _; _; _]. split; [reflexivity |].
    split; [reflexivity |]. split; [reflexivity |].
    apply dispatch_rule_refused; auto.
Qed.

Lemma aqo_get_parameterized_baserel_size_on root rel param_clauses b :
  IsQueryDisabled host (query_context b) = false ->
  use_aqo (query_context b) = true ->
  exists (size : double) (b' : Backend) (calls : list Event),
    aqo_get_parameterized_baserel_size host root rel param_clauses b =
    Returned size b' /\
    trace b' = calls ++ trace b /\
    predicted_ppi_rows b' =
      fst (parameterized_baserel_oracle host b root rel param_clauses) /\
    fss_ppi_hash b' =
      double_of_int
        (snd (parameterized_baserel_oracle host b root rel param_clauses)) /\
    dispatch_rule
      (fst (parameterized_baserel_oracle host b root rel param_clauses))
      (default_parameterized_baserel_size host root rel param_clauses)
      size calls.
Proof.
  intros Hd Hu.
  unfold aqo_get_parameterized_baserel_size, parameterized_baserel_oracle.
  unfold call_get_selectivities, call_aqo_get_clauses,
    call_predict_for_relation.
  unfold get_query_context, get, bind at 1 2, ret at 1.
  rewrite Hd, Hu. cbn [orb negb].
  unfold bind at 1. unfold_monad.
  cbn [trace with_trace query_context selectivity_cache].
  destruct (get_eclasses host _) as [[nargs args_hash] eclass_hash].
  match goal with
  | |- context [cache_selectivities _ ?n ?a ?e ?r ?o ?c ?s ?b1] =>
      destruct (cache_selectivities_run n a e r o c s b1)
        as (calls & cache & Hrun & Hcalls)
  end.
  rewrite Hrun.
  cbn [trace with_trace query_context selectivity_cache
       with_selectivity_cache].
  destruct (predict_for_relation host _ _ _ _) as [predicted fss].
  cbn [fst snd].
  destruct (d_ge0 predicted) eqn:Hge.
  - eexists _, _, (_ :: calls ++ [_; _; _]). split; [reflexivity |].
    split; [cbn; rewrite <- app_assoc; reflexivity |].
    split; [reflexivity |]. split; [reflexivity |].
    apply dispatch_rule_adopted; auto.
    cbn. rewrite existsb_app, Hcalls. reflexivity.
  - rewrite default_get_parameterized_baserel_size_run.
    eexists _, _, (_ :: _ :: calls ++ [_; _; _]). split; [reflexivity |].
    split; [cbn; rewrite <- app_assoc; reflexivity |].
    split; [reflexivity |]. split; [reflexivity |].
    apply dispatch_rule_refused; auto.
Qed.

Lemma aqo_set_joinrel_size_estimates_on
      root rel outer_rel inner_rel sjinfo restrictlist b :
  IsQueryDisabled host (query_context b) = false ->
  use_aqo (query_context b) = true ->
  exists (rel' : RelOptInfo) (calls : list Event),
    aqo_set_joinrel_size_estimates
      host root rel outer_rel inner_rel sjinfo restrictlist b =
    Returned rel' (with_trace (calls ++ trace b) b) /\
    fss_hash rel' =
      snd (join_oracle host b root rel
                       (cheapest_total_path outer_rel)
                       (cheapest_total_path inner_rel) sjinfo restrictlist) /\
    predicted_cardinality rel' =
      (if d_ge0 (fst (join_oracle host b root rel
                                  (cheapest_total_path outer_rel)
                                  (cheapest_total_path inner_rel)
                                  sjinfo restrictlist))
       then fst (join_oracle host b root rel
                             (cheapest_total_path outer_rel)
                             (cheapest_total_path inner_rel)
                             sjinfo restrictlist)
       else d_minus_one) /\
    dispatch_rule
      (fst (join_oracle host b root rel
                        (cheapest_total_path outer_rel)
                        (cheapest_total_path inner_rel) sjinfo restrictlist))
      (default_joinrel_rows
         host root
         (set_predicted_cardinality
            d_minus_one
            (set_fss_hash
               (snd (join_oracle host b root rel
                                 (cheapest_total_path outer_rel)
                                 (cheapest_total_path inner_rel)
                                 sjinfo restrictlist)) rel))
         outer_rel inner_rel sjinfo restrictlist)
      (rows rel') calls.
Proof.
  intros Hd Hu. unfold aqo_set_joinrel_size_estimates, join_oracle.
  unfold call_get_selectivities, call_aqo_get_clauses,
    call_get_list_of_relids, call_get_path_clauses,
    call_predict_for_relation.
  unfold_monad. rewrite Hd, Hu. cbn [orb negb trace with_trace query_context selectivity_cache].
  destruct (get_path_clauses host (selectivity_cache b)
                             (cheapest_total_path outer_rel) root)
    as [outer_clauses outer_selectivities].
  cbn [fst snd trace with_trace query_context selectivity_cache].
  destruct (get_path_clauses host (selectivity_cache b)
                             (cheapest_total_path inner_rel) root)
    as [inner_clauses inner_selectivities].
  cbn [fst snd trace with_trace query_context selectivity_cache].
  destruct (predict_for_relation host _ _ _ _) as [predicted fss].
  cbn [fst snd].
  destruct (d_ge0 predicted) eqn:Hge.
  - eexists _, [_; _; _; _; _; _]. split; [reflexivity |].
    split; [reflexivity |]. split; [reflexivity |].
    apply dispatch_rule_adopted; auto.
  - rewrite default_set_joinrel_size_estimates_run.
    eexists _, [_; _; _; _; _; _; _]. split; [reflexivity |].
    split; [reflexivity |]. split; [reflexivity |].
    apply dispatch_rule_refused; auto.
Qed.

Lemma aqo_get_parameterized_joinrel_size_on
      root rel outer_path inner_path sjinfo clauses b :
  IsQueryDisabled host (query_context b) = false ->
  use_aqo (query_context b) = true ->
  exists (size : double) (calls : list Event),
    aqo_get_parameterized_joinrel_size
      host root rel outer_path inner_path sjinfo clauses b =
    Returned size
      (with_ppi
         (fst (join_oracle host b root rel
                           outer_path inner_path sjinfo clauses))
         (double_of_int
            (snd (join_oracle host b root rel
                              outer_path inner_path sjinfo clauses)))
         (with_trace (calls ++ trace b) b)) /\
    dispatch_rule
      (fst (join_oracle host b root rel
                        outer_path inner_path sjinfo clauses))
      (default_parameterized_joinrel_size
         host root rel outer_path inner_path sjinfo clauses)
      size calls.
Proof.
  intros Hd Hu. unfold aqo_get_parameterized_joinrel_size, join_oracle.
  unfold call_get_selectivities, call_aqo_get_clauses,
    call_get_list_of_relids, call_get_path_clauses,
    call_predict_for_relation.
  unfold_monad. rewrite Hd, Hu. cbn [orb negb trace with_trace query_context selectivity_cache].
  destruct (get_path_clauses host (selectivity_cache b) outer_path root)
    as [outer_clauses outer_selectivities].
  cbn [fst snd trace with_trace query_context selectivity_cache].
  destruct (get_path_clauses host (selectivity_cache b) inner_path root)
    as [inner_clauses inner_selectivities].
  cbn [fst snd trace with_trace query_context selectivity_cache].
  destruct (predict_for_relation host _ _ _ _) as [predicted fss].
  cbn [fst snd].
  destruct (d_ge0 predicted) eqn:Hge.
  - eexists _, [_; _; _; _; _; _]. split; [reflexivity |].
    apply dispatch_rule_adopted; auto.
  - rewrite default_get_parameterized_joinrel_size_run.
    eexists _, [_; _; _; _; _; _; _]. split; [reflexivity |].
    apply dispatch_rule_refused; auto.
Qed.

End Dispatcher.

(** ** Group-count estimation *)

Section Groups.

Context (host : Host) (env : Env).
Implicit Types (b : Backend) (root : PlannerInfo) (subpath : Path).

Import CardinalityHooks.

Lemma child_fss_of_fast root subpath b :
  d_gt0 (predicted_cardinality (parent subpath)) = true ->
  child_fss_of host root subpath b = Returned (fss_hash (parent subpath)) b.
Proof. intros Hp. unfold child_fss_of. rewrite Hp. reflexivity. Qed.

Lemma child_fss_of_slow root subpath b :
  d_gt0 (predicted_cardinality (parent subpath)) = false ->
  child_fss_of host root subpath b =
  Returned (rederived_child_fss host b root subpath)
           (with_trace (rederivation_calls host b root subpath ++ trace b) b).
Proof.
  intros Hp. unfold child_fss_of, rederived_child_fss, rederivation_calls.
  rewrite Hp.
  unfold call_get_list_of_relids, call_get_path_clauses,
    call_predict_for_relation.
  unfold_monad. cbn [trace with_trace query_context selectivity_cache].
  destruct (get_path_clauses host (selectivity_cache b)
                             (path_ptr subpath) root)
    as [clauses selectivities].
  cbn [fst snd trace with_trace query_context selectivity_cache].
  destruct (predict_for_relation host _ _ _ _) as [predicted child_fss].
  reflexivity.
Qed.

(** Either way the child signature is [child_signature], the context is
    kept, and the default estimator is not called. *)
Lemma child_fss_of_run root subpath b :
  exists calls : list Event,
    child_fss_of host root subpath b =
    Returned (child_signature host b root subpath)
             (with_trace (calls ++ trace b) b) /\
    existsb is_default_estimator calls = false.
Proof.
  unfold child_signature.
  destruct (d_gt0 (predicted_cardinality (parent subpath))) eqn:Hp.
  - exists []. rewrite child_fss_of_fast, with_trace_nil by assumption. auto.
  - exists (rederivation_calls host b root subpath).
    rewrite child_fss_of_slow by assumption. auto.
Qed.

(** [predict_num_groups] when a row is found and the assertion holds. *)
Lemma predict_num_groups_found root subpath group_exprs b
      (target : double) (nrows : Z) :
  load_fss host (fspace_hash (query_context b))
           (get_grouped_exprs_hash
              host (child_signature host b root subpath)
              group_exprs) = Some (target, nrows) ->
  (USE_ASSERT_CHECKING env = true -> nrows = 1) ->
  exists calls : list Event,
    predict_num_groups host env root subpath group_exprs b =
    Returned (if d_le0 (exp host target) then d_minus_one
              else exp host target,
              get_grouped_exprs_hash
                host (child_signature host b root subpath)
                group_exprs)
             (with_trace (calls ++ trace b) b) /\
    existsb is_default_estimator calls = false.
Proof.
  intros Hload Hassert. unfold predict_num_groups.
  destruct (child_fss_of_run root subpath b) as (calls & Hrun & Hcalls).
  rewrite (bind_returned _ _ _ _ _ Hrun).
  unfold call_load_fss. unfold_monad.
  cbn [trace with_trace query_context selectivity_cache]. rewrite Hload.
  assert (USE_ASSERT_CHECKING env && negb (nrows =? 1) = false) as ->.
  { destruct (USE_ASSERT_CHECKING env); [| reflexivity].
    rewrite (Hassert eq_refl). reflexivity. }
  exists (EvLoadFss (fspace_hash (query_context b))
                    (get_grouped_exprs_hash
                       host
                       (child_signature host b root subpath)
                       group_exprs) :: calls).
  split; [reflexivity |]. cbn. assumption.
Qed.

End Groups.

(** ** Properties of the prediction dispatcher *)

(** C1. In each of the four relation hooks (base relation, parameterized
    base relation, join relation, parameterized join relation), once the
    oracle [predict_for_relation] is consulted, its answer is adopted as the
    row count exactly when it is [>= 0]; otherwise, and in particular when
    it is negative, the default estimator is called and the row count is the
    default estimator's value ([dispatch_rule]). *)
Theorem C1_prediction_adopted_iff_nonnegative
        (host : Host) (b : Backend) (root : PlannerInfo)
        (rel outer_rel inner_rel : RelOptInfo)
        (param_clauses restrictlist clauses : list Clause)
        (outer_path inner_path : PathPtr) (sjinfo : SpecialJoinInfo) :
  IsQueryDisabled host (query_context b) = false ->
  use_aqo (query_context b) = true ->
  (exists (rel' : RelOptInfo) (b' : Backend) (calls : list Event),
      CardinalityHooks.aqo_set_baserel_rows_estimate host root rel b =
      Returned rel' b' /\
      trace b' = calls ++ trace b /\
      dispatch_rule
        (fst (baserel_oracle host b root rel))
        (default_baserel_rows
           host root
           (set_predicted_cardinality
              d_minus_one
              (set_fss_hash (snd (baserel_oracle host b root rel)) rel)))
        (rows rel') calls) /\
  (exists (size : double) (b' : Backend) (calls : list Event),
      CardinalityHooks.aqo_get_parameterized_baserel_size
        host root rel param_clauses b = Returned size b' /\
      trace b' = calls ++ trace b /\
      dispatch_rule
        (fst (parameterized_baserel_oracle host b root rel param_clauses))
        (default_parameterized_baserel_size host root rel param_clauses)
        size calls) /\
  (exists (rel' : RelOptInfo) (b' : Backend) (calls : list Event),
      CardinalityHooks.aqo_set_joinrel_size_estimates
        host root rel outer_rel inner_rel sjinfo restrictlist b =
      Returned rel' b' /\
      trace b' = calls ++ trace b /\
      dispatch_rule
        (fst (join_oracle host b root rel
                          (cheapest_total_path outer_rel)
                          (cheapest_total_path inner_rel)
                          sjinfo restrictlist))
        (default_joinrel_rows
           host root
           (set_predicted_cardinality
              d_minus_one
              (set_fss_hash
                 (snd (join_oracle host b root rel
                                   (cheapest_total_path outer_rel)
                                   (cheapest_total_path inner_rel)
                                   sjinfo restrictlist)) rel))
           outer_rel inner_rel sjinfo restrictlist)
        (rows rel') calls) /\
  (exists (size : double) (b' : Backend) (calls : list Event),
      CardinalityHooks.aqo_get_parameterized_joinrel_size
        host root rel outer_path inner_path sjinfo clauses b =
      Returned size b' /\
      trace b' = calls ++ trace b /\
      dispatch_rule
        (fst (join_oracle host b root rel outer_path inner_path
                          sjinfo clauses))
        (default_parameterized_joinrel_size
           host root rel outer_path inner_path sjinfo clauses)
        size calls).
Proof.
  intros Hd Hu. repeat apply conj.
  - destruct (aqo_set_baserel_rows_estimate_on host root rel b Hd Hu)
      as (rel' & calls & Hrun & _ & _ & Hrule).
    exists rel', (with_trace (calls ++ trace b) b), calls. auto.
  - destruct (aqo_get_parameterized_baserel_size_on
                host root rel param_clauses b Hd Hu)
      as (size & b' & calls & Hrun & Htr & _ & _ & Hrule).
    exists size, b', calls. auto.
  - destruct (aqo_set_joinrel_size_estimates_on
                host root rel outer_rel inner_rel sjinfo restrictlist b Hd Hu)
      as (rel' & calls & Hrun & _ & _ & Hrule).
    exists rel', (with_trace (calls ++ trace b) b), calls. auto.
  - destruct (aqo_get_parameterized_joinrel_size_on
                host root rel outer_path inner_path sjinfo clauses b Hd Hu)
      as (size & calls & Hrun & Hrule).
    eexists size, _, calls. split; [exact Hrun |]. auto.
Qed.

(** The oracle of the examples refuses the clause [-3]: the base relation
    gets the 1000 rows of the default estimator. *)
Lemma C1_witness :
  IsQueryDisabled Examples.host (query_context Examples.predicting) = false /\
  use_aqo (query_context Examples.predicting) = true /\
  exists (rel' : RelOptInfo) (b' : Backend),
    CardinalityHooks.aqo_set_baserel_rows_estimate
      Examples.host 0 (Examples.base_rel (-3)) Examples.predicting =
    Returned rel' b' /\
    rows rel' = 1000%float.
Proof.
  split; [reflexivity |]. split; [reflexivity |].
  destruct (C1_prediction_adopted_iff_nonnegative
              Examples.host Examples.predicting 0
              (Examples.base_rel (-3)) (Examples.base_rel 1)
              (Examples.base_rel 2) [] [] [] 7 8
              {| sjinfo_ptr := 0; jointype := JOIN_INNER |}
              eq_refl eq_refl)
    as [(rel' & b' & calls & Hrun & _ & Hrule) _].
  exists rel', b'. split; [exact Hrun |].
  destruct Hrule as (_ & Hrefused & _).
  exact (proj1 (Hrefused eq_refl)).
Defined.

(** C6, as amended. In a group-count estimation that finds a stored row
    for the grouped signature, the prediction is [exp] of the stored
    target, as libm computes it: when that value is strictly positive it is
    returned and written on the grouped relation, with the grouped
    signature; when it is not, the prediction is refused, the relation is
    marked with -1 and the default estimator gives the result. The
    exponential does not undo the logarithm exactly: for the stored target
    [log(37.0)] the count is the double below 37.0 (the witness and the
    counterexample). [exp] is a parameter of the model; the row is found
    with the one row the code asserts. *)
Theorem C6_group_count_is_exp_of_target
        (host : Host) (env : Env) (root : PlannerInfo)
        (groupExprs : list Clause) (subpath : Path)
        (grouped_rel : RelOptInfo) (b : Backend)
        (target : double) (nrows : Z) :
  use_aqo (query_context b) = true ->
  groupExprs <> [] ->
  load_fss host (fspace_hash (query_context b))
           (get_grouped_exprs_hash
              host (child_signature host b root subpath)
              groupExprs) = Some (target, nrows) ->
  (USE_ASSERT_CHECKING env = true -> nrows = 1) ->
  exists (groups : double) (rel' : RelOptInfo) (b' : Backend)
         (calls : list Event),
    CardinalityHooks.aqo_estimate_num_groups_hook
      host env root groupExprs subpath grouped_rel false b =
    Returned (groups, rel') b' /\
    trace b' = calls ++ trace b /\
    (d_gt0 (exp host target) = true ->
     groups = exp host target /\
     rows rel' = exp host target /\
     predicted_cardinality rel' = exp host target /\
     fss_hash rel' =
       get_grouped_exprs_hash
         host (child_signature host b root subpath)
         groupExprs /\
     existsb is_default_estimator calls = false) /\
    (d_gt0 (exp host target) = false ->
     groups = default_num_groups
                host root groupExprs subpath
                (set_predicted_cardinality d_minus_one grouped_rel) false /\
     rel' = set_predicted_cardinality d_minus_one grouped_rel /\
     existsb is_default_estimator calls = true).
Proof.
  intros Hu Hne Hload Hassert.
  destruct (predict_num_groups_found host env root subpath groupExprs b
                                     target nrows Hload Hassert)
    as (calls & Hrun & Hcalls).
  unfold CardinalityHooks.aqo_estimate_num_groups_hook.
  unfold get_query_context, get, bind at 1 2, ret at 1.
  rewrite Hu. cbn [negb orb].
  destruct groupExprs as [| g groupExprs]; [congruence |].
  cbn [CardinalityHooks.is_NIL].
  rewrite (bind_returned _ _ _ _ _ Hrun).
  destruct (d_gt0 (exp host target)) eqn:Hgt.
  - rewrite (d_gt0_not_le0 _ Hgt), Hgt. unfold ret.
    eexists _, _, _, calls. split; [reflexivity |].
    split; [reflexivity |].
    split; [intros _; repeat split; auto |].
    discriminate.
  - assert (d_gt0 (if d_le0 (exp host target) then d_minus_one
                   else exp host target) = false) as ->.
    { destruct (d_le0 (exp host target)); [reflexivity | exact Hgt]. }
    rewrite (bind_returned _ _ _ _ _
               (default_estimate_num_groups_run host _ _ _ _ _ _)).
    unfold ret.
    eexists _, _, _, (EvDefaultEstimator :: calls).
    split; [reflexivity |]. split; [reflexivity |].
    split; [discriminate |].
    intros _; repeat split; auto.
Qed.

(** The child relation has 120 predicted rows and signature 60; the
    grouped signature is 100, where the knowledge base of the examples
    stores [log(37.0)]: the count is 36.99999999999999. *)
Lemma C6_witness :
  exists (rel' : RelOptInfo) (b' : Backend),
    CardinalityHooks.aqo_estimate_num_groups_hook
      Examples.host (Examples.env AQO_MODE_LEARN false) 0 [40]
      {| path_ptr := 7;
         parent := set_fss_hash 60
                     (set_predicted_cardinality 120%float
                        (Examples.base_rel 12));
         path_rows := 120%float |}
      (Examples.base_rel 0) false Examples.predicting =
    Returned (Examples.exp_ln37, rel') b' /\
    rows rel' = Examples.exp_ln37.
Proof.
  destruct (C6_group_count_is_exp_of_target
              Examples.host (Examples.env AQO_MODE_LEARN false) 0 [40]
              {| path_ptr := 7;
                 parent := set_fss_hash 60
                             (set_predicted_cardinality 120%float
                                (Examples.base_rel 12));
                 path_rows := 120%float |}
              (Examples.base_rel 0) Examples.predicting
              Examples.ln37 1
              eq_refl ltac:(discriminate) eq_refl (fun _ => eq_refl))
    as (groups & rel' & b' & calls & Hrun & _ & Hpos & _).
  destruct (Hpos eq_refl) as (Hg & Hr & _).
  exists rel', b'. rewrite Hg in Hrun. split; [exact Hrun | exact Hr].
Defined.

(** The instance of the specification fails: with [log(37.0)] stored, the
    hook returns what [exp] gives on it, which is not 37.0. *)
Lemma C6_counterexample :
  ~ log_37_gives_37
      Examples.host (Examples.env AQO_MODE_LEARN false) 0 [40]
      {| path_ptr := 7;
         parent := set_fss_hash 60
                     (set_predicted_cardinality 120%float
                        (Examples.base_rel 12));
         path_rows := 120%float |}
      (Examples.base_rel 0) Examples.predicting.
Proof.
  unfold log_37_gives_37. intros H.
  destruct (H eq_refl) as (rel' & b' & Hrun).
  apply (f_equal (fun o : Outcome (double * RelOptInfo) =>
                    match o with
                    | Returned (groups, _) _ => PrimFloat.ltb groups 37%float
                    | Trapped _ => false
                    end)) in Hrun.
  vm_compute in Hrun. discriminate Hrun.
Qed.

(** C7, as amended. In group-count estimation, when the predicted
    cardinality on the relation of the child path is strictly positive,
    which is the test of line 419, the signature stored on the relation is
    reused as it is: [predict_num_groups] looks the grouped hash of that
    signature up and calls nothing else, so the relation oids, the clauses
    and the selectivities of the child are not derived anew. Otherwise, and
    so for a relation marked with -1 and for one whose adopted prediction
    is 0, the relation oids and the clauses and selectivities of the child
    path are extracted and the oracle is run for the signature, before the
    grouped hash of that signature is looked up. Either way the function
    ends as lines 433-440 say: -1 without a stored row, a trap on a failed
    assertion, and [exp] of the target or -1 otherwise. *)
Theorem C7_child_signature_reused_when_positive
        (host : Host) (env : Env) (root : PlannerInfo) (subpath : Path)
        (group_exprs : list Clause) (b : Backend) :
  (d_gt0 (predicted_cardinality (parent subpath)) = true ->
   CardinalityHooks.predict_num_groups host env root subpath group_exprs b =
   group_lookup
     host env b
     (get_grouped_exprs_hash host (fss_hash (parent subpath)) group_exprs)
     []) /\
  (d_gt0 (predicted_cardinality (parent subpath)) = false ->
   CardinalityHooks.predict_num_groups host env root subpath group_exprs b =
   group_lookup
     host env b
     (get_grouped_exprs_hash
        host (rederived_child_fss host b root subpath) group_exprs)
     (rederivation_calls host b root subpath)).
Proof.
  unfold group_lookup, CardinalityHooks.predict_num_groups. split; intros Hp.
  - rewrite (bind_returned _ _ _ _ _ (child_fss_of_fast host root subpath b Hp)).
    unfold CardinalityHooks.call_load_fss. unfold_monad.
    cbn [app trace with_trace query_context].
    destruct (load_fss host _ _) as [[target nrows] |]; [| reflexivity].
    destruct (USE_ASSERT_CHECKING env && negb (nrows =? 1)); reflexivity.
  - rewrite (bind_returned _ _ _ _ _ (child_fss_of_slow host root subpath b Hp)).
    unfold CardinalityHooks.call_load_fss. unfold_monad.
    cbn [trace with_trace query_context].
    destruct (load_fss host _ _) as [[target nrows] |]; [| reflexivity].
    destruct (USE_ASSERT_CHECKING env && negb (nrows =? 1)); reflexivity.
Qed.

(** The wording of the specification fails at the prediction 0: the base
    relation hook adopts it, so the relation carries a valid predicted
    cardinality, and the signature it stored is not reused. *)
Lemma C7_counterexample :
  ~ valid_child_signature_is_reused
      Examples.host (Examples.env AQO_MODE_LEARN false) 0 zero_rows_path
      [40] Examples.predicting.
Proof.
  unfold valid_child_signature_is_reused. intros H.
  specialize (H eq_refl). apply (f_equal trace) in H.
  vm_compute in H. discriminate H.
Qed.

(** The relation of that counterexample is what the base relation hook
    leaves when the oracle of the examples predicts 0 rows. *)
Example zero_rows_rel_is_adopted :
  exists b1 : Backend,
    CardinalityHooks.aqo_set_baserel_rows_estimate
      Examples.host 0 (Examples.base_rel 0) Examples.predicting =
    Returned zero_rows_rel b1.
Proof. eexists. vm_compute. reflexivity. Qed.

(** A child relation with 120 predicted rows and the signature 60: the
    signature is reused and nothing is called. *)
Example child_fss_of_predicted_child :
  CardinalityHooks.child_fss_of
    Examples.host 0
    {| path_ptr := 7;
       parent := set_fss_hash 60
                   (set_predicted_cardinality 120%float
                      (Examples.base_rel 12));
       path_rows := 120%float |}
    Examples.predicting = Returned 60 Examples.predicting.
Proof. reflexivity. Qed.

(** The test is strict: a relation on which the base relation hook stored
    the prediction 0 does not pass it, and its signature is derived anew
    from the clauses of the path. *)
Example child_fss_of_zero_prediction :
  exists (rel' : RelOptInfo) (b1 b2 : Backend),
    CardinalityHooks.aqo_set_baserel_rows_estimate
      Examples.host 0 (Examples.base_rel 0) Examples.predicting =
    Returned rel' b1 /\
    predicted_cardinality rel' = 0%float /\ fss_hash rel' = 16385 /\
    CardinalityHooks.child_fss_of
      Examples.host 0
      {| path_ptr := 7; parent := rel'; path_rows := rows rel' |} b1 =
    Returned 8 b2 /\
    trace b2 =
    [EvPredictForRelation [7] [1]; EvGetPathClauses 7;
     EvGetListOfRelids [1]] ++ trace b1.
Proof.
  eexists _, _, _. split; [vm_compute; reflexivity |].
  split; [reflexivity |]. split; [reflexivity |].
  split; vm_compute; reflexivity.
Qed.

(** The base relation hook reads the backend only through the query
    context and the selectivity cache. *)
Lemma aqo_set_baserel_rows_estimate_by_context
      (host : Host) (root : PlannerInfo) (rel : RelOptInfo)
      (b b' : Backend) :
  query_context b' = query_context b ->
  selectivity_cache b' = selectivity_cache b ->
  exists (rel1 : RelOptInfo) (calls : list Event),
    CardinalityHooks.aqo_set_baserel_rows_estimate host root rel b =
    Returned rel1 (with_trace (calls ++ trace b) b) /\
    CardinalityHooks.aqo_set_baserel_rows_estimate host root rel b' =
    Returned rel1 (with_trace (calls ++ trace b') b').
Proof.
  intros Hq Hc. unfold CardinalityHooks.aqo_set_baserel_rows_estimate.
  unfold CardinalityHooks.call_get_selectivities,
    CardinalityHooks.call_aqo_get_clauses,
    CardinalityHooks.call_predict_for_relation.
  unfold_monad. rewrite Hq.
  destruct (IsQueryDisabled host (query_context b)).
  { rewrite !default_set_baserel_rows_estimate_run.
    eexists _, [_]. split; reflexivity. }
  destruct (use_aqo (query_context b)), (learn_aqo (query_context b));
    cbn [orb negb trace with_trace query_context selectivity_cache];
    rewrite ?Hq, ?Hc.
  - destruct (predict_for_relation host _ _ _ _) as [predicted fss].
    destruct (d_ge0 predicted).
    + eexists _, [_; _; _]. split; reflexivity.
    + rewrite !default_set_baserel_rows_estimate_run.
      eexists _, [_; _; _; _]. split; reflexivity.
  - destruct (predict_for_relation host _ _ _ _) as [predicted fss].
    destruct (d_ge0 predicted).
    + eexists _, [_; _; _]. split; reflexivity.
    + rewrite !default_set_baserel_rows_estimate_run.
      eexists _, [_; _; _; _]. split; reflexivity.
  - rewrite !default_set_baserel_rows_estimate_run.
    eexists _, [_; _]. split; reflexivity.
  - rewrite !default_set_baserel_rows_estimate_run.
    eexists _, [_]. split; reflexivity.
Qed.

(** What it leaves on the relation: the fields it reads are kept; without
    the oracle the signature is kept and the estimate is -1; with the
    oracle the signature is the oracle's and the estimate is the prediction
    or -1. *)
Lemma aqo_set_baserel_rows_estimate_annotations
      (host : Host) (root : PlannerInfo) (rel : RelOptInfo) (b : Backend) :
  exists (rel1 : RelOptInfo) (calls : list Event),
    CardinalityHooks.aqo_set_baserel_rows_estimate host root rel b =
    Returned rel1 (with_trace (calls ++ trace b) b) /\
    relid rel1 = relid rel /\
    baserestrictinfo rel1 = baserestrictinfo rel /\
    (((IsQueryDisabled host (query_context b) = true \/
       use_aqo (query_context b) = false) /\
      fss_hash rel1 = fss_hash rel /\
      predicted_cardinality rel1 = d_minus_one) \/
     (IsQueryDisabled host (query_context b) = false /\
      use_aqo (query_context b) = true /\
      fss_hash rel1 = snd (baserel_oracle host b root rel) /\
      predicted_cardinality rel1 =
        (if d_ge0 (fst (baserel_oracle host b root rel))
         then fst (baserel_oracle host b root rel)
         else d_minus_one))).
Proof.
  destruct (IsQueryDisabled host (query_context b)) eqn:Hd.
  { unfold CardinalityHooks.aqo_set_baserel_rows_estimate.
    unfold_monad. rewrite Hd.
    rewrite default_set_baserel_rows_estimate_run.
    eexists _, [_]. split; [reflexivity |]. cbn. auto 10. }
  destruct (use_aqo (query_context b)) eqn:Hu.
  - destruct (aqo_set_baserel_rows_estimate_on host root rel b Hd Hu)
      as (rel1 & calls & Hrun & Hfss & Hpc & _).
    exists rel1, calls. split; [exact Hrun |].
    assert (relid rel1 = relid rel /\
            baserestrictinfo rel1 = baserestrictinfo rel) as [Hi Hr].
    { revert Hrun.
      unfold CardinalityHooks.aqo_set_baserel_rows_estimate.
      unfold CardinalityHooks.call_get_selectivities,
        CardinalityHooks.call_aqo_get_clauses,
        CardinalityHooks.call_predict_for_relation.
      unfold_monad. rewrite Hd, Hu.
      cbn [orb negb trace with_trace query_context selectivity_cache].
      destruct (predict_for_relation host _ _ _ _) as [predicted fss].
      destruct (d_ge0 predicted);
        [| rewrite default_set_baserel_rows_estimate_run];
        intros H; injection H as <- _; auto. }
    auto 10.
  - unfold CardinalityHooks.aqo_set_baserel_rows_estimate.
    unfold CardinalityHooks.call_get_selectivities.
    unfold_monad. rewrite Hd, Hu.
    destruct (learn_aqo (query_context b));
      cbn [orb negb trace with_trace query_context selectivity_cache];
      rewrite default_set_baserel_rows_estimate_run;
      [eexists _, [_; _] | eexists _, [_]];
      (split; [reflexivity |]); cbn; auto 10.
Qed.

(** C8. The base relation hook, called twice on the same relation under
    the same query context and against the same oracle, gives the same
    relation both times, with the same estimate and signature: the first
    call changes nothing in the backend but the trace of its calls.
    Re-estimating the relation it has written on also gives the same
    estimate and signature. The knowledge base is behind the oracle of the
    host, which stays the same; no hook writes to it. *)
Theorem C8_baserel_estimate_repeatable
        (host : Host) (root : PlannerInfo) (rel : RelOptInfo) (b : Backend) :
  exists (rel1 rel2 : RelOptInfo) (b1 b2 b3 : Backend) (calls : list Event),
    CardinalityHooks.aqo_set_baserel_rows_estimate host root rel b =
    Returned rel1 b1 /\
    b1 = with_trace (calls ++ trace b) b /\
    query_context b1 = query_context b /\
    CardinalityHooks.aqo_set_baserel_rows_estimate host root rel b1 =
    Returned rel1 b2 /\
    CardinalityHooks.aqo_set_baserel_rows_estimate host root rel1 b1 =
    Returned rel2 b3 /\
    predicted_cardinality rel2 = predicted_cardinality rel1 /\
    fss_hash rel2 = fss_hash rel1.
Proof.
  destruct (aqo_set_baserel_rows_estimate_annotations host root rel b)
    as (rel1 & calls & Hrun & Hi & Hr & Hann).
  set (b1 := with_trace (calls ++ trace b) b) in *.
  assert (query_context b1 = query_context b) as Hq by reflexivity.
  assert (selectivity_cache b1 = selectivity_cache b) as Hc by reflexivity.
  destruct (aqo_set_baserel_rows_estimate_by_context
              host root rel b b1 Hq Hc)
    as (rel1' & calls' & Hrun' & Hagain).
  rewrite Hrun in Hrun'. injection Hrun' as <- _.
  destruct (aqo_set_baserel_rows_estimate_annotations host root rel1 b1)
    as (rel2 & calls2 & Hrun2 & _ & _ & Hann2).
  assert (baserel_oracle host b1 root rel1 =
          baserel_oracle host b root rel) as Ho.
  { unfold baserel_oracle. rewrite Hq, Hc, Hi, Hr. reflexivity. }
  rewrite Ho, Hq in Hann2.
  exists rel1, rel2, b1. eexists _, _, calls.
  split; [exact Hrun |]. split; [reflexivity |]. split; [exact Hq |].
  split; [exact Hagain |]. split; [exact Hrun2 |].
  destruct Hann as [(Hoff & Hf & Hp) | (Hd & Hu & Hf & Hp)];
    destruct Hann2 as [(Hoff2 & Hf2 & Hp2) | (Hd2 & Hu2 & Hf2 & Hp2)];
    try (destruct Hoff; congruence); try (destruct Hoff2; congruence);
    split; congruence.
Qed.

(** ** Properties of the classifier *)

Lemma hooks_off (host : Host) (env : Env) (b : Backend) :
  use_aqo (query_context b) = false ->
  learn_aqo (query_context b) = false ->
  hooks_use_default_estimators host env b.
Proof.
  intros Hu Hl. unfold hooks_use_default_estimators. repeat apply conj; intros.
  - apply aqo_set_baserel_rows_estimate_off; assumption.
  - apply aqo_get_parameterized_baserel_size_off; assumption.
  - apply aqo_set_joinrel_size_estimates_off; assumption.
  - apply aqo_get_parameterized_joinrel_size_off; assumption.
  - apply aqo_estimate_num_groups_hook_off; assumption.
Qed.

(** C2. For a class that [find_query] does not find, the settings resolved
    at the label [ignore_query_settings] are those of the mode table:
    Intelligent gives learn, no use, auto-tuning and collection in the
    feature space of the query hash; Forced gives learn and use, no
    auto-tuning, no collection, in the feature space 0; Controlled and
    Frozen give the four flags off; Learn gives learn, use, no auto-tuning,
    collection, in the feature space of the query hash. The planner hook
    returns with these learn, use and auto-tuning flags, and with the whole
    row of the table when statistics collection is not forced. *)
Theorem C2_new_class_flags_follow_mode_table
        (host : Host) (env : Env) (parse : Node)
        (query_string : option string) (co : Z) (bp : ParamListInfo)
        (b : Backend) :
  fast_exit host env parse b = false ->
  already_handled host parse query_string b = false ->
  aqo_mode env <> AQO_MODE_DISABLED ->
  aqo_queries b !! get_query_hash host parse query_string = None ->
  let qhash := get_query_hash host parse query_string in
  exists (s1 : Backend) (plan : PlannedStmt) (b' : Backend),
    Preprocessing.resolve_query_settings
      env (classify_start host env parse query_string b) = Returned false s1 /\
    query_hash (query_context s1) = qhash /\
    new_class_flags (aqo_mode env) qhash (query_context s1) /\
    Preprocessing.aqo_planner host env parse query_string co bp b =
    Returned plan b' /\
    learn_aqo (query_context b') = learn_aqo (query_context s1) /\
    use_aqo (query_context b') = use_aqo (query_context s1) /\
    auto_tuning (query_context b') = auto_tuning (query_context s1) /\
    (force_collect_stat env = false ->
     new_class_flags (aqo_mode env) qhash (query_context b')).
Proof.
  intros Hf Hh Hmode Hl qhash.
  destruct (aqo_planner_classified_run host env parse query_string co bp b
                                       Hf Hh)
    as (s1 & q2 & calls & Hrun & _ & _ & _ & Hqh & _ & _ & _ & _ & _ &
        Hplan & _ & F2 & F3 & F4 & F6 & F7).
  fold qhash in Hrun, Hqh, Hplan, F7.
  assert (class_is_stored env b qhash = false) as Hst.
  { unfold class_is_stored, class_row. fold qhash in Hl. rewrite Hl.
    destruct (aqo_mode env); reflexivity. }
  rewrite Hst in *.
  destruct (resolve_new_class
              env (classify_start host env parse query_string b) Hmode Hl)
    as (q' & Hrun' & _ & _ & Htable).
  rewrite Hrun in Hrun'. injection Hrun' as ->.
  cbn [query_context with_trace with_query_context] in *.
  assert (new_class_flags (aqo_mode env) qhash q') as Hflags.
  { unfold new_class_flags.
    cbn [classify_start query_context with_cur_classes with_query_context
         query_hash set_query_hash fspace_hash] in Htable.
    fold qhash in Htable.
    destruct (aqo_mode env); try tauto. }
  eexists _, _, _. split; [exact Hrun |]. split; [exact Hqh |].
  split; [exact Hflags |]. split; [exact Hplan |].
  cbn [query_context with_trace with_query_context].
  split; [exact F2 |]. split; [exact F3 |]. split; [exact F4 |].
  intros Hforce. rewrite Hforce in F6, F7.
  unfold new_class_flags in *.
  destruct (aqo_mode env); rewrite ?F2, ?F3, ?F4, ?F6, ?F7; tauto.
Qed.

(** In Forced mode a new class learns and uses predictions in the feature
    space 0. *)
Lemma C2_witness :
  exists (plan : PlannedStmt) (b' : Backend),
    Preprocessing.aqo_planner
      Examples.host (Examples.env AQO_MODE_FORCED false) Examples.select_t
      None 0 0 Examples.fresh = Returned plan b' /\
    new_class_flags AQO_MODE_FORCED 16385 (query_context b').
Proof.
  destruct (C2_new_class_flags_follow_mode_table
              Examples.host (Examples.env AQO_MODE_FORCED false)
              Examples.select_t None 0 0 Examples.fresh
              eq_refl eq_refl ltac:(discriminate) eq_refl)
    as (s1 & plan & b' & _ & _ & _ & Hplan & _ & _ & _ & Hflags).
  exists plan, b'. split; [exact Hplan |]. exact (Hflags eq_refl).
Defined.

(** C3. A query whose hash is on the deny-list or among the classes this
    backend is processing has AQO disabled and goes to the default planner
    at once: between the clearing of the selectivity cache and the call of
    the default planner nothing is called, so the knowledge base is not
    read; the class is registered neither as being processed nor in the
    knowledge base; and with the context it leaves, every hook calls its
    default estimator and nothing else. *)
Theorem C3_handled_class_goes_to_default_planner
        (host : Host) (env : Env) (parse : Node)
        (query_string : option string) (co : Z) (bp : ParamListInfo)
        (b : Backend) :
  fast_exit host env parse b = false ->
  already_handled host parse query_string b = true ->
  exists b' : Backend,
    Preprocessing.aqo_planner host env parse query_string co bp b =
    Returned (default_plan host parse query_string co bp) b' /\
    query_context b' =
      disabled_context
        (set_query_hash (get_query_hash host parse query_string)
                        (query_context b)) /\
    history b' = history b ++ [EvSelectivityCacheClear; EvCallDefaultPlanner]
    /\
    cur_classes b' = cur_classes b /\
    deactivated_queries b' = deactivated_queries b /\
    aqo_queries b' = aqo_queries b /\
    aqo_query_texts b' = aqo_query_texts b /\
    hooks_use_default_estimators host env b'.
Proof.
  intros Hf Hh.
  rewrite (aqo_planner_already_handled host env parse query_string co bp b
                                       Hf Hh).
  eexists. split; [reflexivity |]. split; [reflexivity |].
  split.
  { unfold history. cbn [trace with_trace rev].
    rewrite <- app_assoc. reflexivity. }
  split; [reflexivity |]. split; [reflexivity |].
  split; [reflexivity |]. split; [reflexivity |].
  apply hooks_off; reflexivity.
Qed.

(** The class 16385 is being processed already: no call but the two. *)
Lemma C3_witness :
  exists b' : Backend,
    Preprocessing.aqo_planner
      Examples.host (Examples.env AQO_MODE_LEARN false) Examples.select_t
      None 0 0 (with_cur_classes [16385] Examples.fresh) = Returned 1 b' /\
    history b' = [EvSelectivityCacheClear; EvCallDefaultPlanner] /\
    use_aqo (query_context b') = false.
Proof.
  destruct (C3_handled_class_goes_to_default_planner
              Examples.host (Examples.env AQO_MODE_LEARN false)
              Examples.select_t None 0 0
              (with_cur_classes [16385] Examples.fresh) eq_refl eq_refl)
    as (b' & Hplan & Hq & Hh & _).
  exists b'. split; [exact Hplan |]. split; [exact Hh |].
  rewrite Hq. reflexivity.
Defined.

(** C10. When statistics collection is forced, a query that passes both
    fast exits leaves the planner hook with [collect_stat] on and with the
    query hash as its feature space, in every mode and whether or not the
    class is stored. *)
Theorem C10_forced_collection_overrides
        (host : Host) (env : Env) (parse : Node)
        (query_string : option string) (co : Z) (bp : ParamListInfo)
        (b : Backend) :
  fast_exit host env parse b = false ->
  already_handled host parse query_string b = false ->
  force_collect_stat env = true ->
  exists (plan : PlannedStmt) (b' : Backend),
    Preprocessing.aqo_planner host env parse query_string co bp b =
    Returned plan b' /\
    collect_stat (query_context b') = true /\
    fspace_hash (query_context b') = query_hash (query_context b') /\
    query_hash (query_context b') = get_query_hash host parse query_string.
Proof.
  intros Hf Hh Hforce.
  destruct (aqo_planner_classified_run host env parse query_string co bp b
                                       Hf Hh)
    as (s1 & q2 & calls & _ & _ & _ & _ & _ & _ & _ & _ & _ & _ &
        Hplan & F1 & _ & _ & _ & F6 & F7).
  rewrite Hforce in F6, F7.
  eexists _, _. split; [exact Hplan |].
  cbn [query_context with_trace with_query_context].
  rewrite F1, F6, F7. auto.
Qed.

(** Forced mode links a new class to the feature space 0 and collects
    nothing; with forced collection the context ends with collection on
    and the feature space 16385 of the query. *)
Lemma C10_witness :
  exists (plan : PlannedStmt) (b' : Backend),
    Preprocessing.aqo_planner
      Examples.host (Examples.env AQO_MODE_FORCED true) Examples.select_t
      None 0 0 Examples.fresh = Returned plan b' /\
    collect_stat (query_context b') = true /\
    fspace_hash (query_context b') = 16385.
Proof.
  destruct (C10_forced_collection_overrides
              Examples.host (Examples.env AQO_MODE_FORCED true)
              Examples.select_t None 0 0 Examples.fresh
              eq_refl eq_refl eq_refl)
    as (plan & b' & Hplan & Hc & Hfs & Hqh).
  exists plan, b'. split; [exact Hplan |]. split; [exact Hc |].
  rewrite Hfs. exact Hqh.
Defined.

(** Whatever the query, the planner hook returns the default plan and
    keeps what is on the deny-list. *)
Lemma aqo_planner_keeps_deny_list
      (host : Host) (env : Env) (parse : Node)
      (query_string : option string) (co : Z) (bp : ParamListInfo)
      (b : Backend) :
  exists b' : Backend,
    Preprocessing.aqo_planner host env parse query_string co bp b =
    Returned (default_plan host parse query_string co bp) b' /\
    deactivated_queries b ⊆ deactivated_queries b'.
Proof.
  destruct (fast_exit host env parse b) eqn:Hf.
  { rewrite (aqo_planner_fast_exit host env parse query_string co bp b Hf).
    eexists. split; [reflexivity |]. reflexivity. }
  destruct (already_handled host parse query_string b) eqn:Hh.
  { rewrite (aqo_planner_already_handled
               host env parse query_string co bp b Hf Hh).
    eexists. split; [reflexivity |]. reflexivity. }
  destruct (aqo_planner_classified_run host env parse query_string co bp b
                                       Hf Hh)
    as (s1 & q2 & calls & _ & _ & _ & _ & _ & _ & _ & _ & Hdq & _ &
        Hplan & _).
  eexists. split; [exact Hplan |].
  cbn [deactivated_queries with_trace with_query_context].
  unfold after_store.
  destruct (must_store env _ (query_context s1)); exact Hdq.
Qed.

(** A class on the deny-list leaves by one of the two fast exits. *)
Lemma aqo_planner_on_deny_list
      (host : Host) (env : Env) (parse : Node)
      (query_string : option string) (co : Z) (bp : ParamListInfo)
      (b : Backend) :
  get_query_hash host parse query_string ∈ deactivated_queries b ->
  exists (b' : Backend) (calls : list Event),
    Preprocessing.aqo_planner host env parse query_string co bp b =
    Returned (default_plan host parse query_string co bp) b' /\
    history b' = history b ++ calls /\
    existsb is_kb_access calls = false /\
    hooks_use_default_estimators host env b'.
Proof.
  intros Hin.
  destruct (fast_exit host env parse b) eqn:Hf.
  - rewrite (aqo_planner_fast_exit host env parse query_string co bp b Hf).
    eexists _, [_]. split; [reflexivity |]. split; [reflexivity |].
    split; [reflexivity |]. apply hooks_off; reflexivity.
  - assert (already_handled host parse query_string b = true) as Hh.
    { unfold already_handled. rewrite bool_decide_eq_true_2 by exact Hin.
      reflexivity. }
    rewrite (aqo_planner_already_handled
               host env parse query_string co bp b Hf Hh).
    eexists _, [_; _]. split; [reflexivity |]. split.
    { unfold history. cbn [trace with_trace rev].
      rewrite <- app_assoc. reflexivity. }
    split; [reflexivity |]. apply hooks_off; reflexivity.
Qed.

(** C4. A class that is stored with learn, use and auto-tuning off, while
    statistics collection is not forced, is put on the deny-list by the
    planner hook. No later call of the hook takes it off, and at the next
    occurrence of the class the hook goes to the default planner without
    any access to the knowledge base and leaves a context with which every
    hook calls its default estimator. *)
Theorem C4_idle_stored_class_is_deactivated
        (host : Host) (env : Env) (parse : Node)
        (query_string : option string) (co : Z) (bp : ParamListInfo)
        (b : Backend) (row : ClassRow) :
  fast_exit host env parse b = false ->
  already_handled host parse query_string b = false ->
  aqo_mode env <> AQO_MODE_DISABLED ->
  aqo_queries b !! get_query_hash host parse query_string = Some row ->
  row_learn_aqo row = false ->
  row_use_aqo row = false ->
  row_auto_tuning row = false ->
  force_collect_stat env = false ->
  let qhash := get_query_hash host parse query_string in
  exists (plan : PlannedStmt) (b' : Backend),
    Preprocessing.aqo_planner host env parse query_string co bp b =
    Returned plan b' /\
    qhash ∈ deactivated_queries b' /\
    In (EvAddDeactivatedQuery qhash) (history b') /\
    (forall env2 parse2 query_string2 co2 bp2 b2,
        qhash ∈ deactivated_queries b2 ->
        exists b3 : Backend,
          Preprocessing.aqo_planner host env2 parse2 query_string2 co2 bp2 b2
          = Returned (default_plan host parse2 query_string2 co2 bp2) b3 /\
          qhash ∈ deactivated_queries b3) /\
    (forall env2 parse2 query_string2 co2 bp2 b2,
        get_query_hash host parse2 query_string2 = qhash ->
        qhash ∈ deactivated_queries b2 ->
        exists (b3 : Backend) (calls : list Event),
          Preprocessing.aqo_planner host env2 parse2 query_string2 co2 bp2 b2
          = Returned (default_plan host parse2 query_string2 co2 bp2) b3 /\
          history b3 = history b2 ++ calls /\
          existsb is_kb_access calls = false /\
          hooks_use_default_estimators host env2 b3).
Proof.
  intros Hf Hh Hmode Hl Hrl Hru Hra Hforce qhash.
  destruct (aqo_planner_classified_run host env parse query_string co bp b
                                       Hf Hh)
    as (s1 & q2 & calls & Hrun & _ & _ & _ & _ & _ & _ & _ & _ & _ &
        Hplan & _).
  fold qhash in Hrun, Hplan, Hl.
  assert (class_is_stored env b qhash = true) as Hst.
  { unfold class_is_stored, class_row. rewrite Hl.
    destruct (aqo_mode env); congruence. }
  rewrite Hst in *.
  destruct (resolve_stored_class
              env (classify_start host env parse query_string b) row Hmode Hl)
    as (q' & Hrun' & _ & _).
  rewrite Hrun in Hrun'. injection Hrun' as Hs1.
  assert (no_reason_for_aqo env row = true) as Hidle.
  { unfold no_reason_for_aqo. rewrite Hrl, Hru, Hra, Hforce. reflexivity. }
  rewrite Hidle in Hs1.
  assert (after_store env true query_string s1 = s1) as Hkeep by reflexivity.
  rewrite Hkeep in Hplan.
  exists (default_plan host parse query_string co bp). eexists.
  split; [exact Hplan |].
  cbn [deactivated_queries history trace with_trace with_query_context].
  rewrite Hs1.
  cbn [deactivated_queries history trace with_trace with_query_context
       with_deactivated_queries classify_start query_context
       with_cur_classes query_hash set_query_hash].
  fold qhash.
  split; [set_solver |].
  split; [unfold history; apply -> in_rev; right; left; reflexivity |].
  split.
  - intros env2 parse2 query_string2 co2 bp2 b2 Hin.
    destruct (aqo_planner_keeps_deny_list
                host env2 parse2 query_string2 co2 bp2 b2)
      as (b3 & Hplan3 & Hsub).
    exists b3. split; [exact Hplan3 |]. set_solver.
  - intros env2 parse2 query_string2 co2 bp2 b2 Hhash Hin.
    apply aqo_planner_on_deny_list. rewrite Hhash. exact Hin.
Qed.

(** The class 16385 is stored with the three flags off. *)
Lemma C4_witness :
  exists (plan : PlannedStmt) (b' : Backend),
    Preprocessing.aqo_planner
      Examples.host (Examples.env AQO_MODE_CONTROLLED false)
      Examples.select_t None 0 0
      (with_aqo_queries
         {[ 16385 := {| row_learn_aqo := false; row_use_aqo := false;
                        row_fspace_hash := 0; row_auto_tuning := false |} ]}
         Examples.fresh) = Returned plan b' /\
    16385 ∈ deactivated_queries b'.
Proof.
  destruct (C4_idle_stored_class_is_deactivated
              Examples.host (Examples.env AQO_MODE_CONTROLLED false)
              Examples.select_t None 0 0
              (with_aqo_queries
                 {[ 16385 := {| row_learn_aqo := false; row_use_aqo := false;
                                row_fspace_hash := 0;
                                row_auto_tuning := false |} ]}
                 Examples.fresh)
              {| row_learn_aqo := false; row_use_aqo := false;
                 row_fspace_hash := 0; row_auto_tuning := false |}
              eq_refl eq_refl ltac:(discriminate) eq_refl
              eq_refl eq_refl eq_refl eq_refl)
    as (plan & b' & Hplan & Hin & _).
  exists plan, b'. split; [exact Hplan | exact Hin].
Defined.

Lemma existsb_rev {A} (f : A -> bool) (l : list A) :
  existsb f (rev l) = existsb f l.
Proof.
  induction l as [| a l IH]; [reflexivity |].
  cbn [rev existsb]. rewrite existsb_app, IH. cbn [existsb].
  rewrite orb_false_r. apply orb_comm.
Qed.

Lemma no_store_calls_rev (calls : list Event) :
  no_store_calls calls -> no_store_calls (rev calls).
Proof. unfold no_store_calls. rewrite !existsb_rev. auto. Qed.

(** Every call of the planner hook, with the calls of lines 311-337 set
    apart: they are made exactly when [stores_class] holds. *)
Lemma aqo_planner_calls
      (host : Host) (env : Env) (parse : Node)
      (query_string : option string) (co : Z) (bp : ParamListInfo)
      (b : Backend) :
  let qhash := get_query_hash host parse query_string in
  exists (b' : Backend) (before : list Event) (q : QueryContextData),
    Preprocessing.aqo_planner host env parse query_string co bp b =
    Returned (default_plan host parse query_string co bp) b' /\
    no_store_calls before /\
    query_hash q = qhash /\
    (stores_class host env parse query_string b = true ->
     history b' =
       history b ++ before ++ store_events query_string q ++
       [EvCallDefaultPlanner] /\
     aqo_queries b' = <[ qhash := row_of_context q ]> (aqo_queries b) /\
     aqo_query_texts b' =
       match query_string with
       | Some text => <[ qhash := text ]> (aqo_query_texts b)
       | None => aqo_query_texts b
       end) /\
    (stores_class host env parse query_string b = false ->
     history b' = history b ++ before ++ [EvCallDefaultPlanner] /\
     aqo_queries b' = aqo_queries b /\
     aqo_query_texts b' = aqo_query_texts b).
Proof.
  intros qhash. unfold stores_class.
  destruct (fast_exit host env parse b) eqn:Hf.
  { rewrite (aqo_planner_fast_exit host env parse query_string co bp b Hf).
    eexists _, [], (set_query_hash qhash (query_context b)).
    split; [reflexivity |]. split; [repeat split |].
    split; [reflexivity |]. split; [discriminate |].
    intros _. repeat split. }
  destruct (already_handled host parse query_string b) eqn:Hh.
  { rewrite (aqo_planner_already_handled
               host env parse query_string co bp b Hf Hh).
    eexists _, [EvSelectivityCacheClear],
      (set_query_hash qhash (query_context b)).
    split; [reflexivity |]. split; [repeat split |].
    split; [reflexivity |]. split; [discriminate |].
    intros _. split; [| split; reflexivity].
    unfold history. cbn [trace with_trace rev].
    rewrite <- app_assoc. reflexivity. }
  destruct (aqo_planner_classified_run host env parse query_string co bp b
                                       Hf Hh)
    as (s1 & q2 & calls & _ & Htr & Hns & _ & Hqh & _ & Haq & Hat & _ & Had &
        Hplan & _).
  fold qhash in Hqh, Hplan, Had.
  rewrite Hplan. cbn [negb andb].
  exists (with_trace
            (EvCallDefaultPlanner ::
             trace (after_store env (class_is_stored env b qhash)
                                query_string s1))
            (with_query_context
               q2 (after_store env (class_is_stored env b qhash)
                               query_string s1))),
    (EvSelectivityCacheClear :: rev calls), (query_context s1).
  split; [reflexivity |].
  split.
  { destruct (no_store_calls_rev calls Hns) as (N1 & N2 & N3).
    repeat split; cbn [existsb is_update_query is_add_query_text
                       is_lock_event orb]; assumption. }
  split; [exact Hqh |].
  assert (must_store env (class_is_stored env b qhash) (query_context s1) =
          negb (class_is_stored env b qhash) &&
          (adds_new_classes (aqo_mode env) || force_collect_stat env)) as Hms.
  { unfold must_store.
    destruct (class_is_stored env b qhash); [reflexivity |].
    rewrite (Had eq_refl). reflexivity. }
  unfold after_store. rewrite Hms. fold qhash.
  split; intros Hst; rewrite Hst;
    cbn [aqo_queries aqo_query_texts with_trace with_query_context
         with_aqo_queries with_aqo_query_texts].
  - rewrite Hqh, Haq, Hat. split; [| split; reflexivity].
    unfold history. cbn [trace with_trace with_query_context
                         with_aqo_queries with_aqo_query_texts rev].
    rewrite Htr, !rev_app_distr, rev_involutive. cbn [rev].
    rewrite <- !app_assoc. reflexivity.
  - rewrite Haq, Hat. split; [| split; reflexivity].
    unfold history. cbn [trace with_trace with_query_context rev].
    rewrite Htr, !rev_app_distr. cbn [rev].
    rewrite <- !app_assoc. reflexivity.
Qed.

Lemma store_events_calls (query_string : option string)
      (q : QueryContextData) :
  existsb is_update_query (store_events query_string q) = true /\
  existsb is_lock_event (store_events query_string q) = true /\
  existsb is_add_query_text (store_events query_string q) =
    match query_string with Some _ => true | None => false end.
Proof. destruct query_string; repeat split. Qed.

(** C5, as amended. The planner hook stores a row for the class, and the
    query text when there is one, exactly when the query passes both fast
    exits, [find_query] does not report the class as stored (in Disabled
    mode it is not called), and the class was marked for adding, which the
    mode table does for new classes in Intelligent and Learn mode, or
    statistics collection is forced; that learning is enabled does not
    suffice. The row is written between the acquisition and the release of
    the lock keyed by the query hash, and nothing else is. *)
Theorem C5_class_stored_iff_marked_or_forced
        (host : Host) (env : Env) (parse : Node)
        (query_string : option string) (co : Z) (bp : ParamListInfo)
        (b : Backend) :
  let qhash := get_query_hash host parse query_string in
  let stores := stores_class host env parse query_string b in
  exists (plan : PlannedStmt) (b' : Backend) (calls : list Event),
    Preprocessing.aqo_planner host env parse query_string co bp b =
    Returned plan b' /\
    history b' = history b ++ calls /\
    existsb is_update_query calls = stores /\
    existsb is_lock_event calls = stores /\
    existsb is_add_query_text calls =
      stores && match query_string with Some _ => true | None => false end /\
    (stores = true ->
     exists (before : list Event) (q : QueryContextData),
       calls = before ++ store_events query_string q ++ [EvCallDefaultPlanner]
       /\ no_store_calls before /\ query_hash q = qhash /\
       aqo_queries b' = <[ qhash := row_of_context q ]> (aqo_queries b)) /\
    (stores = false ->
     aqo_queries b' = aqo_queries b /\
     aqo_query_texts b' = aqo_query_texts b).
Proof.
  intros qhash stores.
  destruct (aqo_planner_calls host env parse query_string co bp b)
    as (b' & before & q & Hplan & Hns & Hq & Hyes & Hno).
  fold qhash in Hyes, Hq. fold stores in Hyes, Hno.
  destruct Hns as (N1 & N2 & N3).
  destruct (store_events_calls query_string q) as (S1 & S2 & S3).
  destruct stores.
  - destruct (Hyes eq_refl) as (Hh & Haq & _).
    exists (default_plan host parse query_string co bp), b',
      (before ++ store_events query_string q ++ [EvCallDefaultPlanner]).
    split; [exact Hplan |]. split; [exact Hh |].
    rewrite !existsb_app, N1, N2, N3, S1, S2, S3.
    split; [reflexivity |]. split; [reflexivity |].
    split; [destruct query_string; reflexivity |].
    split; [| discriminate].
    intros _. exists before, q. repeat split; assumption.
  - destruct (Hno eq_refl) as (Hh & Haq & Hat).
    exists (default_plan host parse query_string co bp), b',
      (before ++ [EvCallDefaultPlanner]).
    split; [exact Hplan |]. split; [exact Hh |].
    rewrite !existsb_app, N1, N2, N3.
    split; [reflexivity |]. split; [reflexivity |].
    split; [reflexivity |]. split; [discriminate |].
    intros _. split; assumption.
Qed.

(** That wording fails in Forced mode: the class is not stored and
    learning is enabled for it, yet no row is written. *)
Lemma C5_counterexample :
  ~ stores_iff_learning_or_forced
      Examples.host (Examples.env AQO_MODE_FORCED false) Examples.select_t
      (Some "SELECT * FROM t"%string) 0 0 Examples.fresh.
Proof.
  unfold stores_iff_learning_or_forced. intros [_ Hstored].
  destruct Hstored as [_ [row Hrow]].
  - split; [reflexivity |]. left. reflexivity.
  - vm_compute in Hrow. discriminate Hrow.
Qed.

(** C9. When the planner hook stores a class and the query text is NULL,
    the row of the class is written all the same, between the acquisition
    and the release of the lock; only [add_query_text] is left out, the
    stored texts are unchanged, and the hook returns the default plan. *)
Theorem C9_class_stored_without_query_text
        (host : Host) (env : Env) (parse : Node) (co : Z)
        (bp : ParamListInfo) (b : Backend) :
  stores_class host env parse None b = true ->
  let qhash := get_query_hash host parse None in
  exists (b' : Backend) (before : list Event) (q : QueryContextData),
    Preprocessing.aqo_planner host env parse None co bp b =
    Returned (default_plan host parse None co bp) b' /\
    query_hash q = qhash /\
    history b' =
      history b ++ before ++
      [EvLockAcquire (uint32_of_int qhash) 0;
       EvUpdateQuery qhash (fspace_hash q)
                     (learn_aqo q) (use_aqo q) (auto_tuning q);
       EvLockRelease (uint32_of_int qhash) 0;
       EvCallDefaultPlanner] /\
    no_store_calls before /\
    aqo_queries b' !! qhash = Some (row_of_context q) /\
    aqo_query_texts b' = aqo_query_texts b.
Proof.
  intros Hst qhash.
  destruct (aqo_planner_calls host env parse None co bp b)
    as (b' & before & q & Hplan & Hns & Hq & Hyes & _).
  fold qhash in Hyes, Hq.
  destruct (Hyes Hst) as (Hh & Haq & Hat).
  exists b', before, q.
  split; [exact Hplan |]. split; [exact Hq |].
  split.
  { rewrite Hh. unfold store_events. rewrite Hq. reflexivity. }
  split; [exact Hns |].
  split; [rewrite Haq; apply lookup_insert_eq | exact Hat].
Qed.

(** A cached plan in Learn mode: the class 16385 is stored without text. *)
Lemma C9_witness :
  exists b' : Backend,
    Preprocessing.aqo_planner
      Examples.host (Examples.env AQO_MODE_LEARN false) Examples.select_t
      None 0 0 Examples.fresh = Returned 1 b' /\
    is_Some (aqo_queries b' !! 16385) /\
    aqo_query_texts b' = aqo_query_texts Examples.fresh.
Proof.
  destruct (C9_class_stored_without_query_text
              Examples.host (Examples.env AQO_MODE_LEARN false)
              Examples.select_t 0 0 Examples.fresh eq_refl)
    as (b' & before & q & Hplan & _ & _ & _ & Hrow & Htexts).
  exists b'. split; [exact Hplan |]. split; [| exact Htexts].
  exists (row_of_context q). exact Hrow.
Defined.

(** ** Further properties of the planner hook *)

(** Induction on a parse tree and on the children of its nodes. *)
Lemma Node_nested_ind (P : Node -> Prop) :
  P T_Null ->
  (forall cmd rtable subnodes,
      Forall P subnodes -> P (T_Query cmd rtable subnodes)) ->
  (forall args, Forall P args -> P (T_Expr args)) ->
  forall node, P node.
Proof.
  intros H0 HQ HE. fix IH 1. intros [| cmd rtable subnodes | args].
  - exact H0.
  - apply HQ. induction subnodes as [| n l IHl]; constructor;
      [apply IH | exact IHl].
  - apply HE. induction args as [| n l IHl]; constructor;
      [apply IH | exact IHl].
Qed.

Lemma IsAQORelation_names (host : Host) (rel : Oid) :
  Preprocessing.IsAQORelation host rel = true <->
  In (RelationGetRelationName host rel) aqo_relation_names.
Proof.
  unfold Preprocessing.IsAQORelation, aqo_relation_names.
  rewrite !orb_true_iff, !String.eqb_eq. cbn [In]. intuition congruence.
Qed.

Lemma rte_is_system_iff (host : Host) (rte : RangeTblEntry) :
  Preprocessing.rte_is_system host rte = true <->
  rtekind rte = RTE_RELATION /\ system_relation host (rte_relid rte).
Proof.
  unfold Preprocessing.rte_is_system, system_relation.
  rewrite <- IsAQORelation_names.
  destruct (rtekind rte); rewrite ?orb_true_iff;
    intuition (try discriminate; auto).
Qed.

(** The walker answers whether a system relation can be reached, whatever
    the order in which it visits the range table and the children. *)
Lemma isQueryUsingSystemRelation_walker_iff (host : Host) (node : Node) :
  Preprocessing.isQueryUsingSystemRelation_walker host node = true <->
  reaches_system_relation host node.
Proof.
  induction node as [| cmd rtable subnodes IH | args IH] using Node_nested_ind.
  - split; [discriminate | intros H; inversion H].
  - cbn [Preprocessing.isQueryUsingSystemRelation_walker].
    rewrite List.Forall_forall in IH. split.
    + destruct (existsb (Preprocessing.rte_is_system host) rtable) eqn:Hr.
      * intros _. apply existsb_exists in Hr as (rte & Hin & Hs).
        apply rte_is_system_iff in Hs as [Hk Hs].
        exact (reaches_in_rtable host cmd rtable subnodes rte Hin Hk Hs).
      * intros Hs. apply existsb_exists in Hs as (n & Hin & Hn).
        apply (reaches_in_query host cmd rtable subnodes n Hin).
        apply (IH n Hin). exact Hn.
    + intros H. inversion H as [c r s rte Hin Hk Hs | c r s n Hin Hn |]; subst.
      * assert (existsb (Preprocessing.rte_is_system host) rtable = true) as ->;
          [| reflexivity].
        apply existsb_exists. exists rte. split; [exact Hin |].
        apply rte_is_system_iff. auto.
      * destruct (existsb (Preprocessing.rte_is_system host) rtable);
          [reflexivity |].
        apply existsb_exists. exists n. split; [exact Hin |].
        apply (IH n Hin). exact Hn.
  - cbn [Preprocessing.isQueryUsingSystemRelation_walker].
    rewrite List.Forall_forall in IH. split.
    + intros Hs. apply existsb_exists in Hs as (n & Hin & Hn).
      apply (reaches_in_expr host args n Hin). apply (IH n Hin). exact Hn.
    + intros H. inversion H as [| | a n Hin Hn]; subst.
      apply existsb_exists. exists n. split; [exact Hin |].
      apply (IH n Hin). exact Hn.
Qed.

Lemma prefix_iff (needle haystack : string) :
  String.prefix needle haystack = true <->
  exists post : string, haystack = String.append needle post.
Proof.
  revert haystack. induction needle as [| a needle IH]; intros haystack.
  - split; [intros _; exists haystack; reflexivity |].
    intros _. destruct haystack; reflexivity.
  - destruct haystack as [| c haystack]; cbn.
    + split; [discriminate | intros [post H]; discriminate].
    + destruct (Ascii.ascii_dec a c) as [-> | Hne].
      * rewrite IH. split; intros [post H]; exists post;
          cbn [String.append] in *; [rewrite H; reflexivity | injection H as H; exact H].
      * split; [discriminate |]. intros [post H].
        cbn [String.append] in H. injection H as H _. congruence.
Qed.

(** [strstr] finds the needle exactly when it occurs in the haystack. *)
Lemma strstr_found_iff (haystack needle : string) :
  strstr_found haystack needle = true <-> occurs_in needle haystack.
Proof.
  unfold occurs_in. induction haystack as [| c haystack IH].
  - cbn [strstr_found]. destruct (String.prefix needle "") eqn:Hp.
    + split; [intros _ | reflexivity].
      apply prefix_iff in Hp as [post Hp]. exists ""%string, post. exact Hp.
    + split; [discriminate |]. intros (pre & post & H).
      destruct pre as [| a pre]; [| discriminate].
      assert (String.prefix needle "" = true) as Hq
          by (apply prefix_iff; exists post; exact H).
      congruence.
  - cbn [strstr_found]. destruct (String.prefix needle (String c haystack)) eqn:Hp.
    + split; [intros _ | reflexivity].
      apply prefix_iff in Hp as [post Hp]. exists ""%string, post. exact Hp.
    + rewrite IH. split.
      * intros (pre & post & H). exists (String c pre), post.
        cbn. rewrite H. reflexivity.
      * intros (pre & post & H). destruct pre as [| a pre].
        -- assert (String.prefix needle (String c haystack) = true) as Hq
               by (apply prefix_iff; exists post; exact H).
           congruence.
        -- cbn in H. injection H as _ H. exists pre, post. exact H.
Qed.

Lemma aqoIsEnabled_run (env : Env) (b : Backend) :
  Preprocessing.aqoIsEnabled env b =
  Returned (aqo_is_enabled env b) (guarded env b).
Proof.
  unfold Preprocessing.aqoIsEnabled, aqo_is_enabled, guarded. unfold_monad.
  destruct b as [q cc en dq aq at' pr fh sc tr]; cbn.
  destruct (creating_extension env); [reflexivity |].
  destruct en; [reflexivity |].
  destruct (aqo_extension_installed env); reflexivity.
Qed.

(** The first condition of [aqo_planner], clause by clause. *)
Lemma fast_exit_eq (host : Host) (env : Env) (parse : Node) (b : Backend) :
  fast_exit host env parse b =
  (negb (aqo_is_enabled env b) ||
   negb (Preprocessing.is_dml (commandType_of parse)) ||
   creating_extension env ||
   IsInParallelMode env || IsParallelWorker env ||
   (AQO_MODE_eqb (aqo_mode env) AQO_MODE_DISABLED &&
    negb (force_collect_stat env) && (aqo_profile_enable env <=? 0)) ||
   strstr_found (application_name env) "postgres_fdw" ||
   strstr_found (application_name env) "pgfdw:" ||
   Preprocessing.isQueryUsingSystemRelation host parse ||
   RecoveryInProgress env).
Proof.
  unfold fast_exit, Preprocessing.planner_bypass.
  rewrite (bind_returned _ _ _ _ _ (aqoIsEnabled_run env b)). reflexivity.
Qed.

Lemma first_exit_effect (host : Host) (env : Env) (parse : Node)
      (query_string : option string) (co : Z) (bp : ParamListInfo)
      (b : Backend) :
  fast_exit host env parse b = true ->
  leaves_by_first_exit host env parse query_string co bp b.
Proof.
  intros Hf. unfold leaves_by_first_exit.
  rewrite (aqo_planner_fast_exit host env parse query_string co bp b Hf).
  eexists. split; [reflexivity |]. split; [reflexivity |].
  split; [reflexivity |]. split; [reflexivity |]. split; [reflexivity |].
  split; [reflexivity |]. split; [reflexivity |]. split; [reflexivity |].
  apply hooks_off; reflexivity.
Qed.

Lemma list_member_int_elem_of (l : list Z) (d : Z) :
  list_member_int l d = true <-> d ∈ l.
Proof.
  unfold list_member_int. rewrite existsb_exists, list_elem_of_In.
  split.
  - intros (x & Hin & Heq). apply Z.eqb_eq in Heq. subst. exact Hin.
  - intros Hin. exists d. split; [exact Hin | apply Z.eqb_refl].
Qed.

(** X1. A query is left to the default planner by the first fast exit of
    [aqo_planner] when an extension is being created, when AQO is neither
    known to be enabled nor installed, when the command is not a SELECT,
    INSERT, UPDATE or DELETE, in parallel mode, in a parallel worker, during
    recovery, and in Disabled mode without forced collection or profiling.
    AQO is then disabled in the context and the default planner is the only
    call: the query hash is not computed, the selectivity cache is not
    cleared, and the classes being processed, the deny-list and the
    knowledge base are untouched; every hook calls its default estimator
    afterwards. *)
Theorem aqo_planner_bypassed_by_server_state
        (host : Host) (env : Env) (parse : Node)
        (query_string : option string) (co : Z) (bp : ParamListInfo)
        (b : Backend) :
  creating_extension env = true \/
  (aqo_enabled b = false /\ aqo_extension_installed env = false) \/
  Preprocessing.is_dml (commandType_of parse) = false \/
  IsInParallelMode env = true \/ IsParallelWorker env = true \/
  RecoveryInProgress env = true \/
  (aqo_mode env = AQO_MODE_DISABLED /\ force_collect_stat env = false /\
   aqo_profile_enable env <= 0) ->
  leaves_by_first_exit host env parse query_string co bp b.
Proof.
  intros H. apply first_exit_effect. rewrite fast_exit_eq.
  unfold aqo_is_enabled.
  destruct H as [H | [[H1 H2] | [H | [H | [H | [H | (H1 & H2 & H3)]]]]]].
  - rewrite H. cbn. reflexivity.
  - rewrite H1, H2. rewrite andb_false_r. reflexivity.
  - rewrite H. cbn. rewrite orb_true_r. reflexivity.
  - rewrite H. rewrite !orb_true_r. reflexivity.
  - rewrite H. rewrite !orb_true_r. reflexivity.
  - rewrite H. rewrite !orb_true_r. reflexivity.
  - rewrite H1, H2. apply Z.leb_le in H3. rewrite H3. cbn.
    rewrite !orb_true_r. reflexivity.
Qed.

(** A utility statement. *)
Lemma aqo_planner_bypassed_by_server_state_witness :
  leaves_by_first_exit
    Examples.host (Examples.env AQO_MODE_LEARN false)
    (T_Query CMD_UTILITY [] []) None 0 0 Examples.fresh.
Proof.
  apply aqo_planner_bypassed_by_server_state.
  right. right. left. reflexivity.
Defined.

(** X2. A session whose application name contains [postgres_fdw] or
    [pgfdw:], at any position, has every query left to the default planner
    by the first fast exit. *)
Theorem aqo_planner_bypassed_for_fdw_connections
        (host : Host) (env : Env) (parse : Node)
        (query_string : option string) (co : Z) (bp : ParamListInfo)
        (b : Backend) :
  occurs_in "postgres_fdw" (application_name env) \/
  occurs_in "pgfdw:" (application_name env) ->
  leaves_by_first_exit host env parse query_string co bp b.
Proof.
  intros H. apply first_exit_effect. rewrite fast_exit_eq.
  destruct H as [H | H]; apply strstr_found_iff in H; rewrite H;
    rewrite !orb_true_r; reflexivity.
Qed.

(** The application name [pgfdw:remote]. *)
Lemma aqo_planner_bypassed_for_fdw_connections_witness :
  leaves_by_first_exit
    Examples.host fdw_env Examples.select_t None 0 0 Examples.fresh.
Proof.
  apply aqo_planner_bypassed_for_fdw_connections.
  right. exists ""%string, "remote"%string. reflexivity.
Defined.

(** X3. [isQueryUsingSystemRelation] holds exactly when a range-table
    entry of kind [RTE_RELATION] for a catalog relation, or for one of the
    five relations of AQO, can be reached from the query through the
    children the walker visits, at any depth; entries of other kinds do not
    count. Such a query is left to the default planner by the first fast
    exit. *)
Theorem aqo_planner_bypassed_on_system_relations
        (host : Host) (env : Env) (parse : Node) :
  (Preprocessing.isQueryUsingSystemRelation host parse = true <->
   reaches_system_relation host parse) /\
  (reaches_system_relation host parse ->
   forall query_string co bp b,
     leaves_by_first_exit host env parse query_string co bp b).
Proof.
  split; [apply isQueryUsingSystemRelation_walker_iff |].
  intros H query_string co bp b. apply first_exit_effect.
  rewrite fast_exit_eq.
  apply isQueryUsingSystemRelation_walker_iff in H.
  unfold Preprocessing.isQueryUsingSystemRelation. rewrite H.
  rewrite !orb_true_r. reflexivity.
Qed.

(** The relation [aqo_queries] is read two levels down, in a subquery of an
    expression. *)
Lemma aqo_planner_bypassed_on_system_relations_witness :
  leaves_by_first_exit
    Examples.host (Examples.env AQO_MODE_LEARN false) select_in_subquery
    None 0 0 Examples.fresh.
Proof.
  apply (proj2 (aqo_planner_bypassed_on_system_relations
                  Examples.host (Examples.env AQO_MODE_LEARN false)
                  select_in_subquery)).
  eapply reaches_in_query; [left; reflexivity |].
  eapply reaches_in_expr; [left; reflexivity |].
  eapply reaches_in_rtable; [left; reflexivity | reflexivity |].
  right. cbn. auto.
Defined.

(** X4. [aqoIsEnabled] answers false while an extension is being created
    and changes nothing then; otherwise it answers whether AQO is known to
    be enabled or is installed, and remembers a positive answer. Once it
    has answered true, it answers true in every later call outside the
    creation of an extension, whether the extension is still installed or
    not, and leaves the backend as it is. *)
Theorem aqoIsEnabled_latches (env : Env) (b : Backend) :
  exists b' : Backend,
    Preprocessing.aqoIsEnabled env b =
    Returned (aqo_is_enabled env b) b' /\
    (creating_extension env = true -> b' = b) /\
    (aqo_enabled b = true -> b' = b) /\
    aqo_enabled b' =
      (aqo_enabled b ||
       negb (creating_extension env) && aqo_extension_installed env) /\
    (aqo_is_enabled env b = true ->
     forall env2 : Env,
       creating_extension env2 = false ->
       Preprocessing.aqoIsEnabled env2 b' = Returned true b').
Proof.
  exists (guarded env b). split; [apply aqoIsEnabled_run |].
  unfold aqo_is_enabled, guarded.
  destruct b as [q cc en dq aq at' pr fh sc tr]; cbn.
  split; [intros ->; reflexivity |].
  split; [intros ->; destruct (creating_extension env); reflexivity |].
  split.
  { destruct (creating_extension env), en; reflexivity. }
  intros Hen env2 Hc2.
  rewrite aqoIsEnabled_run. unfold aqo_is_enabled, guarded. cbn.
  rewrite Hc2.
  destruct (creating_extension env); [discriminate |]. cbn in Hen |- *.
  rewrite Hen. cbn. reflexivity.
Qed.

Lemma resolve_stored_class_flags (env : Env) (b : Backend) (row : ClassRow) :
  aqo_mode env <> AQO_MODE_DISABLED ->
  aqo_queries b !! query_hash (query_context b) = Some row ->
  exists (s1 : Backend),
    Preprocessing.resolve_query_settings env b = Returned true s1 /\
    stored_class_flags (aqo_mode env) row (query_hash (query_context b))
                       (query_context s1).
Proof.
  intros Hm Hl.
  unfold Preprocessing.resolve_query_settings, find_query,
    Preprocessing.stored_class_settings, add_deactivated_query,
    stored_class_flags.
  unfold_monad.
  destruct (aqo_mode env); try congruence;
    cbn -[lookup union singleton]; rewrite Hl;
    cbn -[lookup union singleton];
    destruct (negb (row_learn_aqo row) && negb (row_use_aqo row) &&
              negb (row_auto_tuning row) && negb (force_collect_stat env));
    (eexists; split; [reflexivity |]); cbn; auto 10.
Qed.





(** X6. [aqo_planner] keeps the list of the classes being processed free
    of duplicates: it leaves the list as it is or appends the hash of the
    query, which was not in it. After a query that passes the first fast
    exit and is not on the deny-list, the hash is in the list. *)
Theorem aqo_planner_registers_class_once
        (host : Host) (env : Env) (parse : Node)
        (query_string : option string) (co : Z) (bp : ParamListInfo)
        (b : Backend) :
  NoDup (cur_classes b) ->
  let qhash := get_query_hash host parse query_string in
  exists b' : Backend,
    Preprocessing.aqo_planner host env parse query_string co bp b =
    Returned (default_plan host parse query_string co bp) b' /\
    NoDup (cur_classes b') /\
    (cur_classes b' = cur_classes b \/
     ((qhash ∉ cur_classes b) /\
      cur_classes b' = cur_classes b ++ [qhash])) /\
    (fast_exit host env parse b = false ->
     (qhash ∉ deactivated_queries b) -> qhash ∈ cur_classes b').
Proof.
  intros Hnd qhash.
  destruct (fast_exit host env parse b) eqn:Hf.
  { rewrite (aqo_planner_fast_exit host env parse query_string co bp b Hf).
    eexists. split; [reflexivity |]. split; [exact Hnd |].
    split; [left; reflexivity | discriminate]. }
  destruct (already_handled host parse query_string b) eqn:Hh.
  { rewrite (aqo_planner_already_handled
               host env parse query_string co bp b Hf Hh).
    eexists. split; [reflexivity |]. split; [exact Hnd |].
    split; [left; reflexivity |]. intros _ Hnot.
    cbn [cur_classes with_trace with_query_context with_selectivity_cache
         guarded with_aqo_enabled].
    unfold already_handled in Hh. fold qhash in Hh.
    rewrite bool_decide_eq_false_2 in Hh by exact Hnot.
    apply list_member_int_elem_of. exact Hh. }
  destruct (aqo_planner_classified_run host env parse query_string co bp b
                                       Hf Hh)
    as (s1 & q2 & calls & _ & _ & _ & _ & _ & Hcc & _ & _ & _ & _ &
        Hplan & _).
  fold qhash in Hcc, Hplan.
  eexists. split; [exact Hplan |].
  assert (cur_classes
            (after_store env (class_is_stored env b qhash) query_string s1) =
          cur_classes b ++ [qhash]) as Hafter.
  { unfold after_store.
    destruct (must_store env _ (query_context s1)); exact Hcc. }
  cbn [cur_classes with_trace with_query_context]. rewrite Hafter.
  assert (qhash ∉ cur_classes b) as Hnew.
  { unfold already_handled in Hh. fold qhash in Hh.
    apply orb_false_iff in Hh as [_ Hm]. intros Hin.
    apply list_member_int_elem_of in Hin. congruence. }
  split.
  { apply NoDup_app. split; [exact Hnd |]. split; [| apply NoDup_singleton].
    intros x Hx Hq. apply list_elem_of_singleton in Hq. subst. auto. }
  split; [right; auto |].
  intros _ _. apply elem_of_app. right. apply list_elem_of_singleton.
  reflexivity.
Qed.

(** The class 16385 is appended to the list [7]. *)
Lemma aqo_planner_registers_class_once_witness :
  exists b' : Backend,
    Preprocessing.aqo_planner
      Examples.host (Examples.env AQO_MODE_LEARN false) Examples.select_t
      None 0 0 (with_cur_classes [7] Examples.fresh) = Returned 1 b' /\
    NoDup (cur_classes b') /\ 16385 ∈ cur_classes b'.
Proof.
  destruct (aqo_planner_registers_class_once
              Examples.host (Examples.env AQO_MODE_LEARN false)
              Examples.select_t None 0 0
              (with_cur_classes [7] Examples.fresh))
    as (b' & Hplan & Hnd & _ & Hin).
  { apply NoDup_singleton. }
  exists b'. split; [exact Hplan |]. split; [exact Hnd |].
  apply Hin; [reflexivity | apply not_elem_of_empty].
Defined.

(** After a query that passes the first fast exit, its class is on the
    deny-list or among the classes being processed. *)
Lemma aqo_planner_marks_class_handled
      (host : Host) (env : Env) (parse : Node)
      (query_string : option string) (co : Z) (bp : ParamListInfo)
      (b : Backend) :
  fast_exit host env parse b = false ->
  exists b' : Backend,
    Preprocessing.aqo_planner host env parse query_string co bp b =
    Returned (default_plan host parse query_string co bp) b' /\
    already_handled host parse query_string b' = true.
Proof.
  intros Hf.
  destruct (already_handled host parse query_string b) eqn:Hh.
  { rewrite (aqo_planner_already_handled
               host env parse query_string co bp b Hf Hh).
    eexists. split; [reflexivity |]. exact Hh. }
  destruct (aqo_planner_classified_run host env parse query_string co bp b
                                       Hf Hh)
    as (s1 & q2 & calls & _ & _ & _ & _ & _ & Hcc & _ & _ & _ & _ &
        Hplan & _).
  eexists. split; [exact Hplan |].
  unfold already_handled.
  cbn [cur_classes deactivated_queries with_trace with_query_context].
  assert (cur_classes
            (after_store env
               (class_is_stored env b (get_query_hash host parse query_string))
               query_string s1) =
          cur_classes b ++ [get_query_hash host parse query_string]) as ->.
  { unfold after_store.
    destruct (must_store env _ (query_context s1)); exact Hcc. }
  assert (list_member_int
            (cur_classes b ++ [get_query_hash host parse query_string])
            (get_query_hash host parse query_string) = true) as ->.
  { apply list_member_int_elem_of, elem_of_app. right.
    apply list_elem_of_singleton. reflexivity. }
  apply orb_true_r.
Qed.

(** X7. When a query has passed the first fast exit, a later call of
    [aqo_planner] on the backend it left, for a query of the same class,
    takes the second fast exit, unless it takes the first: AQO is disabled
    for it, nothing is called between the clearing of the selectivity cache
    and the default planner, and nothing is stored. [aqo_planner] itself
    never takes a class off the list of the classes being processed. *)
Theorem aqo_planner_replanning_is_disabled
        (host : Host) (env : Env) (parse : Node)
        (query_string : option string) (co : Z) (bp : ParamListInfo)
        (b : Backend) :
  fast_exit host env parse b = false ->
  exists b' : Backend,
    Preprocessing.aqo_planner host env parse query_string co bp b =
    Returned (default_plan host parse query_string co bp) b' /\
    forall env2 parse2 query_string2 co2 bp2,
      get_query_hash host parse2 query_string2 =
      get_query_hash host parse query_string ->
      fast_exit host env2 parse2 b' = false ->
      exists b'' : Backend,
        Preprocessing.aqo_planner host env2 parse2 query_string2 co2 bp2 b' =
        Returned (default_plan host parse2 query_string2 co2 bp2) b'' /\
        history b'' =
          history b' ++ [EvSelectivityCacheClear; EvCallDefaultPlanner] /\
        query_context b'' =
          disabled_context
            (set_query_hash (get_query_hash host parse query_string)
                            (query_context b')) /\
        cur_classes b'' = cur_classes b' /\
        aqo_queries b'' = aqo_queries b' /\
        aqo_query_texts b'' = aqo_query_texts b' /\
        hooks_use_default_estimators host env2 b''.
Proof.
  intros Hf.
  destruct (aqo_planner_marks_class_handled
              host env parse query_string co bp b Hf) as (b' & Hplan & Hh).
  exists b'. split; [exact Hplan |].
  intros env2 parse2 query_string2 co2 bp2 Hhash Hf2.
  assert (already_handled host parse2 query_string2 b' = true) as Hh2.
  { unfold already_handled in *. rewrite Hhash. exact Hh. }
  rewrite (aqo_planner_already_handled
             host env2 parse2 query_string2 co2 bp2 b' Hf2 Hh2).
  eexists. split; [reflexivity |].
  split.
  { unfold history. cbn [trace with_trace rev].
    rewrite <- app_assoc. reflexivity. }
  rewrite Hhash.
  split; [reflexivity |]. split; [reflexivity |]. split; [reflexivity |].
  split; [reflexivity |]. apply hooks_off; reflexivity.
Qed.

(** The query of the examples, planned twice in Learn mode. *)
Lemma aqo_planner_replanning_is_disabled_witness :
  exists b' b'' : Backend,
    Preprocessing.aqo_planner
      Examples.host (Examples.env AQO_MODE_LEARN false) Examples.select_t
      None 0 0 Examples.fresh = Returned 1 b' /\
    Preprocessing.aqo_planner
      Examples.host (Examples.env AQO_MODE_LEARN false) Examples.select_t
      None 0 0 b' = Returned 1 b'' /\
    use_aqo (query_context b'') = false.
Proof.
  destruct (aqo_planner_replanning_is_disabled
              Examples.host (Examples.env AQO_MODE_LEARN false)
              Examples.select_t None 0 0 Examples.fresh eq_refl)
    as (b' & Hplan & Hagain).
  destruct (Hagain (Examples.env AQO_MODE_LEARN false) Examples.select_t
                   None 0 0 eq_refl)
    as (b'' & Hplan2 & _ & Hq & _).
  { rewrite fast_exit_eq. unfold aqo_is_enabled.
    destruct (aqo_enabled b'); reflexivity. }
  exists b', b''. split; [exact Hplan |]. split; [exact Hplan2 |].
  rewrite Hq. reflexivity.
Defined.

(** X8. When [aqo_planner] stores a class, [update_query] is called with
    the learn, use and auto-tuning flags that the context ends with, and
    with the feature space as it is before collection is forced: the query
    hash in Intelligent and Learn mode, 0 in Forced mode, and in
    Controlled, Frozen and Disabled mode what the context held from the
    query before. With forced collection the context ends with the query
    hash as feature space, so the two can differ. *)
Theorem aqo_planner_row_of_new_class
        (host : Host) (env : Env) (parse : Node)
        (query_string : option string) (co : Z) (bp : ParamListInfo)
        (b : Backend) :
  stores_class host env parse query_string b = true ->
  let qhash := get_query_hash host parse query_string in
  exists (b' : Backend) (row : ClassRow),
    Preprocessing.aqo_planner host env parse query_string co bp b =
    Returned (default_plan host parse query_string co bp) b' /\
    aqo_queries b' !! qhash = Some row /\
    In (EvUpdateQuery qhash (row_fspace_hash row) (row_learn_aqo row)
                      (row_use_aqo row) (row_auto_tuning row))
       (history b') /\
    row_learn_aqo row = learn_aqo (query_context b') /\
    row_use_aqo row = use_aqo (query_context b') /\
    row_auto_tuning row = auto_tuning (query_context b') /\
    row_fspace_hash row =
      new_row_fspace_hash (aqo_mode env) qhash (query_context b) /\
    fspace_hash (query_context b') =
      (if force_collect_stat env then qhash else row_fspace_hash row).
Proof.
  intros Hst qhash. unfold stores_class in Hst.
  apply andb_true_iff in Hst as [Hst Hadds].
  apply andb_true_iff in Hst as [Hst Hns].
  apply andb_true_iff in Hst as [Hf Hh].
  apply negb_true_iff in Hf, Hh, Hns. fold qhash in Hns.
  destruct (aqo_planner_classified_run host env parse query_string co bp b
                                       Hf Hh)
    as (s1 & q2 & calls & Hrun & _ & _ & _ & Hqh & _ & Haq & _ & _ & Had &
        Hplan & _ & F2 & F3 & F4 & _ & F7).
  fold qhash in Hrun, Hqh, Hplan, Had, F7. rewrite Hns in *.
  assert (fspace_hash (query_context s1) =
          new_row_fspace_hash (aqo_mode env) qhash (query_context b)) as Hfs.
  { set (cs := classify_start host env parse query_string b) in *.
    destruct (AQO_MODE_eqb (aqo_mode env) AQO_MODE_DISABLED) eqn:Hm.
    - assert (aqo_mode env = AQO_MODE_DISABLED) as Hmode
          by (destruct (aqo_mode env); try discriminate; reflexivity).
      rewrite (resolve_disabled env cs Hmode) in Hrun.
      injection Hrun as <-. rewrite Hmode. reflexivity.
    - assert (aqo_mode env <> AQO_MODE_DISABLED) as Hmode
          by (intros E; rewrite E in Hm; discriminate).
      assert (aqo_queries cs !! query_hash (query_context cs) = None) as Hl.
      { unfold class_is_stored, class_row in Hns.
        change (aqo_queries cs !! query_hash (query_context cs))
          with (aqo_queries b !! qhash).
        destruct (aqo_queries b !! qhash); [| reflexivity].
        destruct (aqo_mode env); congruence. }
      destruct (resolve_new_class env cs Hmode Hl)
        as (q' & Hrun' & _ & _ & Hflags).
      rewrite Hrun in Hrun'. injection Hrun' as ->.
      cbn [query_context with_trace with_query_context].
      change (query_hash (query_context cs)) with qhash in Hflags.
      change (fspace_hash (query_context cs))
        with (fspace_hash (query_context b)) in Hflags.
      destruct (aqo_mode env); cbn [new_row_fspace_hash];
        try contradiction; tauto. }
  assert (must_store env false (query_context s1) = true) as Hms.
  { unfold must_store. rewrite (Had eq_refl). exact Hadds. }
  exists (with_trace
            (EvCallDefaultPlanner ::
             trace (after_store env false query_string s1))
            (with_query_context q2 (after_store env false query_string s1))),
    (row_of_context (query_context s1)).
  split; [exact Hplan |].
  cbn [aqo_queries query_context with_trace with_query_context].
  split.
  { unfold after_store. rewrite Hms.
    cbn [aqo_queries with_aqo_queries with_aqo_query_texts].
    rewrite Hqh. apply lookup_insert_eq. }
  split.
  { unfold history, after_store. rewrite Hms.
    cbn [trace with_trace with_query_context with_aqo_queries
         with_aqo_query_texts].
    apply -> in_rev. right. apply in_or_app. left. apply -> in_rev.
    unfold store_events. rewrite Hqh. right. left. reflexivity. }
  cbn [row_of_context row_learn_aqo row_use_aqo row_auto_tuning
       row_fspace_hash].
  rewrite F2, F3, F4, F7, Hfs. auto 10.
Qed.

(** Forced mode with forced collection: the row has the feature space 0
    and the context 16385. *)
Lemma aqo_planner_row_of_new_class_witness :
  exists (b' : Backend) (row : ClassRow),
    Preprocessing.aqo_planner
      Examples.host (Examples.env AQO_MODE_FORCED true) Examples.select_t
      None 0 0 Examples.fresh = Returned 1 b' /\
    aqo_queries b' !! 16385 = Some row /\
    row_fspace_hash row = 0 /\
    fspace_hash (query_context b') = 16385.
Proof.
  destruct (aqo_planner_row_of_new_class
              Examples.host (Examples.env AQO_MODE_FORCED true)
              Examples.select_t None 0 0 Examples.fresh eq_refl)
    as (b' & row & Hplan & Hrow & _ & _ & _ & _ & Hfs & Hctx).
  exists b', row. split; [exact Hplan |]. split; [exact Hrow |].
  split; [exact Hfs | exact Hctx].
Defined.

(** X9. For a class that [find_query] finds, the context ends with the
    flags of the stored row, overridden by the mode: Frozen mode turns
    learning, auto-tuning and collection off and keeps use; Learn mode turns
    collection on and takes the query hash as feature space; forced
    collection turns collection on and takes the query hash as feature
    space in every mode. Collection follows the auto-tuning flag of the row
    otherwise. The stored row and the texts are not rewritten. *)
Theorem aqo_planner_settings_of_stored_class
        (host : Host) (env : Env) (parse : Node)
        (query_string : option string) (co : Z) (bp : ParamListInfo)
        (b : Backend) (row : ClassRow) :
  fast_exit host env parse b = false ->
  already_handled host parse query_string b = false ->
  aqo_mode env <> AQO_MODE_DISABLED ->
  aqo_queries b !! get_query_hash host parse query_string = Some row ->
  let qhash := get_query_hash host parse query_string in
  exists b' : Backend,
    Preprocessing.aqo_planner host env parse query_string co bp b =
    Returned (default_plan host parse query_string co bp) b' /\
    use_aqo (query_context b') = row_use_aqo row /\
    learn_aqo (query_context b') =
      match aqo_mode env with
      | AQO_MODE_FROZEN => false
      | _ => row_learn_aqo row
      end /\
    auto_tuning (query_context b') =
      match aqo_mode env with
      | AQO_MODE_FROZEN => false
      | _ => row_auto_tuning row
      end /\
    collect_stat (query_context b') =
      (force_collect_stat env ||
       match aqo_mode env with
       | AQO_MODE_FROZEN => false
       | AQO_MODE_LEARN => true
       | _ => row_auto_tuning row
       end) /\
    fspace_hash (query_context b') =
      (if force_collect_stat env then qhash
       else match aqo_mode env with
            | AQO_MODE_LEARN => qhash
            | _ => row_fspace_hash row
            end) /\
    aqo_queries b' = aqo_queries b /\
    aqo_query_texts b' = aqo_query_texts b.
Proof.
  intros Hf Hh Hmode Hl qhash.
  destruct (aqo_planner_classified_run host env parse query_string co bp b
                                       Hf Hh)
    as (s1 & q2 & calls & Hrun & _ & _ & _ & _ & _ & Haq & Hat & _ & _ &
        Hplan & _ & F2 & F3 & F4 & F6 & F7).
  fold qhash in Hrun, Hplan, Hl, F7.
  assert (class_is_stored env b qhash = true) as Hst.
  { unfold class_is_stored, class_row. rewrite Hl.
    destruct (aqo_mode env); congruence. }
  rewrite Hst in *.
  destruct (resolve_stored_class_flags
              env (classify_start host env parse query_string b) row Hmode Hl)
    as (s1' & Hrun' & _ & Huse & Hflags).
  rewrite Hrun in Hrun'. injection Hrun' as <-.
  change (query_hash
            (query_context (classify_start host env parse query_string b)))
    with qhash in Hflags.
  assert (after_store env true query_string s1 = s1) as Hkeep by reflexivity.
  rewrite Hkeep in Hplan.
  eexists. split; [exact Hplan |].
  cbn [query_context aqo_queries aqo_query_texts with_trace
       with_query_context].
  rewrite F2, F3, F4, F6, F7, Huse.
  destruct (aqo_mode env), (force_collect_stat env);
    try congruence; cbn [orb];
    destruct Hflags as (H1 & H2 & H3 & H4);
    rewrite ?H1, ?H2, ?H3, ?H4; auto 10.
Qed.

(** A class stored with every flag on, in Frozen mode: only use stays
    on. *)
Lemma aqo_planner_settings_of_stored_class_witness :
  exists b' : Backend,
    Preprocessing.aqo_planner
      Examples.host (Examples.env AQO_MODE_FROZEN false)
      Examples.select_t None 0 0
      (with_aqo_queries
         {[ 16385 := {| row_learn_aqo := true; row_use_aqo := true;
                        row_fspace_hash := 5; row_auto_tuning := true |} ]}
         Examples.fresh) = Returned 1 b' /\
    use_aqo (query_context b') = true /\
    learn_aqo (query_context b') = false /\
    collect_stat (query_context b') = false /\
    fspace_hash (query_context b') = 5.
Proof.
  destruct (aqo_planner_settings_of_stored_class
              Examples.host (Examples.env AQO_MODE_FROZEN false)
              Examples.select_t None 0 0
              (with_aqo_queries
                 {[ 16385 := {| row_learn_aqo := true; row_use_aqo := true;
                                row_fspace_hash := 5;
                                row_auto_tuning := true |} ]}
                 Examples.fresh)
              {| row_learn_aqo := true; row_use_aqo := true;
                 row_fspace_hash := 5; row_auto_tuning := true |}
              eq_refl eq_refl ltac:(discriminate) eq_refl)
    as (b' & Hplan & Hu & Hl & _ & Hc & Hfs & _).
  exists b'. split; [exact Hplan |]. auto.
Defined.

(** X10. The deny-list after [aqo_planner] is the deny-list before, with
    the hash of the query added exactly when the query passes both fast
    exits and [find_query] reports a row with learn, use and auto-tuning
    off, while collection is not forced. The row decides, as it is stored:
    the overrides of the mode come after the test, and a class that is not
    stored is never put on the list. *)
Theorem aqo_planner_deactivates_only_idle_stored_classes
        (host : Host) (env : Env) (parse : Node)
        (query_string : option string) (co : Z) (bp : ParamListInfo)
        (b : Backend) :
  let qhash := get_query_hash host parse query_string in
  exists b' : Backend,
    Preprocessing.aqo_planner host env parse query_string co bp b =
    Returned (default_plan host parse query_string co bp) b' /\
    deactivated_queries b' =
      (if deactivates host env parse query_string b
       then {[ qhash ]} ∪ deactivated_queries b
       else deactivated_queries b).
Proof.
  intros qhash. unfold deactivates.
  destruct (fast_exit host env parse b) eqn:Hf.
  { rewrite (aqo_planner_fast_exit host env parse query_string co bp b Hf).
    eexists. split; reflexivity. }
  destruct (already_handled host parse query_string b) eqn:Hh.
  { rewrite (aqo_planner_already_handled
               host env parse query_string co bp b Hf Hh).
    eexists. split; reflexivity. }
  destruct (aqo_planner_classified_run host env parse query_string co bp b
                                       Hf Hh)
    as (s1 & q2 & calls & Hrun & _ & _ & _ & _ & _ & _ & _ & _ & _ &
        Hplan & _).
  fold qhash in Hrun, Hplan.
  eexists. split; [exact Hplan |].
  cbn [negb andb deactivated_queries with_trace with_query_context].
  assert (deactivated_queries
            (after_store env (class_is_stored env b qhash) query_string s1) =
          deactivated_queries s1) as ->.
  { unfold after_store.
    destruct (must_store env _ (query_context s1)); reflexivity. }
  set (cs := classify_start host env parse query_string b) in *.
  fold qhash.
  destruct (AQO_MODE_eqb (aqo_mode env) AQO_MODE_DISABLED) eqn:Hm.
  - assert (aqo_mode env = AQO_MODE_DISABLED) as Hmode
        by (destruct (aqo_mode env); try discriminate; reflexivity).
    rewrite (resolve_disabled env cs Hmode) in Hrun.
    injection Hrun as _ <-. unfold class_row. rewrite Hmode. reflexivity.
  - assert (aqo_mode env <> AQO_MODE_DISABLED) as Hmode
        by (intros E; rewrite E in Hm; discriminate).
    assert (class_row env b qhash = aqo_queries b !! qhash) as ->
        by (unfold class_row; destruct (aqo_mode env); congruence).
    destruct (aqo_queries b !! qhash) as [row |] eqn:Hl.
    + destruct (resolve_stored_class env cs row Hmode Hl)
        as (q' & Hrun' & _).
      rewrite Hrun in Hrun'. injection Hrun' as _ ->.
      destruct (no_reason_for_aqo env row); reflexivity.
    + destruct (resolve_new_class env cs Hmode Hl) as (q' & Hrun' & _).
      rewrite Hrun in Hrun'. injection Hrun' as _ ->. reflexivity.
Qed.

(** ** Further properties of the hooks *)

(** The [forboth] loop puts one entry for each clause that has a
    selectivity, in order. *)
Lemma cache_selectivities_entries (host : Host) nargs args_hash eclass_hash
      rti reloid (allclauses : list Clause) :
  forall (selectivities : list double) (b : Backend),
    CardinalityHooks.cache_selectivities
      host nargs args_hash eclass_hash rti reloid allclauses selectivities b =
    Returned tt
      (with_selectivity_cache
         (cache_put_all
            (cache_entries host nargs args_hash eclass_hash rti reloid
                           allclauses selectivities)
            (selectivity_cache b))
         (with_trace
            (rev (map cache_event
                      (cache_entries host nargs args_hash eclass_hash
                                     rti reloid allclauses selectivities)) ++
             trace b) b)).
Proof.
  unfold cache_entries, cache_put_all.
  induction allclauses as [| l allclauses IH]; intros selectivities b.
  - cbn [CardinalityHooks.cache_selectivities combine map rev foldl].
    unfold ret.
    rewrite with_trace_nil, with_selectivity_cache_nil. reflexivity.
  - destruct selectivities as [| l2 selectivities].
    + cbn [CardinalityHooks.cache_selectivities combine map rev foldl].
      unfold ret.
      rewrite with_trace_nil, with_selectivity_cache_nil. reflexivity.
    + cbn [CardinalityHooks.cache_selectivities combine map rev fst snd
           cache_event foldl].
      unfold cache_selectivity. unfold_monad. rewrite IH.
      cbn [trace with_trace selectivity_cache with_selectivity_cache].
      rewrite <- !app_assoc. reflexivity.
Qed.


Ltac unfold_calls :=
  unfold CardinalityHooks.call_get_selectivities,
    CardinalityHooks.call_aqo_get_clauses,
    CardinalityHooks.call_get_list_of_relids,
    CardinalityHooks.call_get_path_clauses,
    CardinalityHooks.call_predict_for_relation.

Ltac step_state :=
  cbn [orb andb negb fst snd trace with_trace query_context
       selectivity_cache with_selectivity_cache with_ppi].

Lemma aqo_set_baserel_rows_estimate_summary
      (host : Host) (root : PlannerInfo) (rel : RelOptInfo) (b : Backend) :
  exists (rel' : RelOptInfo) (calls : list Event),
    CardinalityHooks.aqo_set_baserel_rows_estimate host root rel b =
    Returned rel' (with_trace (calls ++ trace b) b) /\
    existsb is_predict_call calls = consults_oracle host b /\
    existsb is_get_selectivities_call calls = computes_selectivities host b /\
    (if existsb is_default_estimator calls
     then predicted_cardinality rel' = d_minus_one
     else d_ge0 (predicted_cardinality rel') = true /\
          rows rel' = predicted_cardinality rel') /\
    same_relation rel rel' /\
    (consults_oracle host b = false ->
     rel' = set_rows
              (default_baserel_rows
                 host root (set_predicted_cardinality d_minus_one rel))
              (set_predicted_cardinality d_minus_one rel)).
Proof.
  unfold consults_oracle, computes_selectivities, same_relation.
  unfold CardinalityHooks.aqo_set_baserel_rows_estimate. unfold_calls.
  unfold_monad.
  destruct (IsQueryDisabled host (query_context b)).
  { rewrite default_set_baserel_rows_estimate_run.
    eexists _, [_]. split; [reflexivity |]. cbn. auto 10. }
  destruct (use_aqo (query_context b)), (learn_aqo (query_context b));
    step_state.
  - destruct (predict_for_relation host _ _ _ _) as [predicted fss].
    destruct (d_ge0 predicted) eqn:Hge.
    + eexists _, [_; _; _]. split; [reflexivity |]. cbn.
      repeat split; auto; discriminate.
    + rewrite default_set_baserel_rows_estimate_run.
      eexists _, [_; _; _; _]. split; [reflexivity |]. cbn.
      repeat split; auto; discriminate.
  - destruct (predict_for_relation host _ _ _ _) as [predicted fss].
    destruct (d_ge0 predicted) eqn:Hge.
    + eexists _, [_; _; _]. split; [reflexivity |]. cbn.
      repeat split; auto; discriminate.
    + rewrite default_set_baserel_rows_estimate_run.
      eexists _, [_; _; _; _]. split; [reflexivity |]. cbn.
      repeat split; auto; discriminate.
  - rewrite default_set_baserel_rows_estimate_run.
    eexists _, [_; _]. split; [reflexivity |]. cbn. auto 10.
  - rewrite default_set_baserel_rows_estimate_run.
    eexists _, [_]. split; [reflexivity |]. cbn. auto 10.
Qed.

Lemma aqo_set_joinrel_size_estimates_summary
      (host : Host) (root : PlannerInfo) (rel outer_rel inner_rel : RelOptInfo)
      (sjinfo : SpecialJoinInfo) (restrictlist : list Clause) (b : Backend) :
  exists (rel' : RelOptInfo) (calls : list Event),
    CardinalityHooks.aqo_set_joinrel_size_estimates
      host root rel outer_rel inner_rel sjinfo restrictlist b =
    Returned rel' (with_trace (calls ++ trace b) b) /\
    existsb is_predict_call calls = consults_oracle host b /\
    existsb is_get_selectivities_call calls = computes_selectivities host b /\
    (if existsb is_default_estimator calls
     then predicted_cardinality rel' = d_minus_one
     else d_ge0 (predicted_cardinality rel') = true /\
          rows rel' = predicted_cardinality rel') /\
    same_relation rel rel' /\
    (consults_oracle host b = false ->
     rel' = set_rows
              (default_joinrel_rows
                 host root (set_predicted_cardinality d_minus_one rel)
                 outer_rel inner_rel sjinfo restrictlist)
              (set_predicted_cardinality d_minus_one rel)).
Proof.
  unfold consults_oracle, computes_selectivities, same_relation.
  unfold CardinalityHooks.aqo_set_joinrel_size_estimates. unfold_calls.
  unfold_monad.
  destruct (IsQueryDisabled host (query_context b)).
  { rewrite default_set_joinrel_size_estimates_run.
    eexists _, [_]. split; [reflexivity |]. cbn. auto 10. }
  destruct (use_aqo (query_context b)), (learn_aqo (query_context b));
    step_state.
  - destruct (get_path_clauses host (selectivity_cache b)
                               (cheapest_total_path outer_rel) root)
      as [outer_clauses outer_selectivities]. step_state.
    destruct (get_path_clauses host (selectivity_cache b)
                               (cheapest_total_path inner_rel) root)
      as [inner_clauses inner_selectivities]. step_state.
    destruct (predict_for_relation host _ _ _ _) as [predicted fss].
    destruct (d_ge0 predicted) eqn:Hge.
    + eexists _, [_; _; _; _; _; _]. split; [reflexivity |]. cbn.
      repeat split; auto; discriminate.
    + rewrite default_set_joinrel_size_estimates_run.
      eexists _, [_; _; _; _; _; _; _]. split; [reflexivity |]. cbn.
      repeat split; auto; discriminate.
  - destruct (get_path_clauses host (selectivity_cache b)
                               (cheapest_total_path outer_rel) root)
      as [outer_clauses outer_selectivities]. step_state.
    destruct (get_path_clauses host (selectivity_cache b)
                               (cheapest_total_path inner_rel) root)
      as [inner_clauses inner_selectivities]. step_state.
    destruct (predict_for_relation host _ _ _ _) as [predicted fss].
    destruct (d_ge0 predicted) eqn:Hge.
    + eexists _, [_; _; _; _; _; _]. split; [reflexivity |]. cbn.
      repeat split; auto; discriminate.
    + rewrite default_set_joinrel_size_estimates_run.
      eexists _, [_; _; _; _; _; _; _]. split; [reflexivity |]. cbn.
      repeat split; auto; discriminate.
  - rewrite default_set_joinrel_size_estimates_run.
    eexists _, [_; _]. split; [reflexivity |]. cbn. auto 10.
  - rewrite default_set_joinrel_size_estimates_run.
    eexists _, [_]. split; [reflexivity |]. cbn. auto 10.
Qed.

Lemma existsb_cache_events (f : Event -> bool) (entries : list CacheEntry) :
  (forall e : CacheEntry, f (cache_event e) = false) ->
  existsb f (rev (map cache_event entries)) = false.
Proof.
  intros Hf. rewrite existsb_rev.
  induction entries as [| e entries IH]; [reflexivity |].
  cbn [map existsb]. rewrite Hf, IH. reflexivity.
Qed.

Lemma cache_event_not_predict (e : CacheEntry) :
  is_predict_call (cache_event e) = false.
Proof. destruct e as [[[c r] o] s]. reflexivity. Qed.

Lemma cache_event_not_get_selectivities (e : CacheEntry) :
  is_get_selectivities_call (cache_event e) = false.
Proof. destruct e as [[[c r] o] s]. reflexivity. Qed.

Lemma cache_event_not_default_estimator (e : CacheEntry) :
  is_default_estimator (cache_event e) = false.
Proof. destruct e as [[[c r] o] s]. reflexivity. Qed.

Lemma aqo_get_parameterized_baserel_size_summary
      (host : Host) (root : PlannerInfo) (rel : RelOptInfo)
      (param_clauses : list Clause) (b : Backend) :
  exists (size : double) (b' : Backend) (calls : list Event),
    CardinalityHooks.aqo_get_parameterized_baserel_size
      host root rel param_clauses b = Returned size b' /\
    trace b' = calls ++ trace b /\
    same_session b b' /\
    existsb is_predict_call calls = consults_oracle host b /\
    existsb is_get_selectivities_call calls = computes_selectivities host b /\
    selectivity_cache b' =
      (if computes_selectivities host b
       then cache_put_all
              (parameterized_baserel_cache_entries
                 host b root rel param_clauses)
              (selectivity_cache b)
       else selectivity_cache b) /\
    (if consults_oracle host b
     then predicted_ppi_rows b' =
            fst (parameterized_baserel_oracle host b root rel param_clauses) /\
          fss_ppi_hash b' =
            double_of_int
              (snd (parameterized_baserel_oracle
                      host b root rel param_clauses))
     else same_staging b b' /\
          size = default_parameterized_baserel_size
                   host root rel param_clauses).
Proof.
  unfold consults_oracle, computes_selectivities, same_session, same_staging,
    parameterized_baserel_cache_entries, parameterized_baserel_oracle.
  unfold CardinalityHooks.aqo_get_parameterized_baserel_size. unfold_calls.
  unfold get_query_context, get, bind at 1 2, ret at 1.
  destruct (IsQueryDisabled host (query_context b)).
  { rewrite default_get_parameterized_baserel_size_run.
    eexists _, _, [_]. split; [reflexivity |]. cbn. auto 20. }
  destruct (use_aqo (query_context b)) eqn:Hu,
           (learn_aqo (query_context b)) eqn:Hl;
    cbn [orb andb negb]; unfold bind at 1; unfold_monad; step_state;
    try destruct (get_eclasses host _) as [[nargs args_hash] eclass_hash];
    try rewrite cache_selectivities_entries; step_state.
  - destruct (predict_for_relation host _ _ _ _) as [predicted fss].
    step_state. destruct (d_ge0 predicted) eqn:Hge.
    + eexists _, _, (_ :: _ ++ [_; _; _]). split; [reflexivity |].
      split; [cbn; rewrite <- app_assoc; reflexivity |].
      cbn. rewrite ?existsb_app,
        ?(existsb_cache_events _ _ cache_event_not_predict),
        ?(existsb_cache_events _ _ cache_event_not_get_selectivities).
      cbn. auto 20.
    + rewrite default_get_parameterized_baserel_size_run.
      eexists _, _, (_ :: _ :: _ ++ [_; _; _]). split; [reflexivity |].
      split; [cbn; rewrite <- app_assoc; reflexivity |].
      cbn. rewrite ?existsb_app,
        ?(existsb_cache_events _ _ cache_event_not_predict),
        ?(existsb_cache_events _ _ cache_event_not_get_selectivities).
      cbn. auto 20.
  - destruct (predict_for_relation host _ _ _ _) as [predicted fss].
    step_state. destruct (d_ge0 predicted) eqn:Hge.
    + eexists _, _, (_ :: _ ++ [_; _; _]). split; [reflexivity |].
      split; [cbn; rewrite <- app_assoc; reflexivity |].
      cbn. rewrite ?existsb_app,
        ?(existsb_cache_events _ _ cache_event_not_predict),
        ?(existsb_cache_events _ _ cache_event_not_get_selectivities).
      cbn. auto 20.
    + rewrite default_get_parameterized_baserel_size_run.
      eexists _, _, (_ :: _ :: _ ++ [_; _; _]). split; [reflexivity |].
      split; [cbn; rewrite <- app_assoc; reflexivity |].
      cbn. rewrite ?existsb_app,
        ?(existsb_cache_events _ _ cache_event_not_predict),
        ?(existsb_cache_events _ _ cache_event_not_get_selectivities).
      cbn. auto 20.
  - rewrite default_get_parameterized_baserel_size_run.
    eexists _, _, (_ :: _ ++ [_; _; _]). split; [reflexivity |].
    split; [cbn; rewrite <- app_assoc; reflexivity |].
    cbn. rewrite ?existsb_app,
      ?(existsb_cache_events _ _ cache_event_not_predict),
      ?(existsb_cache_events _ _ cache_event_not_get_selectivities).
    cbn. auto 20.
  - rewrite default_get_parameterized_baserel_size_run.
    eexists _, _, [_]. split; [reflexivity |]. cbn. auto 20.
Qed.

Lemma aqo_get_parameterized_joinrel_size_summary
      (host : Host) (root : PlannerInfo) (rel : RelOptInfo)
      (outer_path inner_path : PathPtr) (sjinfo : SpecialJoinInfo)
      (clauses : list Clause) (b : Backend) :
  exists (size : double) (b' : Backend) (calls : list Event),
    CardinalityHooks.aqo_get_parameterized_joinrel_size
      host root rel outer_path inner_path sjinfo clauses b =
    Returned size b' /\
    trace b' = calls ++ trace b /\
    same_session b b' /\
    existsb is_predict_call calls = consults_oracle host b /\
    existsb is_get_selectivities_call calls = computes_selectivities host b /\
    selectivity_cache b' = selectivity_cache b /\
    (if consults_oracle host b
     then predicted_ppi_rows b' =
            fst (join_oracle host b root rel
                             outer_path inner_path sjinfo clauses) /\
          fss_ppi_hash b' =
            double_of_int
              (snd (join_oracle host b root rel
                                outer_path inner_path sjinfo clauses))
     else same_staging b b' /\
          size = default_parameterized_joinrel_size
                   host root rel outer_path inner_path sjinfo clauses).
Proof.
  unfold consults_oracle, computes_selectivities, same_session, same_staging,
    join_oracle.
  unfold CardinalityHooks.aqo_get_parameterized_joinrel_size. unfold_calls.
  unfold_monad.
  destruct (IsQueryDisabled host (query_context b)).
  { rewrite default_get_parameterized_joinrel_size_run.
    eexists _, _, [_]. split; [reflexivity |]. cbn. auto 20. }
  destruct (use_aqo (query_context b)), (learn_aqo (query_context b));
    step_state.
  - destruct (get_path_clauses host (selectivity_cache b) outer_path root)
      as [outer_clauses outer_selectivities]. step_state.
    destruct (get_path_clauses host (selectivity_cache b) inner_path root)
      as [inner_clauses inner_selectivities]. step_state.
    destruct (predict_for_relation host _ _ _ _) as [predicted fss].
    step_state. destruct (d_ge0 predicted) eqn:Hge.
    + eexists _, _, [_; _; _; _; _; _]. split; [reflexivity |].
      cbn. auto 20.
    + rewrite default_get_parameterized_joinrel_size_run.
      eexists _, _, [_; _; _; _; _; _; _]. split; [reflexivity |].
      cbn. auto 20.
  - destruct (get_path_clauses host (selectivity_cache b) outer_path root)
      as [outer_clauses outer_selectivities]. step_state.
    destruct (get_path_clauses host (selectivity_cache b) inner_path root)
      as [inner_clauses inner_selectivities]. step_state.
    destruct (predict_for_relation host _ _ _ _) as [predicted fss].
    step_state. destruct (d_ge0 predicted) eqn:Hge.
    + eexists _, _, [_; _; _; _; _; _]. split; [reflexivity |].
      cbn. auto 20.
    + rewrite default_get_parameterized_joinrel_size_run.
      eexists _, _, [_; _; _; _; _; _; _]. split; [reflexivity |].
      cbn. auto 20.
  - rewrite default_get_parameterized_joinrel_size_run.
    eexists _, _, [_; _]. split; [reflexivity |]. cbn. auto 20.
  - rewrite default_get_parameterized_joinrel_size_run.
    eexists _, _, [_]. split; [reflexivity |]. cbn. auto 20.
Qed.

Lemma child_fss_of_calls (host : Host) (root : PlannerInfo) (subpath : Path)
      (b : Backend) :
  CardinalityHooks.child_fss_of host root subpath b =
  Returned (child_signature host b root subpath)
           (with_trace (child_calls host b root subpath ++ trace b) b).
Proof.
  unfold child_signature, child_calls.
  destruct (d_gt0 (predicted_cardinality (parent subpath))) eqn:Hp.
  - rewrite child_fss_of_fast, with_trace_nil by assumption. reflexivity.
  - apply child_fss_of_slow. exact Hp.
Qed.

Lemma child_calls_kinds (host : Host) (b : Backend) (root : PlannerInfo)
      (subpath : Path) :
  existsb is_default_estimator (child_calls host b root subpath) = false /\
  existsb is_load_fss_call (child_calls host b root subpath) = false /\
  existsb is_predict_call (child_calls host b root subpath) =
    negb (d_gt0 (predicted_cardinality (parent subpath))).
Proof.
  unfold child_calls.
  destruct (d_gt0 (predicted_cardinality (parent subpath))); auto.
Qed.

Lemma predict_num_groups_run (host : Host) (env : Env)
      (root : PlannerInfo) (subpath : Path) (group_exprs : list Clause)
      (b : Backend) :
  let b' := with_trace
              (predict_num_groups_calls host b root subpath group_exprs ++
               trace b) b in
  let fss := grouped_signature host b root subpath group_exprs in
  CardinalityHooks.predict_num_groups host env root subpath group_exprs b =
  match load_fss host (fspace_hash (query_context b)) fss with
  | None => Returned (d_minus_one, fss) b'
  | Some (target, nrows) =>
      if USE_ASSERT_CHECKING env && negb (nrows =? 1) then Trapped b'
      else Returned (if d_le0 (exp host target) then d_minus_one
                     else exp host target, fss) b'
  end.
Proof.
  unfold CardinalityHooks.predict_num_groups, predict_num_groups_calls,
    grouped_signature.
  rewrite (bind_returned _ _ _ _ _ (child_fss_of_calls host root subpath b)).
  unfold CardinalityHooks.call_load_fss. unfold_monad. step_state.
  destruct (load_fss host _ _) as [[target nrows] |]; [| reflexivity].
  destruct (USE_ASSERT_CHECKING env && negb (nrows =? 1)); reflexivity.
Qed.

Lemma group_default_estimator_run (host : Host) (root : PlannerInfo)
      (groupExprs : list Clause) (subpath : Path) (rel : RelOptInfo)
      (pgset : bool) (b : Backend) :
  (let* d := CardinalityHooks.default_estimate_num_groups
               host root groupExprs subpath rel pgset in
   ret (d, rel)) b =
  Returned (default_num_groups host root groupExprs subpath rel pgset, rel)
           (with_trace (EvDefaultEstimator :: trace b) b).
Proof.
  rewrite (bind_returned _ _ _ _ _
             (default_estimate_num_groups_run host _ _ _ _ _ _)).
  reflexivity.
Qed.

(** The group hook, case by case. *)
Lemma aqo_estimate_num_groups_hook_run
      (host : Host) (env : Env) (root : PlannerInfo)
      (groupExprs : list Clause) (subpath : Path)
      (grouped_rel : RelOptInfo) (pgset : bool) (b : Backend) :
  let calls := predict_num_groups_calls host b root subpath groupExprs in
  let fss := grouped_signature host b root subpath groupExprs in
  let refused := set_predicted_cardinality d_minus_one grouped_rel in
  CardinalityHooks.aqo_estimate_num_groups_hook
    host env root groupExprs subpath grouped_rel pgset b =
  if negb (group_hook_predicts b groupExprs pgset) then
    Returned (default_num_groups host root groupExprs subpath grouped_rel
                                 pgset, grouped_rel)
             (with_trace (EvDefaultEstimator :: trace b) b)
  else
    match load_fss host (fspace_hash (query_context b)) fss with
    | None =>
        Returned (default_num_groups host root groupExprs subpath refused
                                     pgset, refused)
                 (with_trace (EvDefaultEstimator :: calls ++ trace b) b)
    | Some (target, nrows) =>
        if USE_ASSERT_CHECKING env && negb (nrows =? 1)
        then Trapped (with_trace (calls ++ trace b) b)
        else if d_gt0 (exp host target)
        then Returned (exp host target,
                       set_fss_hash fss
                         (set_rows (exp host target)
                            (set_predicted_cardinality (exp host target)
                                                       grouped_rel)))
                      (with_trace (calls ++ trace b) b)
        else Returned (default_num_groups host root groupExprs subpath
                                          refused pgset, refused)
                      (with_trace (EvDefaultEstimator :: calls ++ trace b) b)
    end.
Proof.
  intros calls fss refused. unfold group_hook_predicts.
  unfold CardinalityHooks.aqo_estimate_num_groups_hook.
  unfold get_query_context, get, bind at 1 2, ret at 1.
  destruct (use_aqo (query_context b));
    [| apply group_default_estimator_run].
  cbn [negb andb].
  destruct pgset; [apply group_default_estimator_run |].
  destruct groupExprs as [| g groupExprs];
    [apply group_default_estimator_run |].
  cbn [orb CardinalityHooks.is_NIL negb].
  unfold bind at 1. rewrite predict_num_groups_run.
  fold calls. fold fss.
  destruct (load_fss host (fspace_hash (query_context b)) fss)
    as [[target nrows] |].
  - destruct (USE_ASSERT_CHECKING env && negb (nrows =? 1)); [reflexivity |].
    destruct (d_gt0 (exp host target)) eqn:Hgt.
    + rewrite (d_gt0_not_le0 _ Hgt), Hgt. reflexivity.
    + assert (d_gt0 (if d_le0 (exp host target) then d_minus_one
                     else exp host target) = false) as ->.
      { destruct (d_le0 (exp host target)); [reflexivity | exact Hgt]. }
      rewrite group_default_estimator_run. reflexivity.
  - change (d_gt0 d_minus_one) with false. cbn iota.
    rewrite group_default_estimator_run. reflexivity.
Qed.

(** X11. Each of the four relation hooks calls [predict_for_relation]
    exactly when the query is not disabled and [use_aqo] is on, and
    computes selectivities exactly when the query is not disabled and
    [use_aqo] or [learn_aqo] is on: a query that only learns has its
    selectivities computed and is estimated by the default estimator.
    Without the oracle the result is the default estimator's, on the
    relation marked with -1 for the two hooks that write on it. *)
Theorem relation_hooks_consult_oracle_only_when_used
        (host : Host) (b : Backend) (root : PlannerInfo)
        (rel outer_rel inner_rel : RelOptInfo)
        (outer_path inner_path : PathPtr) (sjinfo : SpecialJoinInfo)
        (clauses : list Clause) :
  (exists (rel' : RelOptInfo) (calls : list Event),
      CardinalityHooks.aqo_set_baserel_rows_estimate host root rel b =
      Returned rel' (with_trace (calls ++ trace b) b) /\
      existsb is_predict_call calls = consults_oracle host b /\
      existsb is_get_selectivities_call calls =
        computes_selectivities host b /\
      (consults_oracle host b = false ->
       rel' = set_rows
                (default_baserel_rows
                   host root (set_predicted_cardinality d_minus_one rel))
                (set_predicted_cardinality d_minus_one rel))) /\
  (exists (size : double) (b' : Backend) (calls : list Event),
      CardinalityHooks.aqo_get_parameterized_baserel_size
        host root rel clauses b = Returned size b' /\
      trace b' = calls ++ trace b /\
      existsb is_predict_call calls = consults_oracle host b /\
      existsb is_get_selectivities_call calls =
        computes_selectivities host b /\
      (consults_oracle host b = false ->
       size = default_parameterized_baserel_size host root rel clauses)) /\
  (exists (rel' : RelOptInfo) (calls : list Event),
      CardinalityHooks.aqo_set_joinrel_size_estimates
        host root rel outer_rel inner_rel sjinfo clauses b =
      Returned rel' (with_trace (calls ++ trace b) b) /\
      existsb is_predict_call calls = consults_oracle host b /\
      existsb is_get_selectivities_call calls =
        computes_selectivities host b /\
      (consults_oracle host b = false ->
       rel' = set_rows
                (default_joinrel_rows
                   host root (set_predicted_cardinality d_minus_one rel)
                   outer_rel inner_rel sjinfo clauses)
                (set_predicted_cardinality d_minus_one rel))) /\
  (exists (size : double) (b' : Backend) (calls : list Event),
      CardinalityHooks.aqo_get_parameterized_joinrel_size
        host root rel outer_path inner_path sjinfo clauses b =
      Returned size b' /\
      trace b' = calls ++ trace b /\
      existsb is_predict_call calls = consults_oracle host b /\
      existsb is_get_selectivities_call calls =
        computes_selectivities host b /\
      (consults_oracle host b = false ->
       size = default_parameterized_joinrel_size
                host root rel outer_path inner_path sjinfo clauses)).
Proof.
  split; [| split; [| split]].
  - destruct (aqo_set_baserel_rows_estimate_summary host root rel b)
      as (rel' & calls & Hrun & Hp & Hs & _ & _ & Hd).
    exists rel', calls. auto.
  - destruct (aqo_get_parameterized_baserel_size_summary
                host root rel clauses b)
      as (size & b' & calls & Hrun & Htr & _ & Hp & Hs & _ & Hst).
    exists size, b', calls. repeat (split; [assumption |]).
    intros Hc. rewrite Hc in Hst. tauto.
  - destruct (aqo_set_joinrel_size_estimates_summary
                host root rel outer_rel inner_rel sjinfo clauses b)
      as (rel' & calls & Hrun & Hp & Hs & _ & _ & Hd).
    exists rel', calls. auto.
  - destruct (aqo_get_parameterized_joinrel_size_summary
                host root rel outer_path inner_path sjinfo clauses b)
      as (size & b' & calls & Hrun & Htr & _ & Hp & Hs & _ & Hst).
    exists size, b', calls. repeat (split; [assumption |]).
    intros Hc. rewrite Hc in Hst. tauto.
Qed.

(** X12. The base relation hook and the join relation hook leave a mark
    that tells how the relation was estimated: [predicted_cardinality] is
    -1 when the default estimator was called, and otherwise it is [>= 0] and
    equal to [rows]. The index and the relids of the relation, its
    restriction clauses and its cheapest path are as before; the default
    estimators are here through the row count they store. *)
Theorem relation_hooks_mark_what_they_estimate
        (host : Host) (b : Backend) (root : PlannerInfo)
        (rel outer_rel inner_rel : RelOptInfo) (sjinfo : SpecialJoinInfo)
        (restrictlist : list Clause) :
  (exists (rel' : RelOptInfo) (calls : list Event),
      CardinalityHooks.aqo_set_baserel_rows_estimate host root rel b =
      Returned rel' (with_trace (calls ++ trace b) b) /\
      marks_agree_with_rows rel' calls /\ same_relation rel rel') /\
  (exists (rel' : RelOptInfo) (calls : list Event),
      CardinalityHooks.aqo_set_joinrel_size_estimates
        host root rel outer_rel inner_rel sjinfo restrictlist b =
      Returned rel' (with_trace (calls ++ trace b) b) /\
      marks_agree_with_rows rel' calls /\ same_relation rel rel').
Proof.
  split.
  - destruct (aqo_set_baserel_rows_estimate_summary host root rel b)
      as (rel' & calls & Hrun & _ & _ & Hm & Hr & _).
    exists rel', calls. auto.
  - destruct (aqo_set_joinrel_size_estimates_summary
                host root rel outer_rel inner_rel sjinfo restrictlist b)
      as (rel' & calls & Hrun & _ & _ & Hm & Hr & _).
    exists rel', calls. auto.
Qed.

(** X13. No hook changes the query context, the classes being processed,
    the deny-list, the stored classes or the stored texts, and the four
    relation hooks and [ppi_hook] always return. The base relation, join
    relation and group hooks also leave the values staged for [ppi_hook] and
    the selectivity cache; the parameterized join hook leaves the cache. *)
Theorem hooks_never_write_the_session
        (host : Host) (env : Env) (b : Backend) :
  hooks_keep_session host env b.
Proof.
  unfold hooks_keep_session. repeat apply conj.
  - intros root rel.
    destruct (aqo_set_baserel_rows_estimate_summary host root rel b)
      as (rel' & calls & Hrun & _).
    eexists _, _. split; [exact Hrun |]. repeat split.
  - intros root rel param_clauses.
    destruct (aqo_get_parameterized_baserel_size_summary
                host root rel param_clauses b)
      as (size & b' & calls & Hrun & _ & Hs & _).
    eexists _, _. split; [exact Hrun | exact Hs].
  - intros root rel outer_rel inner_rel sjinfo restrictlist.
    destruct (aqo_set_joinrel_size_estimates_summary
                host root rel outer_rel inner_rel sjinfo restrictlist b)
      as (rel' & calls & Hrun & _).
    eexists _, _. split; [exact Hrun |]. repeat split.
  - intros root rel outer_path inner_path sjinfo clauses.
    destruct (aqo_get_parameterized_joinrel_size_summary
                host root rel outer_path inner_path sjinfo clauses b)
      as (size & b' & calls & Hrun & _ & Hs & _ & _ & Hc & _).
    eexists _, _. split; [exact Hrun |]. split; [exact Hs | exact Hc].
  - intros root groupExprs subpath grouped_rel pgset. unfold exec.
    rewrite aqo_estimate_num_groups_hook_run.
    destruct (negb (group_hook_predicts b groupExprs pgset));
      [repeat split |].
    destruct (load_fss host _ _) as [[target nrows] |]; [| repeat split].
    destruct (USE_ASSERT_CHECKING env && negb (nrows =? 1));
      [repeat split |].
    destruct (d_gt0 (exp host target)); repeat split.
  - intros ppi. unfold CardinalityHooks.ppi_hook. unfold_monad.
    destruct (IsQueryDisabled host (query_context b)); eexists; reflexivity.
Qed.




Lemma ppi_hook_run (host : Host) (ppi : ParamPathInfo) (b : Backend) :
  CardinalityHooks.ppi_hook host ppi b =
  Returned (if IsQueryDisabled host (query_context b) then ppi
            else {| ppi_predicted_ppi_rows := predicted_ppi_rows b;
                    ppi_fss_ppi_hash := fss_ppi_hash b |}) b.
Proof.
  unfold CardinalityHooks.ppi_hook. unfold_monad.
  destruct (IsQueryDisabled host (query_context b)); reflexivity.
Qed.

(** X15. [ppi_hook], called after either parameterized size hook,
    copies to the path information the answer of the oracle to that hook
    and its signature, converted to a double, whether the prediction was
    adopted or refused. When the size hook did not consult the oracle
    because [use_aqo] is off, [ppi_hook] copies what an earlier call left
    staged; when the query is disabled it leaves the path information
    untouched. *)
Theorem ppi_hook_copies_what_the_size_hook_staged
        (host : Host) (root : PlannerInfo) (rel : RelOptInfo)
        (outer_path inner_path : PathPtr) (sjinfo : SpecialJoinInfo)
        (clauses : list Clause) (ppi : ParamPathInfo) (b : Backend) :
  (exists (size : double) (b' : Backend),
      CardinalityHooks.aqo_get_parameterized_baserel_size
        host root rel clauses b = Returned size b' /\
      CardinalityHooks.ppi_hook host ppi b' =
      Returned (ppi_after host b
                          (parameterized_baserel_oracle
                             host b root rel clauses) ppi) b') /\
  (exists (size : double) (b' : Backend),
      CardinalityHooks.aqo_get_parameterized_joinrel_size
        host root rel outer_path inner_path sjinfo clauses b =
      Returned size b' /\
      CardinalityHooks.ppi_hook host ppi b' =
      Returned (ppi_after host b
                          (join_oracle host b root rel outer_path inner_path
                                       sjinfo clauses) ppi) b').
Proof.
  split.
  - destruct (aqo_get_parameterized_baserel_size_summary
                host root rel clauses b)
      as (size & b' & calls & Hrun & _ & Hs & _ & _ & _ & Hst).
    exists size, b'. split; [exact Hrun |].
    rewrite ppi_hook_run. destruct Hs as (Hq & _). rewrite Hq.
    unfold ppi_after, consults_oracle in *.
    destruct (IsQueryDisabled host (query_context b)); [reflexivity |].
    destruct (use_aqo (query_context b)); cbn [negb andb] in Hst.
    + destruct Hst as [-> ->]. reflexivity.
    + destruct Hst as [[-> ->] _]. reflexivity.
  - destruct (aqo_get_parameterized_joinrel_size_summary
                host root rel outer_path inner_path sjinfo clauses b)
      as (size & b' & calls & Hrun & _ & Hs & _ & _ & _ & Hst).
    exists size, b'. split; [exact Hrun |].
    rewrite ppi_hook_run. destruct Hs as (Hq & _). rewrite Hq.
    unfold ppi_after, consults_oracle in *.
    destruct (IsQueryDisabled host (query_context b)); [reflexivity |].
    destruct (use_aqo (query_context b)); cbn [negb andb] in Hst.
    + destruct Hst as [-> ->]. reflexivity.
    + destruct Hst as [[-> ->] _]. reflexivity.
Qed.

(** X16. The group hook looks a class up with [load_fss] exactly when
    [use_aqo] is on, there are no grouping sets and the list of grouping
    expressions is not empty; [IsQueryDisabled] is not consulted. When it
    returns, either the default estimator was called, the result is its
    value and the rows and signature of the relation are kept, the relation
    being marked with -1 if the class was looked up; or it was not called,
    the result is strictly positive and is written as rows and as predicted
    cardinality with the grouped signature. It traps only in a build that
    checks assertions, on a stored row count other than 1, before the
    default estimator is called. Either way only the trace of the backend
    changes. *)
Theorem aqo_estimate_num_groups_hook_outcomes
        (host : Host) (env : Env) (root : PlannerInfo)
        (groupExprs : list Clause) (subpath : Path)
        (grouped_rel : RelOptInfo) (pgset : bool) (b : Backend) :
  exists calls : list Event,
    exec (CardinalityHooks.aqo_estimate_num_groups_hook
            host env root groupExprs subpath grouped_rel pgset) b =
    with_trace (calls ++ trace b) b /\
    existsb is_load_fss_call calls = group_hook_predicts b groupExprs pgset /\
    group_hook_postcondition host env root groupExprs subpath grouped_rel
                             pgset b calls.
Proof.
  unfold group_hook_postcondition, exec.
  rewrite aqo_estimate_num_groups_hook_run.
  destruct (child_calls_kinds host b root subpath) as (K1 & K2 & _).
  destruct (group_hook_predicts b groupExprs pgset) eqn:Hp; cbn [negb].
  2: { exists [EvDefaultEstimator]. cbn. auto 10. }
  destruct (load_fss host _ _) as [[target nrows] |] eqn:Hload.
  2: { exists (EvDefaultEstimator ::
               predict_num_groups_calls host b root subpath groupExprs).
       split; [reflexivity |]. cbn. auto 10. }
  destruct (USE_ASSERT_CHECKING env && negb (nrows =? 1)) eqn:Ha.
  { exists (predict_num_groups_calls host b root subpath groupExprs).
    split; [reflexivity |]. cbn. rewrite K1.
    apply andb_true_iff in Ha as [Ha Hn].
    apply negb_true_iff, Z.eqb_neq in Hn.
    split; [reflexivity |]. split; [exact Ha |]. split; [reflexivity |].
    exists target, nrows. auto. }
  destruct (d_gt0 (exp host target)) eqn:Hgt.
  - exists (predict_num_groups_calls host b root subpath groupExprs).
    split; [reflexivity |]. cbn. rewrite K1. auto 10.
  - exists (EvDefaultEstimator ::
            predict_num_groups_calls host b root subpath groupExprs).
    split; [reflexivity |]. cbn. auto 10.
Qed.

(** X17. When [load_fss] finds no row for the grouped signature, the
    group hook marks the relation with -1, leaves its rows and signature,
    and returns what the default estimator gives for the marked relation;
    the default estimator is called last, after [load_fss]. *)
Theorem aqo_estimate_num_groups_hook_without_stored_row
        (host : Host) (env : Env) (root : PlannerInfo)
        (groupExprs : list Clause) (subpath : Path)
        (grouped_rel : RelOptInfo) (pgset : bool) (b : Backend) :
  group_hook_predicts b groupExprs pgset = true ->
  load_fss host (fspace_hash (query_context b))
           (grouped_signature host b root subpath groupExprs) = None ->
  let refused := set_predicted_cardinality d_minus_one grouped_rel in
  CardinalityHooks.aqo_estimate_num_groups_hook
    host env root groupExprs subpath grouped_rel pgset b =
  Returned (default_num_groups host root groupExprs subpath refused pgset,
            refused)
           (with_trace
              (EvDefaultEstimator ::
               EvLoadFss (fspace_hash (query_context b))
                         (grouped_signature host b root subpath groupExprs) ::
               child_calls host b root subpath ++ trace b) b).
Proof.
  intros Hp Hload refused.
  rewrite aqo_estimate_num_groups_hook_run, Hp, Hload. reflexivity.
Qed.

(** Nothing is stored under the grouped signature 101: 200 groups, from
    the default estimator. *)
Lemma aqo_estimate_num_groups_hook_without_stored_row_witness :
  exists b' : Backend,
    CardinalityHooks.aqo_estimate_num_groups_hook
      Examples.host (Examples.env AQO_MODE_LEARN false) 0 [41]
      {| path_ptr := 7;
         parent := set_fss_hash 60
                     (set_predicted_cardinality 120%float
                        (Examples.base_rel 12));
         path_rows := 120%float |}
      (Examples.base_rel 0) false Examples.predicting =
    Returned (200%float,
              set_predicted_cardinality d_minus_one (Examples.base_rel 0))
             b' /\
    history b' = [EvLoadFss 0 101; EvDefaultEstimator].
Proof.
  eexists. split.
  - apply (aqo_estimate_num_groups_hook_without_stored_row
             Examples.host (Examples.env AQO_MODE_LEARN false) 0 [41]
             {| path_ptr := 7;
                parent := set_fss_hash 60
                            (set_predicted_cardinality 120%float
                               (Examples.base_rel 12));
                path_rows := 120%float |}
             (Examples.base_rel 0) false Examples.predicting
             eq_refl eq_refl).
  - reflexivity.
Defined.

(** X18. When [load_fss] reports a row count other than 1, a build that
    checks assertions traps in [predict_num_groups], after [load_fss] and
    before any estimator is called; a build that does not check them
    ignores the count and goes on with [exp] of the stored target. *)
Theorem aqo_estimate_num_groups_hook_asserts_one_row
        (host : Host) (env : Env) (root : PlannerInfo)
        (groupExprs : list Clause) (subpath : Path)
        (grouped_rel : RelOptInfo) (pgset : bool) (b : Backend)
        (target : double) (nrows : Z) :
  group_hook_predicts b groupExprs pgset = true ->
  load_fss host (fspace_hash (query_context b))
           (grouped_signature host b root subpath groupExprs) =
  Some (target, nrows) ->
  nrows <> 1 ->
  let calls := predict_num_groups_calls host b root subpath groupExprs in
  let refused := set_predicted_cardinality d_minus_one grouped_rel in
  (USE_ASSERT_CHECKING env = true ->
   CardinalityHooks.aqo_estimate_num_groups_hook
     host env root groupExprs subpath grouped_rel pgset b =
   Trapped (with_trace (calls ++ trace b) b) /\
   existsb is_default_estimator calls = false) /\
  (USE_ASSERT_CHECKING env = false ->
   CardinalityHooks.aqo_estimate_num_groups_hook
     host env root groupExprs subpath grouped_rel pgset b =
   if d_gt0 (exp host target)
   then Returned (exp host target,
                  set_fss_hash
                    (grouped_signature host b root subpath groupExprs)
                    (set_rows (exp host target)
                       (set_predicted_cardinality (exp host target)
                                                  grouped_rel)))
                 (with_trace (calls ++ trace b) b)
   else Returned (default_num_groups host root groupExprs subpath
                                     refused pgset, refused)
                 (with_trace (EvDefaultEstimator :: calls ++ trace b) b)).
Proof.
  intros Hp Hload Hn calls refused.
  rewrite aqo_estimate_num_groups_hook_run, Hp, Hload. cbn [negb].
  assert ((nrows =? 1) = false) as -> by (apply Z.eqb_neq; exact Hn).
  split; intros ->; cbn [negb andb]; [| reflexivity].
  split; [reflexivity |].
  unfold calls, predict_num_groups_calls. cbn [existsb is_default_estimator].
  apply (child_calls_kinds host b root subpath).
Qed.

(** Two rows under the signature 100, in a build that checks assertions. *)
Lemma aqo_estimate_num_groups_hook_asserts_one_row_witness :
  exists b' : Backend,
    CardinalityHooks.aqo_estimate_num_groups_hook
      host_with_two_rows (Examples.env AQO_MODE_LEARN false) 0 [40]
      {| path_ptr := 7;
         parent := set_fss_hash 60
                     (set_predicted_cardinality 120%float
                        (Examples.base_rel 12));
         path_rows := 120%float |}
      (Examples.base_rel 0) false Examples.predicting = Trapped b' /\
    history b' = [EvLoadFss 0 100].
Proof.
  destruct (aqo_estimate_num_groups_hook_asserts_one_row
              host_with_two_rows (Examples.env AQO_MODE_LEARN false) 0 [40]
              {| path_ptr := 7;
                 parent := set_fss_hash 60
                             (set_predicted_cardinality 120%float
                                (Examples.base_rel 12));
                 path_rows := 120%float |}
              (Examples.base_rel 0) false Examples.predicting
              Examples.ln37 2 eq_refl eq_refl ltac:(discriminate))
    as [Htrap _].
  destruct (Htrap eq_refl) as [Hrun _].
  eexists. split; [exact Hrun | reflexivity].
Defined.

(** ** Properties of the profiling table *)

Section ProfileMemFacts.

Import ProfileMem.

Context (phost : ProfileHost).
Implicit Types (s : State) (q : QueryContextData) (table : (gmap Z double)).

(** The wrapped product of line 126 is a multiple of 1048576. *)
Lemma int_of_Z_megabytes (n : Z) :
  exists m : Z, int_of_Z (n * 1048576) = m * 1048576.
Proof.
  unfold int_of_Z.
  exists (n - 4096 * ((n * 1048576 + 2147483648) / 4294967296)).
  rewrite Z.mod_eq by lia. lia.
Qed.

(** The wrapped product of line 102 vanishes on such a value. *)
Lemma int_of_Z_megabytes_twice (m : Z) :
  int_of_Z (m * 1048576 * 1048576) = 0.
Proof.
  unfold int_of_Z.
  replace (m * 1048576 * 1048576 + 2147483648)
    with (2147483648 + (m * 256) * 4294967296) by lia.
  rewrite Z.mod_add by lia. reflexivity.
Qed.

Lemma init_profile_shmem_table s table :
  profile_mem_queries s = Some table ->
  init_profile_shmem phost s = (true, s).
Proof. unfold init_profile_shmem. intros ->. reflexivity. Qed.

(** [init_profile_shmem] answers whether the table is there afterwards. *)
Lemma init_profile_shmem_answer s :
  exists s' : State,
    init_profile_shmem phost s =
    (match profile_mem_queries s' with Some _ => true | None => false end,
     s') /\
    aqo_profile_mem s' = aqo_profile_mem s /\
    out_of_memory s' = out_of_memory s /\
    (aqo_profile_mem s <= 0 -> s' = s).
Proof.
  unfold init_profile_shmem.
  destruct (profile_mem_queries s) as [table |] eqn:Ht.
  - exists s. rewrite Ht. auto.
  - destruct (aqo_profile_mem s >? 0) eqn:Hm.
    + eexists. split; [reflexivity |]. cbn. repeat split. lia.
    + exists s. rewrite Ht. auto.
Qed.

End ProfileMemFacts.

(** X19. [set_profile_mem] stores -1 for a value that is not positive and
    the value in bytes for a value up to 2047. Whatever positive number of
    bytes it has stored, the product by 1048576 that [init_profile_shmem]
    computes for the size of the table exceeds [INT_MAX]; with the
    wrap-around of [int] the size is 0, and that is what [ShmemInitHash] is
    called with. *)
Theorem set_profile_mem_requests_empty_table
        (phost : ProfileMem.ProfileHost) (newval : Z) (s : ProfileMem.State) :
  let s1 := ProfileMem.set_profile_mem newval s in
  (newval <= 0 -> ProfileMem.aqo_profile_mem s1 = -1) /\
  (0 < newval <= 2047 ->
   ProfileMem.aqo_profile_mem s1 = newval * 1048576) /\
  (ProfileMem.aqo_profile_mem s1 > 0 ->
   ProfileMem.INT_MAX < ProfileMem.aqo_profile_mem s1 * 1048576 /\
   ProfileMem.mem_size s1 = 0 /\
   (ProfileMem.profile_mem_queries s = None ->
    snd (ProfileMem.init_profile_shmem phost s1) =
    ProfileMem.with_profile_mem_queries
      (ProfileMem.ShmemInitHash phost 0) s1)).
Proof.
  intros s1. subst s1. unfold ProfileMem.set_profile_mem.
  destruct (newval <=? 0) eqn:Hn.
  - apply Z.leb_le in Hn. cbn. repeat split; lia.
  - apply Z.leb_gt in Hn.
    cbn [ProfileMem.aqo_profile_mem ProfileMem.with_aqo_profile_mem].
    split; [lia |]. split.
    { intros Hr. unfold ProfileMem.int_of_Z.
      rewrite Z.mod_small by lia. lia. }
    destruct (int_of_Z_megabytes newval) as [m Hm].
    intros Hpos. rewrite Hm in Hpos.
    assert (ProfileMem.mem_size
              (ProfileMem.with_aqo_profile_mem
                 (ProfileMem.int_of_Z (newval * 1048576)) s) = 0) as Hsize.
    { unfold ProfileMem.mem_size.
      cbn [ProfileMem.aqo_profile_mem ProfileMem.with_aqo_profile_mem].
      rewrite Hm, int_of_Z_megabytes_twice. reflexivity. }
    split; [rewrite Hm; unfold ProfileMem.INT_MAX; lia |].
    split; [exact Hsize |].
    intros Ht. unfold ProfileMem.init_profile_shmem.
    cbn [ProfileMem.profile_mem_queries ProfileMem.with_aqo_profile_mem
         ProfileMem.aqo_profile_mem].
    rewrite Ht, Hsize, Hm.
    assert ((m * 1048576 >? 0) = true) as -> by (apply Z.gtb_lt; lia).
    reflexivity.
Qed.

(** One megabyte. *)
Lemma set_profile_mem_requests_empty_table_witness :
  ProfileMem.mem_size (ProfileMem.set_profile_mem 1 profiling) = 0.
Proof.
  apply (set_profile_mem_requests_empty_table profile_host 1 profiling).
  reflexivity.
Defined.

(** X20. [update_profile_mem_table] always returns and never hands a NULL
    table to [hash_search]: when the table cannot be initialized the
    feature is disabled for the backend, with [aqo_profile_mem] at -1. With
    a setting that is not positive, the table is neither created nor
    changed. [out_of_memory], once set, stays set. *)
Theorem update_profile_mem_table_never_reads_null_table
        (phost : ProfileMem.ProfileHost) (q : QueryContextData)
        (totaltime query_planning_time : double) (s : ProfileMem.State) :
  exists s' : ProfileMem.State,
    ProfileMem.update_profile_mem_table
      phost q totaltime query_planning_time s = ProfileMem.Done tt s' /\
    (ProfileMem.profile_mem_queries s' = None ->
     ProfileMem.aqo_profile_mem s' = -1) /\
    (ProfileMem.aqo_profile_mem s <= 0 ->
     ProfileMem.profile_mem_queries s' = ProfileMem.profile_mem_queries s /\
     ProfileMem.out_of_memory s' = ProfileMem.out_of_memory s) /\
    (ProfileMem.out_of_memory s = true ->
     ProfileMem.out_of_memory s' = true).
Proof.
  unfold ProfileMem.update_profile_mem_table.
  destruct (init_profile_shmem_answer phost s)
    as (s1 & -> & Hmem & Hoom & Hkeep).
  destruct (ProfileMem.profile_mem_queries s1) as [table |] eqn:Ht.
  - destruct (ProfileMem.aqo_profile_mem s1 >? 0) eqn:Hpos.
    + destruct (ProfileMem.out_of_memory s1) eqn:Ho.
      * exists s1. split; [reflexivity |].
        split; [congruence |]. split; [| congruence].
        intros Hle. apply Z.gtb_lt in Hpos. lia.
      * rewrite Ht.
        destruct (ProfileMem.hash_search_enter phost table (query_hash q)).
        -- eexists. split; [reflexivity |]. cbn.
           split; [discriminate |]. split; [| congruence].
           intros Hle. apply Z.gtb_lt in Hpos. lia.
        -- eexists. split; [reflexivity |]. cbn.
           split; [congruence |]. split; [| auto].
           intros Hle. apply Z.gtb_lt in Hpos. lia.
    + exists s1. split; [reflexivity |].
      split; [congruence |]. split; [| congruence].
      intros Hle. rewrite (Hkeep Hle). auto.
  - cbn [ProfileMem.aqo_profile_mem ProfileMem.with_aqo_profile_mem].
    eexists. split; [reflexivity |]. cbn.
    split; [reflexivity |]. split; [| congruence].
    intros Hle. rewrite (Hkeep Hle) in Ht |- *. rewrite Ht. auto.
Qed.

(** X21. With the table in place, profiling on and no failure so far,
    [update_profile_mem_table] adds the total time less the planning time
    to the entry of the query hash, starting from 0 when the entry is new,
    and a second call adds to the sum of the first; once the entry exists
    the update does not depend on the room left in the table. The entries
    of the other keys are unchanged. *)
Theorem update_profile_mem_table_accumulates
        (phost : ProfileMem.ProfileHost) (q : QueryContextData)
        (total1 planning1 total2 planning2 : double)
        (s : ProfileMem.State) (table : gmap Z double) :
  ProfileMem.profile_mem_queries s = Some table ->
  ProfileMem.aqo_profile_mem s > 0 ->
  ProfileMem.out_of_memory s = false ->
  (table !! query_hash q = None ->
   ProfileMem.hash_enter_fails phost table (query_hash q) = false) ->
  let time0 := match table !! query_hash q with
               | Some time => time
               | None => 0%float
               end in
  let time1 := (time0 + (total1 - planning1))%float in
  let time2 := (time1 + (total2 - planning2))%float in
  ProfileMem.update_profile_mem_table phost q total1 planning1 s =
  ProfileMem.Done
    tt (ProfileMem.with_profile_mem_queries
          (Some (<[ query_hash q := time1 ]> table)) s) /\
  ProfileMem.update_profile_mem_table
    phost q total2 planning2
    (ProfileMem.with_profile_mem_queries
       (Some (<[ query_hash q := time1 ]> table)) s) =
  ProfileMem.Done
    tt (ProfileMem.with_profile_mem_queries
          (Some (<[ query_hash q := time2 ]> table)) s) /\
  (forall key : Z,
      key <> query_hash q ->
      (<[ query_hash q := time2 ]> table) !! key = table !! key).
Proof.
  intros Ht Hpos Hoom Hroom time0 time1 time2.
  assert ((ProfileMem.aqo_profile_mem s >? 0) = true) as Hgt
      by (apply Z.gtb_lt; lia).
  clear Hpos. rename Hgt into Hpos.
  split; [| split].
  - unfold ProfileMem.update_profile_mem_table.
    rewrite (init_profile_shmem_table phost s table Ht), Hpos, Hoom, Ht.
    unfold ProfileMem.hash_search_enter. subst time1 time0.
    destruct (table !! query_hash q) as [time |]; [reflexivity |].
    rewrite (Hroom eq_refl). reflexivity.
  - unfold ProfileMem.update_profile_mem_table.
    rewrite (init_profile_shmem_table
               phost
               (ProfileMem.with_profile_mem_queries
                  (Some (<[ query_hash q := time1 ]> table)) s)
               (<[ query_hash q := time1 ]> table) eq_refl).
    cbn [ProfileMem.aqo_profile_mem ProfileMem.out_of_memory
         ProfileMem.profile_mem_queries ProfileMem.with_profile_mem_queries].
    rewrite Hpos, Hoom.
    unfold ProfileMem.hash_search_enter. rewrite lookup_insert_eq.
    rewrite insert_insert_eq. reflexivity.
  - intros key Hne. apply lookup_insert_ne. congruence.
Qed.

(** The class 16385 has 2 seconds; a query of 5 seconds, 1 of them for
    planning, brings it to 6. *)
Lemma update_profile_mem_table_accumulates_witness :
  exists s2 : ProfileMem.State,
    ProfileMem.update_profile_mem_table
      profile_host Examples.using_context 5%float 1%float
      (ProfileMem.with_profile_mem_queries
         (Some (<[ 16385 := 2%float ]> ∅)) profiling) =
    ProfileMem.Done tt s2 /\
    ProfileMem.profile_mem_queries s2 = Some (<[ 16385 := 6%float ]> ∅).
Proof.
  destruct (update_profile_mem_table_accumulates
              profile_host Examples.using_context 3%float 1%float 5%float
              1%float profiling ∅
              eq_refl ltac:(reflexivity) eq_refl (fun _ => eq_refl))
    as (_ & Hsecond & _).
  eexists. split; [exact Hsecond | reflexivity].
Defined.

(** X22. When [hash_search] fails to enter a new key,
    [update_profile_mem_table] sets [out_of_memory] and leaves the table;
    from then on it records nothing in this backend, neither for new keys
    nor for those that have an entry. *)
Theorem out_of_memory_stops_profiling
        (phost : ProfileMem.ProfileHost) (q : QueryContextData)
        (totaltime query_planning_time : double)
        (s : ProfileMem.State) (table : gmap Z double) :
  ProfileMem.profile_mem_queries s = Some table ->
  ProfileMem.aqo_profile_mem s > 0 ->
  (ProfileMem.out_of_memory s = false ->
   table !! query_hash q = None ->
   ProfileMem.hash_enter_fails phost table (query_hash q) = true ->
   ProfileMem.update_profile_mem_table
     phost q totaltime query_planning_time s =
   ProfileMem.Done tt (ProfileMem.with_out_of_memory true s)) /\
  (forall (q' : QueryContextData) (total' planning' : double),
      ProfileMem.update_profile_mem_table
        phost q' total' planning' (ProfileMem.with_out_of_memory true s) =
      ProfileMem.Done tt (ProfileMem.with_out_of_memory true s)).
Proof.
  intros Ht Hpos.
  assert ((ProfileMem.aqo_profile_mem s >? 0) = true) as Hgt
      by (apply Z.gtb_lt; lia).
  clear Hpos. rename Hgt into Hpos. split.
  - intros Hoom Hnew Hfail. unfold ProfileMem.update_profile_mem_table.
    rewrite (init_profile_shmem_table phost s table Ht), Hpos, Hoom, Ht.
    unfold ProfileMem.hash_search_enter. rewrite Hnew, Hfail. reflexivity.
  - intros q' total' planning'. unfold ProfileMem.update_profile_mem_table.
    rewrite (init_profile_shmem_table
               phost (ProfileMem.with_out_of_memory true s) table Ht).
    cbn [ProfileMem.aqo_profile_mem ProfileMem.out_of_memory
         ProfileMem.with_out_of_memory].
    rewrite Hpos. reflexivity.
Qed.

(** The table of the examples is full with one entry. *)
Lemma out_of_memory_stops_profiling_witness :
  ProfileMem.update_profile_mem_table
    profile_host Examples.using_context 5%float 1%float
    (ProfileMem.with_profile_mem_queries
       (Some {[ 7 := 2%float ]}) profiling) =
  ProfileMem.Done
    tt (ProfileMem.with_out_of_memory
          true
          (ProfileMem.with_profile_mem_queries
             (Some {[ 7 := 2%float ]}) profiling)).
Proof.
  apply (out_of_memory_stops_profiling
           profile_host Examples.using_context 5%float 1%float
           (ProfileMem.with_profile_mem_queries
              (Some {[ 7 := 2%float ]}) profiling)
           {[ 7 := 2%float ]} eq_refl ltac:(reflexivity));
    reflexivity.
Defined.

Lemma snprintf16_length (text : string) :
  (String.length (ProfileMem.snprintf16 text) <= 15)%nat.
Proof.
  unfold ProfileMem.snprintf16. generalize 15%nat as n. revert text.
  induction text as [| c text IH]; intros n.
  - destruct n; cbn; lia.
  - destruct n; cbn; [lia |]. specialize (IH n). lia.
Qed.

(** X23. [aqo_profile_mem_hash] raises an error, and changes nothing,
    exactly when it is not called where a set can be returned in
    materialize mode with a row type. Otherwise it returns one row for each
    entry of the table, made of the key and the time as [snprintf] prints
    them in 16 bytes, so of at most 15 characters each, and no row when the
    table cannot be initialized; it never reads a NULL table. *)
Theorem aqo_profile_mem_hash_rows
        (phost : ProfileMem.ProfileHost)
        (fcinfo : ProfileMem.FunctionCallInfo) (s : ProfileMem.State) :
  match ProfileMem.aqo_profile_mem_hash phost fcinfo s with
  | ProfileMem.Done rows s' =>
      ProfileMem.rsinfo_is_ReturnSetInfo fcinfo = true /\
      ProfileMem.allows_SFRM_Materialize fcinfo = true /\
      ProfileMem.result_is_composite fcinfo = true /\
      s' = snd (ProfileMem.init_profile_shmem phost s) /\
      match ProfileMem.profile_mem_queries s' with
      | None => rows = []
      | Some table =>
          length rows = size table /\
          (forall key_text time_text : string,
              In (key_text, time_text) rows <->
              exists (key : Z) (time : double),
                table !! key = Some time /\
                key_text =
                  ProfileMem.snprintf16 (ProfileMem.format_d phost key) /\
                time_text =
                  ProfileMem.snprintf16 (ProfileMem.format_f5 phost time)) /\
          Forall (fun row : string * string =>
                    (String.length (fst row) <= 15)%nat /\
                    (String.length (snd row) <= 15)%nat) rows
      end
  | ProfileMem.Raised _ s' =>
      s' = s /\
      (ProfileMem.rsinfo_is_ReturnSetInfo fcinfo = false \/
       ProfileMem.allows_SFRM_Materialize fcinfo = false \/
       ProfileMem.result_is_composite fcinfo = false)
  | ProfileMem.NullTable => False
  end.
Proof.
  unfold ProfileMem.aqo_profile_mem_hash.
  destruct (ProfileMem.rsinfo_is_ReturnSetInfo fcinfo); cbn [negb]; [| auto].
  destruct (ProfileMem.allows_SFRM_Materialize fcinfo); cbn [negb]; [| auto].
  destruct (ProfileMem.result_is_composite fcinfo); cbn [negb]; [| auto].
  destruct (init_profile_shmem_answer phost s) as (s1 & Hinit & _).
  rewrite Hinit. cbn [snd].
  destruct (ProfileMem.profile_mem_queries s1) as [table |] eqn:Ht;
    cbn [negb].
  2: { rewrite Ht. auto 10. }
  rewrite Ht. repeat (split; [reflexivity |]).
  split; [rewrite length_map; apply length_map_to_list |].
  split.
  - intros key_text time_text. rewrite in_map_iff. split.
    + intros ([key time] & Heq & Hin). injection Heq as <- <-.
      apply list_elem_of_In, elem_of_map_to_list in Hin.
      exists key, time. auto.
    + intros (key & time & Hl & -> & ->). exists (key, time).
      split; [reflexivity |].
      apply list_elem_of_In, elem_of_map_to_list. exact Hl.
  - apply List.Forall_forall. intros row Hin.
    apply in_map_iff in Hin as (entry & <- & _). cbn [fst snd].
    split; apply snprintf16_length.
Qed.
